(** * BackendRoudase: the expense-tracking REST API, embedded and verified

    The repository holds three generations of the same Express router:

    - [InMemory]  (src/routes.ts)    module-level arrays, no currencies;
    - [Baseline]  (Prisma, no auth)  users, categories, currencies, records;
    - [Auth]      (Prisma + JWT)     the same routes behind [authMiddleware].

    Handlers are embedded as computations in a state-and-exception monad over
    the store.  The relational store follows the migrations: SERIAL primary
    keys, the unique indexes, and the foreign keys with their ON DELETE
    actions, and INTEGER keys.  What belongs to the platform (Number() on
    strings, the string methods, bcrypt, jsonwebtoken, Date) is an
    interface, [Platform], that the development is parametric in. *)

From Stdlib Require Import ZArith List String Ascii Bool Lia.
Import ListNotations.

Local Open Scope string_scope.
Local Open Scope list_scope.
Local Open Scope Z_scope.

Set Implicit Arguments.
Local Set Warnings "-register-all".

(** ** JavaScript values *)

(** A JS number as far as the handlers tell numbers apart: [NaN], which
    every [Number.isNaN] guard rejects, or an integer, of any size.
    Non-integral doubles and the infinities are left out of the model: the
    statements are about requests whose numbers are NaN or integers, and an
    amount, which is only ever stored and sent back, is carried as an
    integer too. *)
Inductive number : Type :=
| NaN
| Int (z : Z).

Inductive value : Type :=
| VUndefined
| VNull
| VBool (b : bool)
| VNum (n : number)
| VStr (s : string)
| VArr (l : list value)
| VObj (fields : list (string * value)).

Definition object := list (string * value).

(** [o.k]: the property, or [undefined]. *)
Fixpoint get (k : string) (o : object) : value :=
  match o with
  | [] => VUndefined
  | (k', v) :: rest => if String.eqb k k' then v else get k rest
  end.

(** ToBoolean. *)
Definition truthy (v : value) : bool :=
  match v with
  | VUndefined | VNull => false
  | VBool b => b
  | VNum NaN => false
  | VNum (Int z) => negb (z =? 0)
  | VStr s => negb (String.eqb s "")
  | VArr _ | VObj _ => true
  end.

Inductive jstype := TUndefined | TObject | TBoolean | TNumber | TString.

Definition typeof (v : value) : jstype :=
  match v with
  | VUndefined => TUndefined
  | VNull | VArr _ | VObj _ => TObject
  | VBool _ => TBoolean
  | VNum _ => TNumber
  | VStr _ => TString
  end.

Definition jstype_eqb (a b : jstype) : bool :=
  match a, b with
  | TUndefined, TUndefined | TObject, TObject | TBoolean, TBoolean
  | TNumber, TNumber | TString, TString => true
  | _, _ => false
  end.

(** The string behind a value that passed [typeof v === "string"], the
    number behind one that passed [typeof v === "number"]. *)
Definition text (v : value) : string :=
  match v with VStr s => s | _ => EmptyString end.

Definition number_of (v : value) : number :=
  match v with VNum n => n | _ => NaN end.

(** [v !== undefined && v !== null] *)
Definition supplied (v : value) : bool :=
  match v with VUndefined | VNull => false | _ => true end.

(** [v !== undefined] *)
Definition defined (v : value) : bool :=
  match v with VUndefined => false | _ => true end.

(** ** Strings

    A string is carried as the bytes of its UTF-8 encoding: equality, the
    empty string and [split] on a space are the same on the bytes as on the
    UTF-16 code units JavaScript works on.  What JavaScript computes from
    the code units and the Unicode tables ([length], [trim], the case maps)
    belongs to the platform, below. *)

(** [s.split(sep)] for a one-character separator. *)
Fixpoint split (sep : ascii) (s : string) : list string :=
  match s with
  | EmptyString => [EmptyString]
  | String c rest =>
      if Ascii.eqb c sep then EmptyString :: split sep rest
      else match split sep rest with
           | [] => [String c EmptyString]
           | piece :: pieces => String c piece :: pieces
           end
  end.

(** ** The platform *)

(** What [jwt.verify] does: return the payload's [userId], or throw an
    error that carries a [name]. *)
Inductive verified : Type :=
| Payload (userId : value)
| VerifyError (name : string).

Class Platform : Type := {
  (** [Number(s)] on a string *)
  StringToNumber : string -> number;
  (** [Number(o)] on an array or object (through ToPrimitive) *)
  ObjectToNumber : value -> number;
  (** [bcrypt.hash(password, rounds)], with the salt it draws made explicit *)
  bcrypt_hash : string -> Z -> string -> string;
  (** [bcrypt.compare(password, hash)] *)
  bcrypt_compare : string -> string -> bool;
  (** [process.env.JWT_SECRET || "dev-secret"] *)
  JWT_SECRET : string;
  (** [jwt.sign({ userId }, secret, { expiresIn: "1h" })] at a given time *)
  jwt_sign : Z -> string -> Z -> string;
  (** [jwt.verify(token, secret)] at a given time *)
  jwt_verify : string -> string -> Z -> verified;
  (** [new Date(t).toISOString()] *)
  toISOString : Z -> string;
  (** [s.length]: the number of UTF-16 code units of [s] *)
  string_length : string -> nat;
  (** [s.trim()]: [s] without the white space and line terminators of
      ECMAScript at its two ends *)
  trim : string -> string;
  (** [s.toLowerCase()] and [s.toUpperCase()], by the Unicode case maps *)
  toLowerCase : string -> string;
  toUpperCase : string -> string
}.

(** [Number(v)] *)
Definition Number_ {platform : Platform} (v : value) : number :=
  match v with
  | VUndefined => NaN
  | VNull => Int 0
  | VBool true => Int 1
  | VBool false => Int 0
  | VNum n => n
  | VStr s => StringToNumber s
  | VArr _ | VObj _ => ObjectToNumber v
  end.

(** ** Requests and responses *)

Record Request : Type := {
  params : list (string * string);   (* req.params, captured from the path *)
  query : object;                    (* req.query *)
  body : object;                     (* req.body, after express.json() *)
  headers : list (string * string);  (* lower-cased names, as Node keeps them *)
  userId : value                     (* AuthRequest.userId *)
}.

Definition param (k : string) (req : Request) : value :=
  match find (fun kv => String.eqb k (fst kv)) (params req) with
  | Some kv => VStr (snd kv)
  | None => VUndefined
  end.

(** [req.header(name)] *)
Definition header {platform : Platform} (name : string) (req : Request)
  : option string :=
  option_map snd
    (find (fun kv => String.eqb (toLowerCase name) (fst kv)) (headers req)).

Definition with_userId (req : Request) (u : value) : Request :=
  {| params := params req; query := query req; body := body req;
     headers := headers req; userId := u |}.

Record Response : Type := {
  status : Z;
  payload : value   (* [VUndefined]: no body was sent *)
}.

(** [res.status(c).json(v)] and [res.json(v)] *)
Definition json (c : Z) (v : value) : Response := {| status := c; payload := v |}.
(** [res.status(c).send()] *)
Definition send (c : Z) : Response := {| status := c; payload := VUndefined |}.

Definition message (c : Z) (m : string) : Response :=
  json c (VObj [("message", VStr m)]).

(** ** Computations over the store

    A store call either returns or throws; a statement that throws leaves
    the tables as they were, what ran before it stays done. *)

Inductive PrismaError : Type :=
| P2002   (* unique constraint failed *)
| P2003   (* foreign key constraint failed *)
| P2020   (* value out of range for the type of the column *)
| P2025   (* record to update or delete not found *)
| PrismaClientValidationError.  (* an argument of the wrong type *)

Inductive outcome (A : Type) : Type :=
| Ok (a : A)
| Throw (e : PrismaError).
Arguments Throw {A} e.

Definition M (S A : Type) : Type := S -> outcome A * S.

Definition ret {S A} (a : A) : M S A := fun s => (Ok a, s).

Definition bind {S A B} (m : M S A) (k : A -> M S B) : M S B :=
  fun s =>
    match m s with
    | (Ok a, s') => k a s'
    | (Throw e, s') => (Throw e, s')
    end.

Declare Scope await_scope.
Delimit Scope await_scope with await.
Notation "'let*' x := m 'in' k" := (bind m (fun x => k))
  (at level 10, x name, m at level 100, k at level 200) : await_scope.
Notation "m ;; k" := (bind m (fun _ => k))
  (at level 100, k at level 200, right associativity) : await_scope.

Definition throw {S A} (e : PrismaError) : M S A := fun s => (Throw e, s).

(** An [Int] argument of a query: NaN is no integer, the client refuses it. *)
Definition int {S} (n : number) : M S Z :=
  match n with
  | Int z => ret z
  | NaN => throw PrismaClientValidationError
  end.

(** What a handler reads from outside the request and the store. *)
Record World : Type := {
  now : Z;         (* the clock *)
  salt : string    (* the salt bcrypt would draw *)
}.

(** [asyncHandler(fn)] forwards a rejection to [next], and the application's
    last middleware (app.ts) answers it with 500. *)
Definition asyncHandler {S} (fn : M S Response) : S -> Response * S :=
  fun s =>
    match fn s with
    | (Ok res, s') => (res, s')
    | (Throw _, s') => (message 500 "Internal server error", s')
    end.

(** ** The relational store (prisma/migrations)

    Four tables.  The [User] table changes between the two migrations, so
    the store is generic in its rows; [UserRow] is what the foreign keys and
    the joins need of them. *)

Module Category.
Record t : Type := { id : Z; name : string }.
Definition toJSON (c : t) : value :=
  VObj [("id", VNum (Int (id c))); ("name", VStr (name c))].
End Category.

Module Currency.
Record t : Type := { id : Z; code : string; name : string }.
Definition toJSON (c : t) : value :=
  VObj [("id", VNum (Int (id c))); ("code", VStr (code c));
        ("name", VStr (name c))].
End Currency.

Module ExpenseRecord.
Record t : Type := {
  id : Z;
  userId : Z;
  categoryId : Z;
  currencyId : Z;
  amount : number;
  createdAt : Z
}.
Definition fields {platform : Platform} (r : t) : object :=
  [("id", VNum (Int (id r))); ("userId", VNum (Int (userId r)));
   ("categoryId", VNum (Int (categoryId r)));
   ("currencyId", VNum (Int (currencyId r)));
   ("amount", VNum (amount r));
   ("createdAt", VStr (toISOString (createdAt r)))].
Definition toJSON {platform : Platform} (r : t) : value := VObj (fields r).
End ExpenseRecord.

Definition nullable {A} (f : A -> value) (o : option A) : value :=
  match o with Some a => f a | None => VNull end.

Class UserRow (U : Type) : Type := {
  user_id : U -> Z;
  user_defaultCurrencyId : U -> option Z;
  set_defaultCurrencyId : option Z -> U -> U;
  (** every scalar column of the row, as Prisma returns it *)
  user_fields : U -> object
}.

Module Prisma.
Section Tables.
Context {U : Type} `{UserRow U}.

Record Store : Type := {
  users : list U;
  categories : list Category.t;
  currencies : list Currency.t;
  records : list ExpenseRecord.t;
  (* the SERIAL sequences: the id the next insert takes *)
  User_id_seq : Z;
  Category_id_seq : Z;
  Currency_id_seq : Z;
  Record_id_seq : Z
}.

Definition set_users (f : list U -> list U) (s : Store) : Store :=
  {| users := f (users s); categories := categories s;
     currencies := currencies s; records := records s;
     User_id_seq := User_id_seq s; Category_id_seq := Category_id_seq s;
     Currency_id_seq := Currency_id_seq s; Record_id_seq := Record_id_seq s |}.

Definition set_categories (f : list Category.t -> list Category.t) (s : Store) : Store :=
  {| users := users s; categories := f (categories s);
     currencies := currencies s; records := records s;
     User_id_seq := User_id_seq s; Category_id_seq := Category_id_seq s;
     Currency_id_seq := Currency_id_seq s; Record_id_seq := Record_id_seq s |}.

Definition set_currencies (f : list Currency.t -> list Currency.t) (s : Store) : Store :=
  {| users := users s; categories := categories s;
     currencies := f (currencies s); records := records s;
     User_id_seq := User_id_seq s; Category_id_seq := Category_id_seq s;
     Currency_id_seq := Currency_id_seq s; Record_id_seq := Record_id_seq s |}.

Definition set_records (f : list ExpenseRecord.t -> list ExpenseRecord.t) (s : Store) : Store :=
  {| users := users s; categories := categories s;
     currencies := currencies s; records := f (records s);
     User_id_seq := User_id_seq s; Category_id_seq := Category_id_seq s;
     Currency_id_seq := Currency_id_seq s; Record_id_seq := Record_id_seq s |}.

(** [nextval]: sequences move on whether or not the insert goes through. *)
Definition next_User_id (s : Store) : Store :=
  {| users := users s; categories := categories s;
     currencies := currencies s; records := records s;
     User_id_seq := User_id_seq s + 1; Category_id_seq := Category_id_seq s;
     Currency_id_seq := Currency_id_seq s; Record_id_seq := Record_id_seq s |}.

Definition next_Category_id (s : Store) : Store :=
  {| users := users s; categories := categories s;
     currencies := currencies s; records := records s;
     User_id_seq := User_id_seq s; Category_id_seq := Category_id_seq s + 1;
     Currency_id_seq := Currency_id_seq s; Record_id_seq := Record_id_seq s |}.

Definition next_Currency_id (s : Store) : Store :=
  {| users := users s; categories := categories s;
     currencies := currencies s; records := records s;
     User_id_seq := User_id_seq s; Category_id_seq := Category_id_seq s;
     Currency_id_seq := Currency_id_seq s + 1; Record_id_seq := Record_id_seq s |}.

Definition next_Record_id (s : Store) : Store :=
  {| users := users s; categories := categories s;
     currencies := currencies s; records := records s;
     User_id_seq := User_id_seq s; Category_id_seq := Category_id_seq s;
     Currency_id_seq := Currency_id_seq s; Record_id_seq := Record_id_seq s + 1 |}.

Definition has_user (id : Z) (s : Store) : bool :=
  existsb (fun u => user_id u =? id) (users s).
Definition has_category (id : Z) (s : Store) : bool :=
  existsb (fun c => Category.id c =? id) (categories s).
Definition has_currency (id : Z) (s : Store) : bool :=
  existsb (fun c => Currency.id c =? id) (currencies s).

Definition Q (A : Type) : Type := M Store A.

(** The key columns are INTEGER: 32-bit and signed.  The query engine
    refuses a query value that does not fit, and the call rejects (P2020).
    The rows of a table hold values that fit, so a value some row holds is
    not refused: [findUnique] makes the test where it finds no row.  The
    calls that follow a [findUnique] in a handler ([count], [deleteMany],
    [update], [delete], [create]) are given keys that were found. *)
Definition INTEGER (z : Z) : bool :=
  (-2147483648 <=? z) && (z <=? 2147483647).

Definition not_found {A} (id : Z) : Q (option A) :=
  fun s => if INTEGER id then (Ok None, s) else (Throw P2020, s).

(** *** prisma.user *)

Definition user_findUnique (id : Z) : Q (option U) :=
  fun s =>
    match find (fun u => user_id u =? id) (users s) with
    | Some u => (Ok (Some u), s)
    | None => not_found id s
    end.

Definition user_findMany : Q (list U) :=
  fun s => (Ok (users s), s).

(** [row] builds the row from the id the sequence hands out.
    User_defaultCurrencyId_fkey guards the insert. *)
Definition user_create (row : Z -> U) : Q U :=
  fun s =>
    let u := row (User_id_seq s) in
    match user_defaultCurrencyId u with
    | Some c =>
        if has_currency c s
        then (Ok u, set_users (fun l => l ++ [u]) (next_User_id s))
        else (Throw P2003, next_User_id s)
    | None => (Ok u, set_users (fun l => l ++ [u]) (next_User_id s))
    end.

Definition user_update_defaultCurrencyId (id c : Z) : Q U :=
  fun s =>
    match find (fun u => user_id u =? id) (users s) with
    | None => (Throw P2025, s)
    | Some u =>
        if has_currency c s
        then (Ok (set_defaultCurrencyId (Some c) u),
              set_users
                (map (fun x => if user_id x =? id
                               then set_defaultCurrencyId (Some c) x else x)) s)
        else (Throw P2003, s)
    end.

(** Record_userId_fkey is ON DELETE RESTRICT. *)
Definition user_delete (id : Z) : Q U :=
  fun s =>
    match find (fun u => user_id u =? id) (users s) with
    | None => (Throw P2025, s)
    | Some u =>
        if existsb (fun r => ExpenseRecord.userId r =? id) (records s)
        then (Throw P2003, s)
        else (Ok u, set_users (filter (fun x => negb (user_id x =? id))) s)
    end.

(** *** prisma.category *)

Definition category_findUnique (id : Z) : Q (option Category.t) :=
  fun s =>
    match find (fun c => Category.id c =? id) (categories s) with
    | Some c => (Ok (Some c), s)
    | None => not_found id s
    end.

Definition category_findMany : Q (list Category.t) :=
  fun s => (Ok (categories s), s).

Definition category_create (name : string) : Q Category.t :=
  fun s =>
    let c := {| Category.id := Category_id_seq s; Category.name := name |} in
    (Ok c, set_categories (fun l => l ++ [c]) (next_Category_id s)).

(** Record_categoryId_fkey is ON DELETE RESTRICT. *)
Definition category_delete (id : Z) : Q Category.t :=
  fun s =>
    match find (fun c => Category.id c =? id) (categories s) with
    | None => (Throw P2025, s)
    | Some c =>
        if existsb (fun r => ExpenseRecord.categoryId r =? id) (records s)
        then (Throw P2003, s)
        else (Ok c, set_categories
                      (filter (fun x => negb (Category.id x =? id))) s)
    end.

(** *** prisma.currency *)

Definition currency_findUnique (id : Z) : Q (option Currency.t) :=
  fun s =>
    match find (fun c => Currency.id c =? id) (currencies s) with
    | Some c => (Ok (Some c), s)
    | None => not_found id s
    end.

Definition currency_findMany : Q (list Currency.t) :=
  fun s => (Ok (currencies s), s).

(** Currency_code_key is a unique index. *)
Definition currency_create (code name : string) : Q Currency.t :=
  fun s =>
    let c := {| Currency.id := Currency_id_seq s;
                Currency.code := code; Currency.name := name |} in
    if existsb (fun x => String.eqb (Currency.code x) code) (currencies s)
    then (Throw P2002, next_Currency_id s)
    else (Ok c, set_currencies (fun l => l ++ [c]) (next_Currency_id s)).

(** Record_currencyId_fkey is ON DELETE RESTRICT,
    User_defaultCurrencyId_fkey is ON DELETE SET NULL. *)
Definition currency_delete (id : Z) : Q Currency.t :=
  fun s =>
    match find (fun c => Currency.id c =? id) (currencies s) with
    | None => (Throw P2025, s)
    | Some c =>
        if existsb (fun r => ExpenseRecord.currencyId r =? id) (records s)
        then (Throw P2003, s)
        else (Ok c,
              set_users
                (map (fun u => match user_defaultCurrencyId u with
                               | Some d => if d =? id
                                           then set_defaultCurrencyId None u
                                           else u
                               | None => u
                               end))
                (set_currencies
                   (filter (fun x => negb (Currency.id x =? id))) s))
    end.

(** *** prisma.record *)

(** A [where] clause: the conjunction of the equalities that are set. *)
Record RecordWhere : Type := {
  where_userId : option Z;
  where_categoryId : option Z;
  where_currencyId : option Z
}.

Definition holds (o : option Z) (z : Z) : bool :=
  match o with Some x => z =? x | None => true end.

Definition satisfies (w : RecordWhere) (r : ExpenseRecord.t) : bool :=
  holds (where_userId w) (ExpenseRecord.userId r)
  && holds (where_categoryId w) (ExpenseRecord.categoryId r)
  && holds (where_currencyId w) (ExpenseRecord.currencyId r).

(** The three foreign keys of [Record] guard the insert. *)
Definition record_create (userId categoryId currencyId : Z) (amount : number)
    (now : Z) : Q ExpenseRecord.t :=
  fun s =>
    let r := {| ExpenseRecord.id := Record_id_seq s;
                ExpenseRecord.userId := userId;
                ExpenseRecord.categoryId := categoryId;
                ExpenseRecord.currencyId := currencyId;
                ExpenseRecord.amount := amount;
                ExpenseRecord.createdAt := now |} in
    if has_user userId s && has_category categoryId s
       && has_currency currencyId s
    then (Ok r, set_records (fun l => l ++ [r]) (next_Record_id s))
    else (Throw P2003, next_Record_id s).

Definition record_findUnique (id : Z) : Q (option ExpenseRecord.t) :=
  fun s =>
    match find (fun r => ExpenseRecord.id r =? id) (records s) with
    | Some r => (Ok (Some r), s)
    | None => not_found id s
    end.

(** Does every value of the clause fit its INTEGER column? *)
Definition fits (o : option Z) : bool :=
  match o with Some x => INTEGER x | None => true end.

Definition in_range (w : RecordWhere) : bool :=
  fits (where_userId w) && fits (where_categoryId w)
  && fits (where_currencyId w).

Definition record_findMany (w : RecordWhere) : Q (list ExpenseRecord.t) :=
  fun s =>
    if in_range w
    then (Ok (filter (satisfies w) (records s)), s)
    else (Throw P2020, s).

Definition record_count (w : RecordWhere) : Q Z :=
  fun s => (Ok (Z.of_nat (List.length (filter (satisfies w) (records s)))), s).

Definition record_deleteMany (w : RecordWhere) : Q Z :=
  fun s =>
    (Ok (Z.of_nat (List.length (filter (satisfies w) (records s)))),
     set_records (filter (fun r => negb (satisfies w r))) s).

Definition record_delete (id : Z) : Q ExpenseRecord.t :=
  fun s =>
    match find (fun r => ExpenseRecord.id r =? id) (records s) with
    | None => (Throw P2025, s)
    | Some r =>
        (Ok r, set_records
                 (filter (fun x => negb (ExpenseRecord.id x =? id))) s)
    end.

(** *** Joined and projected reads

    [include] adds the related rows to every scalar column of the row;
    [select] keeps the named columns only.  The joins are read in the
    store the statement leaves behind. *)

Definition the_currency (s : Store) (id : option Z) : option Currency.t :=
  match id with
  | Some c => find (fun x => Currency.id x =? c) (currencies s)
  | None => None
  end.

Definition defaultCurrency (s : Store) (u : U) : string * value :=
  ("defaultCurrency",
   nullable Currency.toJSON (the_currency s (user_defaultCurrencyId u))).

(** [include: { defaultCurrency: true }] *)
Definition include_defaultCurrency (s : Store) (u : U) : value :=
  VObj (user_fields u ++ [defaultCurrency s u]).

Definition pick (keys : list string) (o : object) : object :=
  filter (fun kv => existsb (String.eqb (fst kv)) keys) o.

(** [include: { user: true, category: true, currency: true }] *)
Definition include_user_category_currency {platform : Platform} (s : Store)
    (r : ExpenseRecord.t) : value :=
  VObj (ExpenseRecord.fields r
        ++ [("user",
             nullable (fun u => VObj (user_fields u))
               (find (fun u => user_id u =? ExpenseRecord.userId r) (users s)));
            ("category",
             nullable Category.toJSON
               (find (fun c => Category.id c =? ExpenseRecord.categoryId r)
                  (categories s)));
            ("currency",
             nullable Currency.toJSON
               (find (fun c => Currency.id c =? ExpenseRecord.currencyId r)
                  (currencies s)))]).

(** A read or write whose result is shaped by [include] or [select]. *)
Definition shaped {A} (shape : Store -> A -> value) (q : Q A) : Q value :=
  fun s =>
    match q s with
    | (Ok a, s') => (Ok (shape s' a), s')
    | (Throw e, s') => (Throw e, s')
    end.

Definition shaped_option {A} (shape : Store -> A -> value)
    (q : Q (option A)) : Q (option value) :=
  fun s =>
    match q s with
    | (Ok a, s') => (Ok (option_map (shape s') a), s')
    | (Throw e, s') => (Throw e, s')
    end.

Definition shaped_list {A} (shape : Store -> A -> value)
    (q : Q (list A)) : Q (list value) :=
  fun s =>
    match q s with
    | (Ok l, s') => (Ok (map (shape s') l), s')
    | (Throw e, s') => (Throw e, s')
    end.

End Tables.
End Prisma.

(** ** The in-memory router (src/routes.ts) *)

Module InMemory.

Record User : Type := { User_id : Z; User_name : string }.
Record Category : Type := { Category_id : Z; Category_name : string }.
Record ExpenseRecord : Type := {
  id : Z;
  userId : Z;
  categoryId : Z;
  amount : number;
  createdAt : string
}.

(** The module-level variables. *)
Record State : Type := {
  users : list User;
  categories : list Category;
  records : list ExpenseRecord;
  nextUserId : Z;
  nextCategoryId : Z;
  nextRecordId : Z
}.

Definition initial : State :=
  {| users := []; categories := []; records := [];
     nextUserId := 1; nextCategoryId := 1; nextRecordId := 1 |}.

Definition User_toJSON (u : User) : value :=
  VObj [("id", VNum (Int (User_id u))); ("name", VStr (User_name u))].
Definition Category_toJSON (c : Category) : value :=
  VObj [("id", VNum (Int (Category_id c))); ("name", VStr (Category_name c))].
Definition ExpenseRecord_toJSON (r : ExpenseRecord) : value :=
  VObj [("id", VNum (Int (id r))); ("userId", VNum (Int (userId r)));
        ("categoryId", VNum (Int (categoryId r)));
        ("amount", VNum (amount r)); ("createdAt", VStr (createdAt r))].

Definition Handler : Type := State -> Response * State.

Section Routes.
Context {platform : Platform}.

(** GET /category *)
Definition GET_category (req : Request) : Handler :=
  fun st => (json 200 (VArr (map Category_toJSON (categories st))), st).

(** POST /category *)
Definition POST_category (req : Request) : Handler :=
  fun st =>
    let name := get "name" (body req) in
    if negb (truthy name) || negb (jstype_eqb (typeof name) TString)
    then (message 400 "Field 'name' is required", st)
    else
      let newCategory :=
        {| Category_id := nextCategoryId st;
           Category_name := trim (text name) |} in
      (json 201 (Category_toJSON newCategory),
       {| users := users st;
          categories := categories st ++ [newCategory];
          records := records st;
          nextUserId := nextUserId st;
          nextCategoryId := nextCategoryId st + 1;
          nextRecordId := nextRecordId st |}).

(** DELETE /category?id= *)
Definition DELETE_category (req : Request) : Handler :=
  fun st =>
    let idParam := get "id" (query req) in
    if negb (truthy idParam)
    then (message 400 "Query parameter 'id' is required", st)
    else
      match Number_ idParam with
      | NaN => (message 400 "Invalid category id", st)
      | Int categoryId =>
          let kept :=
            filter (fun c => negb (Category_id c =? categoryId))
              (categories st) in
          if (List.length kept =? List.length (categories st))%nat
          then (message 404 "Category not found",
                {| users := users st; categories := kept;
                   records := records st;
                   nextUserId := nextUserId st;
                   nextCategoryId := nextCategoryId st;
                   nextRecordId := nextRecordId st |})
          else (send 204,
                {| users := users st; categories := kept;
                   records :=
                     filter (fun r => negb (InMemory.categoryId r =? categoryId))
                       (records st);
                   nextUserId := nextUserId st;
                   nextCategoryId := nextCategoryId st;
                   nextRecordId := nextRecordId st |})
      end.

(** GET /record?user_id=&category_id= *)
Definition GET_record (req : Request) : Handler :=
  fun st =>
    let userIdParam := get "user_id" (query req) in
    let categoryIdParam := get "category_id" (query req) in
    if negb (truthy userIdParam) && negb (truthy categoryIdParam)
    then (message 400
            "At least one of query parameters 'user_id' or 'category_id' is required",
          st)
    else
      let byCategory (filtered : list ExpenseRecord) :=
        if truthy categoryIdParam
        then match Number_ categoryIdParam with
             | NaN => (message 400 "Invalid category_id", st)
             | Int categoryId =>
                 (json 200
                    (VArr (map ExpenseRecord_toJSON
                             (filter (fun r => InMemory.categoryId r =? categoryId)
                                filtered))), st)
             end
        else (json 200 (VArr (map ExpenseRecord_toJSON filtered)), st) in
      if truthy userIdParam
      then match Number_ userIdParam with
           | NaN => (message 400 "Invalid user_id", st)
           | Int userId =>
               byCategory
                 (filter (fun r => InMemory.userId r =? userId) (records st))
           end
      else byCategory (records st).

(** GET /healthcheck *)
Definition GET_healthcheck (w : World) (req : Request) : Handler :=
  fun st =>
    (json 200 (VObj [("date", VStr (toISOString (now w)));
                     ("status", VStr "ok")]), st).

(** GET /user/<user_id> *)
Definition GET_user_userId (req : Request) : Handler :=
  fun st =>
    match Number_ (param "userId" req) with
    | NaN => (message 400 "Invalid user id", st)
    | Int userId =>
        match find (fun u => User_id u =? userId) (users st) with
        | None => (message 404 "User not found", st)
        | Some user => (json 200 (User_toJSON user), st)
        end
    end.

(** DELETE /user/<user_id> *)
Definition DELETE_user_userId (req : Request) : Handler :=
  fun st =>
    match Number_ (param "userId" req) with
    | NaN => (message 400 "Invalid user id", st)
    | Int userId =>
        let kept := filter (fun u => negb (User_id u =? userId)) (users st) in
        if (List.length kept =? List.length (users st))%nat
        then (message 404 "User not found",
              {| users := kept; categories := categories st;
                 records := records st;
                 nextUserId := nextUserId st;
                 nextCategoryId := nextCategoryId st;
                 nextRecordId := nextRecordId st |})
        else (send 204,
              {| users := kept; categories := categories st;
                 records :=
                   filter (fun r => negb (InMemory.userId r =? userId))
                     (records st);
                 nextUserId := nextUserId st;
                 nextCategoryId := nextCategoryId st;
                 nextRecordId := nextRecordId st |})
    end.

(** POST /user *)
Definition POST_user (req : Request) : Handler :=
  fun st =>
    let name := get "name" (body req) in
    if negb (truthy name) || negb (jstype_eqb (typeof name) TString)
    then (message 400 "Field 'name' is required", st)
    else
      let newUser :=
        {| User_id := nextUserId st; User_name := trim (text name) |} in
      (json 201 (User_toJSON newUser),
       {| users := users st ++ [newUser];
          categories := categories st;
          records := records st;
          nextUserId := nextUserId st + 1;
          nextCategoryId := nextCategoryId st;
          nextRecordId := nextRecordId st |}).

(** GET /users *)
Definition GET_users (req : Request) : Handler :=
  fun st => (json 200 (VArr (map User_toJSON (users st))), st).

(** GET /record/<record_id> *)
Definition GET_record_recordId (req : Request) : Handler :=
  fun st =>
    match Number_ (param "recordId" req) with
    | NaN => (message 400 "Invalid record id", st)
    | Int recordId =>
        match find (fun r => InMemory.id r =? recordId) (records st) with
        | None => (message 404 "Record not found", st)
        | Some record => (json 200 (ExpenseRecord_toJSON record), st)
        end
    end.

(** DELETE /record/<record_id> *)
Definition DELETE_record_recordId (req : Request) : Handler :=
  fun st =>
    match Number_ (param "recordId" req) with
    | NaN => (message 400 "Invalid record id", st)
    | Int recordId =>
        let kept :=
          filter (fun r => negb (InMemory.id r =? recordId)) (records st) in
        let st' :=
          {| users := users st; categories := categories st; records := kept;
             nextUserId := nextUserId st;
             nextCategoryId := nextCategoryId st;
             nextRecordId := nextRecordId st |} in
        if (List.length kept =? List.length (records st))%nat
        then (message 404 "Record not found", st')
        else (send 204, st')
    end.

(** POST /record.  [u.id === userId] holds of no [u] when [userId] is NaN. *)
Definition POST_record (w : World) (req : Request) : Handler :=
  fun st =>
    let userId := get "userId" (body req) in
    let categoryId := get "categoryId" (body req) in
    let amount := get "amount" (body req) in
    if negb (jstype_eqb (typeof userId) TNumber)
       || negb (jstype_eqb (typeof categoryId) TNumber)
       || negb (jstype_eqb (typeof amount) TNumber)
    then (message 400
            "Fields 'userId', 'categoryId' and 'amount' are required and must be numbers",
          st)
    else
      match number_of userId with
      | NaN => (message 400 "User does not exist", st)
      | Int userId =>
          match find (fun u => User_id u =? userId) (users st) with
          | None => (message 400 "User does not exist", st)
          | Some _ =>
              match number_of categoryId with
              | NaN => (message 400 "Category does not exist", st)
              | Int categoryId =>
                  match find (fun c => Category_id c =? categoryId)
                          (categories st) with
                  | None => (message 400 "Category does not exist", st)
                  | Some _ =>
                      let newRecord :=
                        {| id := nextRecordId st;
                           userId := userId;
                           categoryId := categoryId;
                           amount := number_of amount;
                           createdAt := toISOString (now w) |} in
                      (json 201 (ExpenseRecord_toJSON newRecord),
                       {| users := users st;
                          categories := categories st;
                          records := records st ++ [newRecord];
                          nextUserId := nextUserId st;
                          nextCategoryId := nextCategoryId st;
                          nextRecordId := nextRecordId st + 1 |})
                  end
              end
          end
      end.

(** *** The router *)
Inductive Route : Type :=
| healthcheck
| get_user | delete_user | post_user | get_users
| get_category | post_category | delete_category
| get_record_by_id | delete_record | post_record | get_record.

Definition router (r : Route) (w : World) (req : Request) : Handler :=
  match r with
  | healthcheck => GET_healthcheck w req
  | get_user => GET_user_userId req
  | delete_user => DELETE_user_userId req
  | post_user => POST_user req
  | get_users => GET_users req
  | get_category => GET_category req
  | post_category => POST_category req
  | delete_category => DELETE_category req
  | get_record_by_id => GET_record_recordId req
  | delete_record => DELETE_record_recordId req
  | post_record => POST_record w req
  | get_record => GET_record req
  end.

(** The state after a sequence of requests. *)
Fixpoint serve (reqs : list (Route * World * Request)) (st : State) : State :=
  match reqs with
  | [] => st
  | (r, w, req) :: rest => serve rest (snd (router r w req st))
  end.

End Routes.
End InMemory.

(** ** The Prisma router without authentication *)

Module Baseline.
Import Prisma.

(** The [User] table of the first migration. *)
Module User.
Record t : Type := { id : Z; name : string; defaultCurrencyId : option Z }.
End User.

#[global] Instance User_row : UserRow User.t := {
  user_id := User.id;
  user_defaultCurrencyId := User.defaultCurrencyId;
  set_defaultCurrencyId := fun d u =>
    {| User.id := User.id u; User.name := User.name u;
       User.defaultCurrencyId := d |};
  user_fields := fun u =>
    [("id", VNum (Int (User.id u))); ("name", VStr (User.name u));
     ("defaultCurrencyId",
      nullable (fun z => VNum (Int z)) (User.defaultCurrencyId u))]
}.

Definition Store : Type := @Prisma.Store User.t.
Definition Async (A : Type) : Type := M Store A.

Section Routes.
Context {platform : Platform}.
Local Open Scope await_scope.

(** GET /healthcheck *)
Definition GET_healthcheck (w : World) (req : Request) : Async Response :=
  ret (json 200 (VObj [("date", VStr (toISOString (now w)));
                       ("status", VStr "ok")])).

(** POST /user *)
Definition POST_user (req : Request) : Async Response :=
  let name := get "name" (body req) in
  if negb (truthy name) || negb (jstype_eqb (typeof name) TString)
  then ret (message 400 "Field 'name' is required")
  else
    let* user :=
      user_create (fun id => {| User.id := id; User.name := trim (text name);
                                User.defaultCurrencyId := None |}) in
    ret (json 201 (VObj (user_fields user))).

(** GET /user/:userId *)
Definition GET_user_userId (req : Request) : Async Response :=
  match Number_ (param "userId" req) with
  | NaN => ret (message 400 "Invalid user id")
  | Int userId =>
      let* user :=
        shaped_option include_defaultCurrency (user_findUnique userId) in
      match user with
      | None => ret (message 404 "User not found")
      | Some user => ret (json 200 user)
      end
  end.

(** DELETE /user/:userId *)
Definition DELETE_user_userId (req : Request) : Async Response :=
  match Number_ (param "userId" req) with
  | NaN => ret (message 400 "Invalid user id")
  | Int userId =>
      let* existing := user_findUnique userId in
      match existing with
      | None => ret (message 404 "User not found")
      | Some _ =>
          record_deleteMany
            {| where_userId := Some userId; where_categoryId := None;
               where_currencyId := None |} ;;
          user_delete userId ;;
          ret (send 204)
      end
  end.

(** GET /users *)
Definition GET_users (req : Request) : Async Response :=
  let* users := shaped_list include_defaultCurrency user_findMany in
  ret (json 200 (VArr users)).

(** PATCH /user/:userId/currency *)
Definition PATCH_user_userId_currency (req : Request) : Async Response :=
  match Number_ (param "userId" req) with
  | NaN => ret (message 400 "Invalid user id")
  | Int userId =>
      let currencyId := get "currencyId" (body req) in
      if negb (jstype_eqb (typeof currencyId) TNumber)
      then ret (message 400 "Field 'currencyId' is required and must be number")
      else
        let* user := user_findUnique userId in
        match user with
        | None => ret (message 404 "User not found")
        | Some _ =>
            let* currencyId := int (number_of currencyId) in
            let* currency := currency_findUnique currencyId in
            match currency with
            | None => ret (message 404 "Currency not found")
            | Some _ =>
                let* updated :=
                  shaped include_defaultCurrency
                    (user_update_defaultCurrencyId userId currencyId) in
                ret (json 200 updated)
            end
        end
  end.

(** GET /category *)
Definition GET_category (req : Request) : Async Response :=
  let* categories := category_findMany in
  ret (json 200 (VArr (map Category.toJSON categories))).

(** POST /category *)
Definition POST_category (req : Request) : Async Response :=
  let name := get "name" (body req) in
  if negb (truthy name) || negb (jstype_eqb (typeof name) TString)
  then ret (message 400 "Field 'name' is required")
  else
    let* category := category_create (trim (text name)) in
    ret (json 201 (Category.toJSON category)).

(** DELETE /category?id=1 *)
Definition DELETE_category (req : Request) : Async Response :=
  let idParam := get "id" (query req) in
  if negb (truthy idParam)
  then ret (message 400 "Query parameter 'id' is required")
  else
    match Number_ idParam with
    | NaN => ret (message 400 "Invalid category id")
    | Int categoryId =>
        let* existing := category_findUnique categoryId in
        match existing with
        | None => ret (message 404 "Category not found")
        | Some _ =>
            record_deleteMany
              {| where_userId := None; where_categoryId := Some categoryId;
                 where_currencyId := None |} ;;
            category_delete categoryId ;;
            ret (send 204)
        end
    end.

(** GET /currency *)
Definition GET_currency (req : Request) : Async Response :=
  let* currencies := currency_findMany in
  ret (json 200 (VArr (map Currency.toJSON currencies))).

(** POST /currency *)
Definition POST_currency (req : Request) : Async Response :=
  let code := get "code" (body req) in
  let name := get "name" (body req) in
  if negb (truthy code) || negb (jstype_eqb (typeof code) TString)
  then ret (message 400 "Field 'code' is required")
  else if negb (truthy name) || negb (jstype_eqb (typeof name) TString)
  then ret (message 400 "Field 'name' is required")
  else
    let* currency :=
      currency_create (toUpperCase (trim (text code))) (trim (text name)) in
    ret (json 201 (Currency.toJSON currency)).

(** DELETE /currency/:id *)
Definition DELETE_currency_id (req : Request) : Async Response :=
  match Number_ (param "id" req) with
  | NaN => ret (message 400 "Invalid currency id")
  | Int currencyId =>
      let* existing := currency_findUnique currencyId in
      match existing with
      | None => ret (message 404 "Currency not found")
      | Some _ =>
          let* recordsCount :=
            record_count
              {| where_userId := None; where_categoryId := None;
                 where_currencyId := Some currencyId |} in
          if recordsCount >? 0
          then ret (message 400
                      "Cannot delete currency: there are records using this currency")
          else
            currency_delete currencyId ;;
            ret (send 204)
      end
  end.

(** A [Float] argument of a query: the client refuses NaN. *)
Definition float (n : number) : Async number :=
  match n with
  | Int _ => ret n
  | NaN => throw PrismaClientValidationError
  end.

(** POST /record *)
Definition POST_record (w : World) (req : Request) : Async Response :=
  let userId := get "userId" (body req) in
  let categoryId := get "categoryId" (body req) in
  let amount := get "amount" (body req) in
  let currencyId := get "currencyId" (body req) in
  if negb (jstype_eqb (typeof userId) TNumber)
     || negb (jstype_eqb (typeof categoryId) TNumber)
     || negb (jstype_eqb (typeof amount) TNumber)
  then ret (message 400
              "Fields 'userId', 'categoryId' and 'amount' are required and must be numbers")
  else
    let* userId := int (number_of userId) in
    let* user := user_findUnique userId in
    match user with
    | None => ret (message 400 "User does not exist")
    | Some user =>
        let* categoryId := int (number_of categoryId) in
        let* category := category_findUnique categoryId in
        match category with
        | None => ret (message 400 "Category does not exist")
        | Some _ =>
            let create (finalCurrencyId : Z) : Async Response :=
              let* amount := float (number_of amount) in
              let* record :=
                record_create userId categoryId finalCurrencyId amount (now w) in
              ret (json 201 (ExpenseRecord.toJSON record)) in
            if jstype_eqb (typeof currencyId) TNumber
            then
              let* currencyId := int (number_of currencyId) in
              let* currency := currency_findUnique currencyId in
              match currency with
              | None => ret (message 400 "Currency does not exist")
              | Some _ => create currencyId
              end
            else
              (* [!user.defaultCurrencyId]: null, and 0 as well *)
              match User.defaultCurrencyId user with
              | None =>
                  ret (message 400
                         "User has no default currency and no currencyId was provided")
              | Some d =>
                  if d =? 0
                  then ret (message 400
                              "User has no default currency and no currencyId was provided")
                  else create d
              end
        end
    end.

(** GET /record/:recordId *)
Definition GET_record_recordId (req : Request) : Async Response :=
  match Number_ (param "recordId" req) with
  | NaN => ret (message 400 "Invalid record id")
  | Int recordId =>
      let* record :=
        shaped_option include_user_category_currency
          (record_findUnique recordId) in
      match record with
      | None => ret (message 404 "Record not found")
      | Some record => ret (json 200 record)
      end
  end.

(** DELETE /record/:recordId *)
Definition DELETE_record_recordId (req : Request) : Async Response :=
  match Number_ (param "recordId" req) with
  | NaN => ret (message 400 "Invalid record id")
  | Int recordId =>
      let* existing := record_findUnique recordId in
      match existing with
      | None => ret (message 404 "Record not found")
      | Some _ =>
          record_delete recordId ;;
          ret (send 204)
      end
  end.

(** GET /record?user_id=&category_id= *)
Definition GET_record (req : Request) : Async Response :=
  let userIdParam := get "user_id" (query req) in
  let categoryIdParam := get "category_id" (query req) in
  if negb (truthy userIdParam) && negb (truthy categoryIdParam)
  then ret (message 400
              "At least one of query parameters 'user_id' or 'category_id' is required")
  else
    let findMany (userId categoryId : option Z) : Async Response :=
      let* records :=
        shaped_list include_user_category_currency
          (record_findMany
             {| where_userId := userId; where_categoryId := categoryId;
                where_currencyId := None |}) in
      ret (json 200 (VArr records)) in
    let withCategory (userId : option Z) : Async Response :=
      if truthy categoryIdParam
      then match Number_ categoryIdParam with
           | NaN => ret (message 400 "Invalid category_id")
           | Int categoryId => findMany userId (Some categoryId)
           end
      else findMany userId None in
    if truthy userIdParam
    then match Number_ userIdParam with
         | NaN => ret (message 400 "Invalid user_id")
         | Int userId => withCategory (Some userId)
         end
    else withCategory None.

(** *** The router *)
Inductive Route : Type :=
| healthcheck | post_user | get_user | delete_user | get_users
| patch_user_currency
| get_category | post_category | delete_category
| get_currency | post_currency | delete_currency
| post_record | get_record_by_id | delete_record | get_record.

Definition handler (r : Route) (w : World) (req : Request) : Async Response :=
  match r with
  | healthcheck => GET_healthcheck w req
  | post_user => POST_user req
  | get_user => GET_user_userId req
  | delete_user => DELETE_user_userId req
  | get_users => GET_users req
  | patch_user_currency => PATCH_user_userId_currency req
  | get_category => GET_category req
  | post_category => POST_category req
  | delete_category => DELETE_category req
  | get_currency => GET_currency req
  | post_currency => POST_currency req
  | delete_currency => DELETE_currency_id req
  | post_record => POST_record w req
  | get_record_by_id => GET_record_recordId req
  | delete_record => DELETE_record_recordId req
  | get_record => GET_record req
  end.

Definition router (r : Route) (w : World) (req : Request)
  : Store -> Response * Store :=
  asyncHandler (handler r w req).

End Routes.
End Baseline.

(** ** The Prisma router behind JWT authentication *)

Module Auth.
Import Prisma.

(** The [User] table after the add_auth_fields migration. *)
Module User.
Record t : Type := {
  id : Z;
  name : string;
  email : string;
  passwordHash : string;
  defaultCurrencyId : option Z
}.
End User.

#[global] Instance User_row : UserRow User.t := {
  user_id := User.id;
  user_defaultCurrencyId := User.defaultCurrencyId;
  set_defaultCurrencyId := fun d u =>
    {| User.id := User.id u; User.name := User.name u;
       User.email := User.email u; User.passwordHash := User.passwordHash u;
       User.defaultCurrencyId := d |};
  user_fields := fun u =>
    [("id", VNum (Int (User.id u))); ("name", VStr (User.name u));
     ("email", VStr (User.email u));
     ("passwordHash", VStr (User.passwordHash u));
     ("defaultCurrencyId",
      nullable (fun z => VNum (Int z)) (User.defaultCurrencyId u))]
}.

Definition Store : Type := @Prisma.Store User.t.
Definition Async (A : Type) : Type := M Store A.

(** [prisma.user.findUnique({ where: { email } })] *)
Definition user_findUnique_email (email : string) : Async (option User.t) :=
  fun s => (Ok (find (fun u => String.eqb (User.email u) email) (users s)), s).

(** [prisma.user.create({ data: { name, email, passwordHash } })];
    User_email_key is a unique index. *)
Definition user_create_data (name email passwordHash : string) : Async User.t :=
  fun s =>
    if existsb (fun u => String.eqb (User.email u) email) (users s)
    then (Throw P2002, next_User_id s)
    else user_create
           (fun id => {| User.id := id; User.name := name; User.email := email;
                         User.passwordHash := passwordHash;
                         User.defaultCurrencyId := None |}) s.

(** [select: { id, name, email, defaultCurrencyId }] *)
Definition select_user (s : Store) (u : User.t) : value :=
  VObj (pick ["id"; "name"; "email"; "defaultCurrencyId"] (user_fields u)).

(** [select: { id, name, email, defaultCurrencyId, defaultCurrency }] *)
Definition select_user_defaultCurrency (s : Store) (u : User.t) : value :=
  VObj (pick ["id"; "name"; "email"; "defaultCurrencyId"] (user_fields u)
        ++ [defaultCurrency s u]).

(** What a middleware does with a request: answer it, or call [next()]. *)
Inductive Passed : Type :=
| Respond (res : Response)
| Next (req : Request).

(** The four answers of [authMiddleware]. *)
Definition authorization_required : Response :=
  json 401 (VObj [("error", VStr "authorization_required");
                  ("description",
                   VStr "Request does not contain an access token.")]).
Definition bearer_format : Response :=
  json 401 (VObj [("error", VStr "invalid_token");
                  ("message",
                   VStr "Authorization header must be in the format: Bearer <token>.")]).
Definition token_expired : Response :=
  json 401 (VObj [("error", VStr "token_expired");
                  ("message", VStr "The token has expired.")]).
Definition signature_failed : Response :=
  json 401 (VObj [("error", VStr "invalid_token");
                  ("message", VStr "Signature verification failed.")]).

Section Routes.
Context {platform : Platform}.
Local Open Scope await_scope.

(** GET /healthcheck *)
Definition GET_healthcheck (w : World) (req : Request) : Async Response :=
  ret (json 200 (VObj [("date", VStr (toISOString (now w)));
                       ("status", VStr "ok")])).

(** POST /user *)
Definition POST_user (w : World) (req : Request) : Async Response :=
  let name := get "name" (body req) in
  let email := get "email" (body req) in
  let password := get "password" (body req) in
  if negb (truthy name) || negb (jstype_eqb (typeof name) TString)
  then ret (message 400 "Field 'name' is required")
  else if negb (truthy email) || negb (jstype_eqb (typeof email) TString)
  then ret (message 400 "Field 'email' is required")
  else if negb (truthy password)
          || negb (jstype_eqb (typeof password) TString)
          || (string_length (text password) <? 6)%nat
  then ret (message 400 "Password must be at least 6 characters long")
  else
    let normalizedEmail := toLowerCase (trim (text email)) in
    let* existing := user_findUnique_email normalizedEmail in
    match existing with
    | Some _ => ret (message 400 "User with this email already exists")
    | None =>
        let passwordHash := bcrypt_hash (text password) 10 (salt w) in
        let* user :=
          shaped select_user
            (user_create_data (trim (text name)) normalizedEmail passwordHash) in
        ret (json 201 user)
    end.

(** POST /auth/login *)
Definition POST_auth_login (w : World) (req : Request) : Async Response :=
  let email := get "email" (body req) in
  let password := get "password" (body req) in
  if negb (truthy email) || negb (jstype_eqb (typeof email) TString)
     || negb (truthy password) || negb (jstype_eqb (typeof password) TString)
  then ret (message 400 "Email and password are required")
  else
    let normalizedEmail := toLowerCase (trim (text email)) in
    let* user := user_findUnique_email normalizedEmail in
    match user with
    | None => ret (message 401 "Invalid email or password")
    | Some user =>
        let isValid := bcrypt_compare (text password) (User.passwordHash user) in
        if negb isValid
        then ret (message 401 "Invalid email or password")
        else
          let token := jwt_sign (User.id user) JWT_SECRET (now w) in
          ret (json 200
                 (VObj [("accessToken", VStr token);
                        ("user",
                         VObj [("id", VNum (Int (User.id user)));
                               ("name", VStr (User.name user));
                               ("email", VStr (User.email user));
                               ("defaultCurrencyId",
                                nullable (fun z => VNum (Int z))
                                  (User.defaultCurrencyId user))])]))
    end.

(** authMiddleware *)
Definition authMiddleware (w : World) (req : Request) : Passed :=
  let authHeader := header "Authorization" req in
  match authHeader with
  | None => Respond authorization_required
  | Some authHeader =>
      if String.eqb authHeader ""   (* [!authHeader] on a string *)
      then Respond authorization_required
      else
        let pieces := split " " authHeader in
        let scheme := hd EmptyString pieces in
        match nth_error pieces 1 with
        | None => Respond bearer_format   (* [token] is undefined *)
        | Some token =>
            if negb (String.eqb scheme "Bearer") || String.eqb token ""
            then Respond bearer_format
            else
              match jwt_verify token JWT_SECRET (now w) with
              | Payload userId => Next (with_userId req userId)
              | VerifyError name =>
                  if String.eqb name "TokenExpiredError"
                  then Respond token_expired
                  else Respond signature_failed
              end
        end
  end.

(** GET /user/:userId *)
Definition GET_user_userId (req : Request) : Async Response :=
  match Number_ (param "userId" req) with
  | NaN => ret (message 400 "Invalid user id")
  | Int userId =>
      let* user :=
        shaped_option select_user_defaultCurrency (user_findUnique userId) in
      match user with
      | None => ret (message 404 "User not found")
      | Some user => ret (json 200 user)
      end
  end.

(** GET /users *)
Definition GET_users (req : Request) : Async Response :=
  let* users := shaped_list select_user_defaultCurrency user_findMany in
  ret (json 200 (VArr users)).

(** PATCH /user/:userId/currency *)
Definition PATCH_user_userId_currency (req : Request) : Async Response :=
  let currencyId := get "currencyId" (body req) in
  match Number_ (param "userId" req) with
  | NaN => ret (message 400 "Invalid user id")
  | Int userId =>
      match Number_ currencyId with
      | NaN => ret (message 400 "Invalid currency id")
      | Int parsedCurrencyId =>
          let* user := user_findUnique userId in
          match user with
          | None => ret (message 404 "User not found")
          | Some _ =>
              let* currency := currency_findUnique parsedCurrencyId in
              match currency with
              | None => ret (message 400 "Currency does not exist")
              | Some _ =>
                  let* updated :=
                    shaped select_user_defaultCurrency
                      (user_update_defaultCurrencyId userId parsedCurrencyId) in
                  ret (json 200 updated)
              end
          end
      end
  end.

(** DELETE /user/:userId *)
Definition DELETE_user_userId (req : Request) : Async Response :=
  match Number_ (param "userId" req) with
  | NaN => ret (message 400 "Invalid user id")
  | Int userId =>
      let* existing := user_findUnique userId in
      match existing with
      | None => ret (message 404 "User not found")
      | Some _ =>
          user_delete userId ;;
          ret (send 204)
      end
  end.

(** GET /category *)
Definition GET_category (req : Request) : Async Response :=
  let* categories := category_findMany in
  ret (json 200 (VArr (map Category.toJSON categories))).

(** POST /category *)
Definition POST_category (req : Request) : Async Response :=
  let name := get "name" (body req) in
  if negb (truthy name) || negb (jstype_eqb (typeof name) TString)
  then ret (message 400 "Field 'name' is required")
  else
    let* category := category_create (trim (text name)) in
    ret (json 201 (Category.toJSON category)).

(** DELETE /category *)
Definition DELETE_category (req : Request) : Async Response :=
  let idParam := get "id" (query req) in
  if negb (truthy idParam)
  then ret (message 400 "Query parameter 'id' is required")
  else
    match Number_ idParam with
    | NaN => ret (message 400 "Invalid category id")
    | Int categoryId =>
        let* category := category_findUnique categoryId in
        match category with
        | None => ret (message 404 "Category not found")
        | Some _ =>
            record_deleteMany
              {| where_userId := None; where_categoryId := Some categoryId;
                 where_currencyId := None |} ;;
            category_delete categoryId ;;
            ret (send 204)
        end
    end.

(** GET /currency *)
Definition GET_currency (req : Request) : Async Response :=
  let* currencies := currency_findMany in
  ret (json 200 (VArr (map Currency.toJSON currencies))).

(** POST /currency *)
Definition POST_currency (req : Request) : Async Response :=
  let code := get "code" (body req) in
  let name := get "name" (body req) in
  if negb (truthy code) || negb (jstype_eqb (typeof code) TString)
  then ret (message 400 "Field 'code' is required")
  else if negb (truthy name) || negb (jstype_eqb (typeof name) TString)
  then ret (message 400 "Field 'name' is required")
  else
    let* currency := currency_create (trim (text code)) (trim (text name)) in
    ret (json 201 (Currency.toJSON currency)).

(** DELETE /currency/:id *)
Definition DELETE_currency_id (req : Request) : Async Response :=
  match Number_ (param "id" req) with
  | NaN => ret (message 400 "Invalid currency id")
  | Int currencyId =>
      let* existing := currency_findUnique currencyId in
      match existing with
      | None => ret (message 404 "Currency not found")
      | Some _ =>
          currency_delete currencyId ;;
          ret (send 204)
      end
  end.

(** POST /record *)
Definition POST_record (w : World) (req : Request) : Async Response :=
  let userId := get "userId" (body req) in
  let categoryId := get "categoryId" (body req) in
  let amount := get "amount" (body req) in
  let currencyId := get "currencyId" (body req) in
  match Number_ userId, Number_ categoryId, Number_ amount with
  | Int parsedUserId, Int parsedCategoryId, Int parsedAmount =>
      let* user := user_findUnique parsedUserId in
      match user with
      | None => ret (message 400 "User does not exist")
      | Some user =>
          let* category := category_findUnique parsedCategoryId in
          match category with
          | None => ret (message 400 "Category does not exist")
          | Some _ =>
              let create (finalCurrencyId : Z) : Async Response :=
                let* record :=
                  record_create parsedUserId parsedCategoryId finalCurrencyId
                    (Int parsedAmount) (now w) in
                ret (json 201 (ExpenseRecord.toJSON record)) in
              if supplied currencyId
              then
                match Number_ currencyId with
                | NaN => ret (message 400 "Invalid currency id")
                | Int parsedCurrencyId =>
                    let* currency := currency_findUnique parsedCurrencyId in
                    match currency with
                    | None => ret (message 400 "Currency does not exist")
                    | Some _ => create parsedCurrencyId
                    end
                end
              else
                (* [!user.defaultCurrencyId]: null, and 0 as well *)
                match User.defaultCurrencyId user with
                | None =>
                    ret (message 400
                           "User has no default currency and no currencyId was provided")
                | Some d =>
                    if d =? 0
                    then ret (message 400
                                "User has no default currency and no currencyId was provided")
                    else create d
                end
          end
      end
  | _, _, _ =>
      ret (message 400
             "Fields 'userId', 'categoryId' and 'amount' must be numbers")
  end.

(** GET /record/:recordId *)
Definition GET_record_recordId (req : Request) : Async Response :=
  match Number_ (param "recordId" req) with
  | NaN => ret (message 400 "Invalid record id")
  | Int recordId =>
      let* record :=
        shaped_option include_user_category_currency
          (record_findUnique recordId) in
      match record with
      | None => ret (message 404 "Record not found")
      | Some record => ret (json 200 record)
      end
  end.

(** GET /record *)
Definition GET_record (req : Request) : Async Response :=
  let userId := get "userId" (query req) in
  let categoryId := get "categoryId" (query req) in
  let findMany (userId categoryId : option Z) : Async Response :=
    let* records :=
      shaped_list include_user_category_currency
        (record_findMany
           {| where_userId := userId; where_categoryId := categoryId;
              where_currencyId := None |}) in
    ret (json 200 (VArr records)) in
  let withCategory (parsedUserId : option Z) : Async Response :=
    if defined categoryId
    then match Number_ categoryId with
         | NaN => ret (message 400 "Invalid categoryId")
         | Int parsedCategoryId => findMany parsedUserId (Some parsedCategoryId)
         end
    else findMany parsedUserId None in
  if defined userId
  then match Number_ userId with
       | NaN => ret (message 400 "Invalid userId")
       | Int parsedUserId => withCategory (Some parsedUserId)
       end
  else withCategory None.

(** DELETE /record/:recordId *)
Definition DELETE_record_recordId (req : Request) : Async Response :=
  match Number_ (param "recordId" req) with
  | NaN => ret (message 400 "Invalid record id")
  | Int recordId =>
      let* existing := record_findUnique recordId in
      match existing with
      | None => ret (message 404 "Record not found")
      | Some _ =>
          record_delete recordId ;;
          ret (send 204)
      end
  end.

(** *** The router

    The routes in the order they are registered: the three public ones,
    [router.use(authMiddleware)], then the protected ones. *)
Inductive Route : Type :=
| healthcheck | post_user | post_auth_login
| get_user | get_users | patch_user_currency | delete_user
| get_category | post_category | delete_category
| get_currency | post_currency | delete_currency
| post_record | get_record_by_id | get_record | delete_record.

Definition public (r : Route) : bool :=
  match r with
  | healthcheck | post_user | post_auth_login => true
  | _ => false
  end.

Definition handler (r : Route) (w : World) (req : Request) : Async Response :=
  match r with
  | healthcheck => GET_healthcheck w req
  | post_user => POST_user w req
  | post_auth_login => POST_auth_login w req
  | get_user => GET_user_userId req
  | get_users => GET_users req
  | patch_user_currency => PATCH_user_userId_currency req
  | delete_user => DELETE_user_userId req
  | get_category => GET_category req
  | post_category => POST_category req
  | delete_category => DELETE_category req
  | get_currency => GET_currency req
  | post_currency => POST_currency req
  | delete_currency => DELETE_currency_id req
  | post_record => POST_record w req
  | get_record_by_id => GET_record_recordId req
  | get_record => GET_record req
  | delete_record => DELETE_record_recordId req
  end.

Definition router (r : Route) (w : World) (req : Request)
  : Store -> Response * Store :=
  if public r
  then asyncHandler (handler r w req)
  else match authMiddleware w req with
       | Respond res => fun s => (res, s)
       | Next req' => asyncHandler (handler r w req')
       end.

End Routes.
End Auth.

(** ** Vocabulary of the statements *)

(** Does a JSON document carry a property named [k], at any depth? *)
Fixpoint mentions (k : string) (v : value) : bool :=
  match v with
  | VArr l => existsb (mentions k) l
  | VObj fields =>
      (fix any (fs : list (string * value)) : bool :=
         match fs with
         | [] => false
         | (k', v') :: rest => String.eqb k' k || mentions k v' || any rest
         end) fields
  | _ => false
  end.

(** The [error] property of a response body. *)
Definition error_of (res : Response) : value :=
  match payload res with
  | VObj fields => get "error" fields
  | _ => VUndefined
  end.

(** "A header of the form [Bearer <token>]". *)
Definition bearer_form (h : string) : Prop :=
  exists t : string, t <> EmptyString /\ h = ("Bearer " ++ t)%string.

(** The text up to the first space: the token of ["Bearer " ++ t] is
    [before_space t], what follows it is not looked at. *)
Fixpoint before_space (s : string) : string :=
  match s with
  | EmptyString => EmptyString
  | String c rest =>
      if Ascii.eqb c " " then EmptyString else String c (before_space rest)
  end.

Fixpoint no_space (s : string) : bool :=
  match s with
  | EmptyString => true
  | String c rest => negb (Ascii.eqb c " ") && no_space rest
  end.

(** What the schema promises of a store: rows point at rows that exist,
    and the SERIAL keys of currencies start at 1. *)
Definition integrity {U : Type} `{UserRow U} (s : @Prisma.Store U) : bool :=
  forallb (fun u => match user_defaultCurrencyId u with
                    | Some c => Prisma.has_currency c s
                    | None => true
                    end) (Prisma.users s)
  && forallb (fun r => Prisma.has_user (ExpenseRecord.userId r) s
                       && Prisma.has_category (ExpenseRecord.categoryId r) s
                       && Prisma.has_currency (ExpenseRecord.currencyId r) s)
       (Prisma.records s)
  && forallb (fun c => 1 <=? Currency.id c) (Prisma.currencies s)
  && (1 <=? Prisma.Currency_id_seq s).

(** Writing a user's default currency leaves the key alone and is read back. *)
Class UserRowLaws {U : Type} (row : UserRow U) : Prop := {
  user_id_set : forall d u, user_id (set_defaultCurrencyId d u) = user_id u;
  user_defaultCurrencyId_set :
    forall d u, user_defaultCurrencyId (set_defaultCurrencyId d u) = d
}.

(** A computation that takes stores with integrity to stores with integrity. *)
Definition preserves {U : Type} `{UserRow U} {A : Type}
    (m : M (@Prisma.Store U) A) : Prop :=
  forall s, integrity s = true -> integrity (snd (m s)) = true.

(** A record in currency [c]; a record of user [u]. *)
Definition uses_currency (c : Z) (r : ExpenseRecord.t) : bool :=
  ExpenseRecord.currencyId r =? c.

Definition owned_by (u : Z) (r : ExpenseRecord.t) : bool :=
  ExpenseRecord.userId r =? u.



(** The middleware answers 401 with the given [error], and a protected
    route answers the same without touching the store. *)
Definition rejects {platform : Platform} (w : World) (req : Request)
    (error : string) : Prop :=
  exists res,
    Auth.authMiddleware w req = Auth.Respond res
    /\ status res = 401
    /\ error_of res = VStr error
    /\ forall (r : Auth.Route) (s : Auth.Store),
         Auth.public r = false -> Auth.router r w req s = (res, s).

(** The middleware lets the request through with [uid] attached, and a
    protected route runs its handler on that request. *)
Definition admits {platform : Platform} (w : World) (req : Request)
    (uid : value) : Prop :=
  Auth.authMiddleware w req = Auth.Next (with_userId req uid)
  /\ userId (with_userId req uid) = uid
  /\ forall (r : Auth.Route) (s : Auth.Store),
       Auth.public r = false ->
       Auth.router r w req s
       = asyncHandler (Auth.handler r w (with_userId req uid)) s.

(** *** The routes as they are registered: verb and path parameter *)

Inductive Method : Type := GET | POST | PATCH | DELETE.

Definition inmemory_method (r : InMemory.Route) : Method :=
  match r with
  | InMemory.healthcheck | InMemory.get_user | InMemory.get_users
  | InMemory.get_category | InMemory.get_record_by_id | InMemory.get_record => GET
  | InMemory.post_user | InMemory.post_category | InMemory.post_record => POST
  | InMemory.delete_user | InMemory.delete_category | InMemory.delete_record => DELETE
  end.

Definition baseline_method (r : Baseline.Route) : Method :=
  match r with
  | Baseline.healthcheck | Baseline.get_user | Baseline.get_users
  | Baseline.get_category | Baseline.get_currency
  | Baseline.get_record_by_id | Baseline.get_record => GET
  | Baseline.post_user | Baseline.post_category | Baseline.post_currency
  | Baseline.post_record => POST
  | Baseline.patch_user_currency => PATCH
  | Baseline.delete_user | Baseline.delete_category | Baseline.delete_currency
  | Baseline.delete_record => DELETE
  end.

Definition auth_method (r : Auth.Route) : Method :=
  match r with
  | Auth.healthcheck | Auth.get_user | Auth.get_users
  | Auth.get_category | Auth.get_currency
  | Auth.get_record_by_id | Auth.get_record => GET
  | Auth.post_user | Auth.post_auth_login | Auth.post_category
  | Auth.post_currency | Auth.post_record => POST
  | Auth.patch_user_currency => PATCH
  | Auth.delete_user | Auth.delete_category | Auth.delete_currency
  | Auth.delete_record => DELETE
  end.

(** The name of the parameter in the path, for the routes that have one. *)
Definition inmemory_path_param (r : InMemory.Route) : option string :=
  match r with
  | InMemory.get_user | InMemory.delete_user => Some "userId"
  | InMemory.get_record_by_id | InMemory.delete_record => Some "recordId"
  | _ => None
  end.

Definition baseline_path_param (r : Baseline.Route) : option string :=
  match r with
  | Baseline.get_user | Baseline.delete_user | Baseline.patch_user_currency =>
      Some "userId"
  | Baseline.delete_currency => Some "id"
  | Baseline.get_record_by_id | Baseline.delete_record => Some "recordId"
  | _ => None
  end.

Definition auth_path_param (r : Auth.Route) : option string :=
  match r with
  | Auth.get_user | Auth.delete_user | Auth.patch_user_currency => Some "userId"
  | Auth.delete_currency => Some "id"
  | Auth.get_record_by_id | Auth.delete_record => Some "recordId"
  | _ => None
  end.

(** *** States and stores that requests lead to *)

Fixpoint baseline_serve {platform : Platform}
    (reqs : list (Baseline.Route * World * Request)) (s : Baseline.Store)
  : Baseline.Store :=
  match reqs with
  | [] => s
  | (r, w, req) :: rest => baseline_serve rest (snd (Baseline.router r w req s))
  end.

Fixpoint auth_serve {platform : Platform}
    (reqs : list (Auth.Route * World * Request)) (s : Auth.Store) : Auth.Store :=
  match reqs with
  | [] => s
  | (r, w, req) :: rest => auth_serve rest (snd (Auth.router r w req s))
  end.

(** The Prisma store of a fresh database. *)
Definition empty_store {U : Type} : @Prisma.Store U :=
  {| Prisma.users := []; Prisma.categories := []; Prisma.currencies := [];
     Prisma.records := [];
     Prisma.User_id_seq := 1; Prisma.Category_id_seq := 1;
     Prisma.Currency_id_seq := 1; Prisma.Record_id_seq := 1 |}.

(** In the in-memory state: every record names a user and a category that
    are there. *)
Definition references_exist (st : InMemory.State) : Prop :=
  Forall (fun r =>
            existsb (fun u => InMemory.User_id u =? InMemory.userId r)
              (InMemory.users st) = true
            /\ existsb (fun c => InMemory.Category_id c =? InMemory.categoryId r)
                 (InMemory.categories st) = true)
    (InMemory.records st).

(** In the in-memory state: ids are below the counters and never repeat. *)
Definition fresh_ids (st : InMemory.State) : Prop :=
  Forall (fun u => InMemory.User_id u < InMemory.nextUserId st) (InMemory.users st)
  /\ Forall (fun c => InMemory.Category_id c < InMemory.nextCategoryId st)
       (InMemory.categories st)
  /\ Forall (fun r => InMemory.id r < InMemory.nextRecordId st) (InMemory.records st)
  /\ NoDup (map InMemory.User_id (InMemory.users st))
  /\ NoDup (map InMemory.Category_id (InMemory.categories st))
  /\ NoDup (map InMemory.id (InMemory.records st)).


(** No two users share an email; no two currencies share a code. *)
Definition unique_emails (s : Auth.Store) : Prop :=
  NoDup (map Auth.User.email (Prisma.users s)).

Definition unique_codes {U : Type} (s : @Prisma.Store U) : Prop :=
  NoDup (map Currency.code (Prisma.currencies s)).

(** A record of category [c]. *)
Definition in_category (c : Z) (r : ExpenseRecord.t) : bool :=
  ExpenseRecord.categoryId r =? c.

(** A computation that takes states where [P] holds to states where [P]
    holds. *)
Definition keeps {S A : Type} (P : S -> Prop) (m : M S A) : Prop :=
  forall s, P s -> P (snd (m s)).

(** Two stores with the same rows in each table; the sequences may differ. *)
Definition same_tables {U : Type} (s s' : @Prisma.Store U) : Prop :=
  Prisma.users s' = Prisma.users s
  /\ Prisma.categories s' = Prisma.categories s
  /\ Prisma.currencies s' = Prisma.currencies s
  /\ Prisma.records s' = Prisma.records s.

(** ** A concrete platform and concrete stores, to run the routes on *)

Module Demo.

Definition digit (c : ascii) : option Z :=
  let n := nat_of_ascii c in
  if Nat.leb 48 n && Nat.leb n 57 then Some (Z.of_nat (n - 48)) else None.

Fixpoint digits (acc : Z) (s : string) : number :=
  match s with
  | EmptyString => Int acc
  | String c rest =>
      match digit c with
      | Some d => digits (10 * acc + d) rest
      | None => NaN
      end
  end.

(** [s.length] from the UTF-8 bytes of [s]: a code point below U+10000
    (a sequence of one, two or three bytes) is one UTF-16 code unit, one
    above (four bytes) is two; a continuation byte counts with its lead. *)
Definition code_units (c : ascii) : nat :=
  let n := nat_of_ascii c in
  if Nat.ltb n 128 then 1%nat
  else if Nat.ltb n 192 then 0%nat
  else if Nat.ltb n 240 then 1%nat
  else 2%nat.

Fixpoint utf16_length (s : string) : nat :=
  match s with
  | EmptyString => 0%nat
  | String c rest => (code_units c + utf16_length rest)%nat
  end.

(** The white space and the line terminators of ECMAScript, in UTF-8:
    U+0009 to U+000D and U+0020; U+00A0; U+1680, U+2000 to U+200A, U+2028,
    U+2029, U+202F, U+205F, U+3000 and U+FEFF. *)
Definition blank1 (a : nat) : bool :=
  (Nat.leb 9 a && Nat.leb a 13) || Nat.eqb a 32.

Definition blank2 (a b : nat) : bool := Nat.eqb a 194 && Nat.eqb b 160.

Definition blank3 (a b c : nat) : bool :=
  (Nat.eqb a 225 && Nat.eqb b 154 && Nat.eqb c 128)
  || (Nat.eqb a 226 && Nat.eqb b 128
      && ((Nat.leb 128 c && Nat.leb c 138)
          || Nat.eqb c 168 || Nat.eqb c 169 || Nat.eqb c 175))
  || (Nat.eqb a 226 && Nat.eqb b 129 && Nat.eqb c 159)
  || (Nat.eqb a 227 && Nat.eqb b 128 && Nat.eqb c 128)
  || (Nat.eqb a 239 && Nat.eqb b 187 && Nat.eqb c 191).

(** The bytes without the blanks they begin with; [back] reads a reversed
    string, whose sequences come last byte first. *)
Fixpoint dropBlanks (back : bool) (l : list nat) : list nat :=
  match l with
  | a :: r1 =>
      if blank1 a then dropBlanks back r1
      else
        match r1 with
        | b :: r2 =>
            if (if back then blank2 b a else blank2 a b)
            then dropBlanks back r2
            else
              match r2 with
              | c :: r3 =>
                  if (if back then blank3 c b a else blank3 a b c)
                  then dropBlanks back r3
                  else l
              | [] => l
              end
        | [] => l
        end
  | [] => l
  end.

Definition bytes (s : string) : list nat :=
  map nat_of_ascii (list_ascii_of_string s).

Definition string_of_bytes (l : list nat) : string :=
  string_of_list_ascii (map ascii_of_nat l).

(** [s.trim()] *)
Definition trim_utf8 (s : string) : string :=
  string_of_bytes (rev (dropBlanks true (rev (dropBlanks false (bytes s))))).

(** The case maps on the letters of ASCII, which is what the examples are
    written in; the maps of JavaScript follow the Unicode tables. *)
Definition lowerChar (c : ascii) : ascii :=
  let n := nat_of_ascii c in
  if Nat.leb 65 n && Nat.leb n 90 then ascii_of_nat (n + 32) else c.

Definition upperChar (c : ascii) : ascii :=
  let n := nat_of_ascii c in
  if Nat.leb 97 n && Nat.leb n 122 then ascii_of_nat (n - 32) else c.

Fixpoint mapChars (f : ascii -> ascii) (s : string) : string :=
  match s with
  | EmptyString => EmptyString
  | String c rest => String (f c) (mapChars f rest)
  end.

Definition toLowerCase_ascii : string -> string := mapChars lowerChar.
Definition toUpperCase_ascii : string -> string := mapChars upperChar.

(** A platform for the examples: [Number()] on decimal numerals, [length]
    and [trim] as JavaScript has them, the case maps on ASCII, a bcrypt and
    a jsonwebtoken that can be read. *)
Definition platform : Platform := {|
  StringToNumber := digits 0;
  ObjectToNumber := fun _ => NaN;
  bcrypt_hash := fun password _ salt => (salt ++ "$" ++ password)%string;
  bcrypt_compare := fun password hash =>
    String.eqb hash ("NaCl$" ++ password)%string;
  JWT_SECRET := "dev-secret";
  jwt_sign := fun _ _ _ => "fresh";
  jwt_verify := fun token _ _ =>
    if String.eqb token "fresh" then Payload (VNum (Int 1))
    else if String.eqb token "stale" then VerifyError "TokenExpiredError"
    else VerifyError "JsonWebTokenError";
  toISOString := fun _ => "2025-12-09T12:00:00.000Z";
  string_length := utf16_length;
  trim := trim_utf8;
  toLowerCase := toLowerCase_ascii;
  toUpperCase := toUpperCase_ascii
|}.

Definition world : World := {| now := 0; salt := "NaCl" |}.

Definition request (params : list (string * string)) (query body : object)
    (headers : list (string * string)) : Request :=
  {| params := params; query := query; body := body; headers := headers;
     userId := VUndefined |}.

Definition bearer (token : string) : list (string * string) :=
  [("authorization", ("Bearer " ++ token)%string)].

(** A POST /record body. *)
Definition expense (userId categoryId amount : Z) (currencyId : value) : object :=
  [("userId", VNum (Int userId)); ("categoryId", VNum (Int categoryId));
   ("amount", VNum (Int amount)); ("currencyId", currencyId)].

Definition food : Category.t := {| Category.id := 1; Category.name := "Food" |}.
Definition uah : Currency.t :=
  {| Currency.id := 1; Currency.code := "UAH"; Currency.name := "Hryvnia" |}.
Definition lunch : ExpenseRecord.t :=
  {| ExpenseRecord.id := 1; ExpenseRecord.userId := 1;
     ExpenseRecord.categoryId := 1; ExpenseRecord.currencyId := 1;
     ExpenseRecord.amount := Int 150; ExpenseRecord.createdAt := 0 |}.

(** Alice, whose default currency is set and who owns the one record, and
    Bob, who has neither. *)
Definition baseline_alice : Baseline.User.t :=
  {| Baseline.User.id := 1; Baseline.User.name := "Alice";
     Baseline.User.defaultCurrencyId := Some 1 |}.

Definition baseline_bob : Baseline.User.t :=
  {| Baseline.User.id := 2; Baseline.User.name := "Bob";
     Baseline.User.defaultCurrencyId := None |}.

Definition baseline_store : Baseline.Store :=
  {| Prisma.users := [baseline_alice; baseline_bob];
     Prisma.categories := [food];
     Prisma.currencies := [uah]; Prisma.records := [lunch];
     Prisma.User_id_seq := 3; Prisma.Category_id_seq := 2;
     Prisma.Currency_id_seq := 2; Prisma.Record_id_seq := 2 |}.

Definition auth_alice : Auth.User.t :=
  {| Auth.User.id := 1; Auth.User.name := "Alice";
     Auth.User.email := "alice@example.com";
     Auth.User.passwordHash := "NaCl$secret1";
     Auth.User.defaultCurrencyId := Some 1 |}.

Definition auth_bob : Auth.User.t :=
  {| Auth.User.id := 2; Auth.User.name := "Bob";
     Auth.User.email := "bob@example.com";
     Auth.User.passwordHash := "NaCl$hunter2";
     Auth.User.defaultCurrencyId := None |}.

Definition auth_store : Auth.Store :=
  {| Prisma.users := [auth_alice; auth_bob]; Prisma.categories := [food];
     Prisma.currencies := [uah]; Prisma.records := [lunch];
     Prisma.User_id_seq := 3; Prisma.Category_id_seq := 2;
     Prisma.Currency_id_seq := 2; Prisma.Record_id_seq := 2 |}.

(** The authenticated store before anyone signed up. *)
Definition auth_empty : Auth.Store :=
  {| Prisma.users := []; Prisma.categories := []; Prisma.currencies := [];
     Prisma.records := [];
     Prisma.User_id_seq := 1; Prisma.Category_id_seq := 1;
     Prisma.Currency_id_seq := 1; Prisma.Record_id_seq := 1 |}.

(** A POST /user or POST /auth/login body. *)
Definition credentials (name email password : value) : object :=
  [("name", name); ("email", email); ("password", password)].

End Demo.

(** * Properties *)

(** ** Lists, strings and the monad *)

Lemma find_existsb {A} (f : A -> bool) (l : list A) (x : A) :
  find f l = Some x -> existsb f l = true.
Proof.
  induction l as [|a l IH]; simpl; [discriminate|].
  destruct (f a); auto.
Qed.

Lemma existsb_false_find {A} (f : A -> bool) (l : list A) :
  existsb f l = false -> find f l = None.
Proof.
  induction l as [|a l IH]; simpl; [reflexivity|].
  destruct (f a); [discriminate|auto].
Qed.

Lemma existsb_find {A} (f : A -> bool) (l : list A) :
  existsb f l = true -> exists x, find f l = Some x.
Proof.
  induction l as [|a l IH]; simpl; [discriminate|].
  destruct (f a); eauto.
Qed.

Lemma count_positive {A} (f : A -> bool) (l : list A) :
  (Z.of_nat (List.length (filter f l)) >? 0) = existsb f l.
Proof.
  induction l as [|a l IH]; simpl; [reflexivity|].
  destruct (f a); simpl; [|exact IH].
  apply Z.gtb_lt. lia.
Qed.

Lemma existsb_filter_negb {A} (f : A -> bool) (l : list A) :
  existsb f (filter (fun x => negb (f x)) l) = false.
Proof.
  induction l as [|a l IH]; simpl; [reflexivity|].
  destruct (f a) eqn:E; simpl; [exact IH|].
  rewrite E. exact IH.
Qed.

Lemma filter_nothing {A} (f : A -> bool) (l : list A) :
  filter f (filter (fun x => negb (f x)) l) = [].
Proof.
  induction l as [|a l IH]; simpl; [reflexivity|].
  destruct (f a) eqn:E; simpl; [exact IH|].
  rewrite E. exact IH.
Qed.

(** Unfolding one handler down to the store calls. *)
Ltac run :=
  unfold asyncHandler, bind, ret, throw, int, message, json, send in *;
  cbn [fst snd] in *.

(** ** Lookups and the INTEGER columns *)

(** No row of a table whose keys fit INTEGER has a key that does not. *)
Lemma no_row_outside_INTEGER {A} (key : A -> Z) (id : Z) (l : list A) :
  forallb (fun x => Prisma.INTEGER (key x)) l = true ->
  Prisma.INTEGER id = false ->
  find (fun x => key x =? id) l = None.
Proof.
  intros Hl Hid. induction l as [|a l IH]; simpl in *; [reflexivity|].
  apply andb_prop in Hl as [Ha Hl].
  destruct (key a =? id) eqn:E; [|exact (IH Hl)].
  apply Z.eqb_eq in E. rewrite E in Ha. congruence.
Qed.

(** So on the tables of a database, whose keys all fit, a lookup is refused
    exactly when its key does not fit, whatever the rows are. *)
Lemma findUnique_refuses {U} `{UserRow U} (s : @Prisma.Store U) (id : Z) :
  Prisma.INTEGER id = false ->
  (forallb (fun x => Prisma.INTEGER (user_id x)) (Prisma.users s) = true ->
   Prisma.user_findUnique id s = (Throw P2020, s))
  /\ (forallb (fun x => Prisma.INTEGER (Category.id x)) (Prisma.categories s)
      = true ->
      Prisma.category_findUnique id s = (Throw P2020, s))
  /\ (forallb (fun x => Prisma.INTEGER (Currency.id x)) (Prisma.currencies s)
      = true ->
      Prisma.currency_findUnique id s = (Throw P2020, s))
  /\ (forallb (fun x => Prisma.INTEGER (ExpenseRecord.id x)) (Prisma.records s)
      = true ->
      Prisma.record_findUnique id s = (Throw P2020, s)).
Proof.
  intros Hid.
  unfold Prisma.user_findUnique, Prisma.category_findUnique,
    Prisma.currency_findUnique, Prisma.record_findUnique, Prisma.not_found.
  rewrite Hid.
  split; [|split; [|split]]; intros Hl;
    rewrite (no_row_outside_INTEGER _ _ _ Hl Hid); reflexivity.
Qed.

Lemma findUnique_answers {U} `{UserRow U} (s : @Prisma.Store U) (id : Z) :
  Prisma.INTEGER id = true ->
  Prisma.user_findUnique id s
  = (Ok (find (fun x => user_id x =? id) (Prisma.users s)), s)
  /\ Prisma.category_findUnique id s
     = (Ok (find (fun x => Category.id x =? id) (Prisma.categories s)), s)
  /\ Prisma.currency_findUnique id s
     = (Ok (find (fun x => Currency.id x =? id) (Prisma.currencies s)), s)
  /\ Prisma.record_findUnique id s
     = (Ok (find (fun x => ExpenseRecord.id x =? id) (Prisma.records s)), s).
Proof.
  intros Hid.
  unfold Prisma.user_findUnique, Prisma.category_findUnique,
    Prisma.currency_findUnique, Prisma.record_findUnique, Prisma.not_found.
  rewrite Hid.
  split; [|split; [|split]];
    match goal with |- context [find ?f ?l] => destruct (find f l) end;
    reflexivity.
Qed.

(** ** The router and its middleware *)

Section Router.
Context {platform : Platform}.

(** Whatever the middleware answers, a protected route answers. *)
Lemma router_respond (w : World) (req : Request) (res : Response) :
  Auth.authMiddleware w req = Auth.Respond res ->
  forall (r : Auth.Route) (s : Auth.Store),
    Auth.public r = false -> Auth.router r w req s = (res, s).
Proof.
  intros Hmw r s Hr. unfold Auth.router. rewrite Hr, Hmw. reflexivity.
Qed.

(** Once the middleware calls [next()], a protected route is its handler. *)
Lemma router_next (w : World) (req req' : Request) :
  Auth.authMiddleware w req = Auth.Next req' ->
  forall (r : Auth.Route) (s : Auth.Store),
    Auth.public r = false ->
    Auth.router r w req s = asyncHandler (Auth.handler r w req') s.
Proof.
  intros Hmw r s Hr. unfold Auth.router. rewrite Hr, Hmw. reflexivity.
Qed.

End Router.

(** ** DELETE /currency/:id *)

Section CurrencyDeletion.
Context {platform : Platform}.

Lemma where_currencyId_only {U} `{UserRow U} (c : Z) (l : list ExpenseRecord.t) :
  filter (@Prisma.satisfies
            {| Prisma.where_userId := None; Prisma.where_categoryId := None;
               Prisma.where_currencyId := Some c |}) l
  = filter (uses_currency c) l.
Proof. apply filter_ext. intro r. reflexivity. Qed.

(** The baseline router refuses to delete a currency that a record uses,
    and changes nothing. *)
Lemma baseline_delete_currency_in_use (req : Request) (s : Baseline.Store) (c : Z) :
  Number_ (param "id" req) = Int c ->
  Prisma.has_currency c s = true ->
  existsb (uses_currency c) (Prisma.records s) = true ->
  asyncHandler (Baseline.DELETE_currency_id req) s
  = (message 400 "Cannot delete currency: there are records using this currency", s).
Proof.
  intros Hid Hcur Huse.
  unfold Baseline.DELETE_currency_id. rewrite Hid.
  destruct (existsb_find _ _ Hcur) as [cur Hfind].
  run. unfold Prisma.currency_findUnique, Prisma.record_count.
  rewrite Hfind. rewrite (where_currencyId_only (U := Baseline.User.t)).
  rewrite count_positive, Huse. reflexivity.
Qed.

(** It deletes one that no record uses: 204, the currency is gone, the
    records and categories are untouched. *)
Lemma baseline_delete_currency_unused (req : Request) (s : Baseline.Store) (c : Z) :
  Number_ (param "id" req) = Int c ->
  Prisma.has_currency c s = true ->
  existsb (uses_currency c) (Prisma.records s) = false ->
  exists s',
    asyncHandler (Baseline.DELETE_currency_id req) s = (send 204, s')
    /\ Prisma.has_currency c s' = false
    /\ Prisma.currencies s'
       = filter (fun x => negb (Currency.id x =? c)) (Prisma.currencies s)
    /\ Prisma.records s' = Prisma.records s
    /\ Prisma.categories s' = Prisma.categories s.
Proof.
  intros Hid Hcur Huse.
  unfold Baseline.DELETE_currency_id. rewrite Hid.
  destruct (existsb_find _ _ Hcur) as [cur Hfind].
  run. unfold Prisma.currency_findUnique, Prisma.record_count,
    Prisma.currency_delete.
  rewrite Hfind. rewrite (where_currencyId_only (U := Baseline.User.t)).
  rewrite count_positive, Huse. cbn. rewrite Hfind.
  fold (uses_currency c). rewrite Huse.
  eexists. split; [reflexivity|].
  repeat split.
  unfold Prisma.has_currency; simpl.
  apply (existsb_filter_negb (fun x => Currency.id x =? c)).
Qed.

(** The authenticated router asks the store to delete the row without
    looking at the records: the foreign key stops it, and the rejection
    comes back as 500. *)
Lemma auth_delete_currency_in_use (req : Request) (s : Auth.Store) (c : Z) :
  Number_ (param "id" req) = Int c ->
  Prisma.has_currency c s = true ->
  existsb (uses_currency c) (Prisma.records s) = true ->
  asyncHandler (Auth.DELETE_currency_id req) s
  = (message 500 "Internal server error", s).
Proof.
  intros Hid Hcur Huse.
  unfold Auth.DELETE_currency_id. rewrite Hid.
  destruct (existsb_find _ _ Hcur) as [cur Hfind].
  run. unfold Prisma.currency_findUnique, Prisma.currency_delete.
  rewrite Hfind. cbn. rewrite Hfind.
  fold (uses_currency c). rewrite Huse. reflexivity.
Qed.

Lemma auth_delete_currency_unused (req : Request) (s : Auth.Store) (c : Z) :
  Number_ (param "id" req) = Int c ->
  Prisma.has_currency c s = true ->
  existsb (uses_currency c) (Prisma.records s) = false ->
  exists s',
    asyncHandler (Auth.DELETE_currency_id req) s = (send 204, s')
    /\ Prisma.has_currency c s' = false
    /\ Prisma.records s' = Prisma.records s.
Proof.
  intros Hid Hcur Huse.
  unfold Auth.DELETE_currency_id. rewrite Hid.
  destruct (existsb_find _ _ Hcur) as [cur Hfind].
  run. unfold Prisma.currency_findUnique, Prisma.currency_delete.
  rewrite Hfind. cbn. rewrite Hfind.
  fold (uses_currency c). rewrite Huse.
  eexists. split; [reflexivity|]. split; [|reflexivity].
  unfold Prisma.has_currency; simpl.
  apply (existsb_filter_negb (fun x => Currency.id x =? c)).
Qed.

End CurrencyDeletion.

(** C1 fails on the authenticated router.  With a verified token, DELETE
    /currency/:id for a currency that exists and that a record uses is
    answered 500 "Internal server error", not 400; the store is left as it
    was. *)
Theorem auth_delete_currency_in_use_is_500 {platform : Platform} (w : World)
    (req : Request) (uid : value) (s : Auth.Store) (c : Z) :
  Auth.authMiddleware w req = Auth.Next (with_userId req uid) ->
  Number_ (param "id" req) = Int c ->
  Prisma.has_currency c s = true ->
  existsb (uses_currency c) (Prisma.records s) = true ->
  Auth.router Auth.delete_currency w req s
  = ({| status := 500;
        payload := VObj [("message", VStr "Internal server error")] |}, s).
Proof.
  intros Hmw Hid Hcur Huse.
  rewrite (router_next w req Hmw Auth.delete_currency s eq_refl).
  apply (auth_delete_currency_in_use (with_userId req uid) s Hid Hcur Huse).
Qed.

Lemma auth_delete_currency_in_use_is_500_witness :
  Auth.router (platform := Demo.platform) Auth.delete_currency Demo.world
    (Demo.request [("id", "1")] [] [] (Demo.bearer "fresh")) Demo.auth_store
  = ({| status := 500;
        payload := VObj [("message", VStr "Internal server error")] |},
     Demo.auth_store).
Proof.
  apply (@auth_delete_currency_in_use_is_500 Demo.platform Demo.world
           (Demo.request [("id", "1")] [] [] (Demo.bearer "fresh"))
           (VNum (Int 1)) Demo.auth_store 1);
    reflexivity.
Defined.

(** ** DELETE /user/:userId *)

Section UserDeletion.
Context {platform : Platform}.

Lemma where_userId_only {U} `{UserRow U} (u : Z) (l : list ExpenseRecord.t) :
  filter (fun r => negb (@Prisma.satisfies
            {| Prisma.where_userId := Some u; Prisma.where_categoryId := None;
               Prisma.where_currencyId := None |} r)) l
  = filter (fun r => negb (owned_by u r)) l.
Proof.
  apply filter_ext. intro r. unfold Prisma.satisfies, owned_by. simpl.
  now rewrite !andb_true_r.
Qed.

(** The baseline router deletes the user's records, then the user; a
    listing of that user's records is empty afterwards. *)
Lemma baseline_delete_user (req : Request) (s : Baseline.Store) (u : Z) :
  Number_ (param "userId" req) = Int u ->
  Prisma.has_user u s = true ->
  exists s',
    asyncHandler (Baseline.DELETE_user_userId req) s = (send 204, s')
    /\ Prisma.records s' = filter (fun r => negb (owned_by u r)) (Prisma.records s)
    /\ Prisma.users s'
       = filter (fun x => negb (Baseline.User.id x =? u)) (Prisma.users s)
    /\ Prisma.has_user u s' = false
    /\ forall req',
         truthy (get "user_id" (query req')) = true ->
         Number_ (get "user_id" (query req')) = Int u ->
         get "category_id" (query req') = VUndefined ->
         Prisma.INTEGER u = true ->
         asyncHandler (Baseline.GET_record req') s' = (json 200 (VArr []), s').
Proof.
  intros Hid Huser.
  unfold Baseline.DELETE_user_userId. rewrite Hid.
  destruct (existsb_find _ _ Huser) as [usr Hfind].
  run. unfold Prisma.user_findUnique, Prisma.record_deleteMany,
    Prisma.user_delete.
  rewrite Hfind. cbn. change (@user_id Baseline.User.t _) with Baseline.User.id in *.
  rewrite Hfind.
  rewrite (where_userId_only (U := Baseline.User.t)).
  fold (owned_by u). rewrite (existsb_filter_negb (owned_by u)).
  eexists. split; [reflexivity|]. cbn.
  rewrite !(where_userId_only (U := Baseline.User.t)).
  split; [reflexivity|]. split; [reflexivity|].
  split.
  - unfold Prisma.has_user. cbn.
    apply (existsb_filter_negb (fun x => Baseline.User.id x =? u)).
  - intros req' Ht Hn Hc Hfits.
    unfold Baseline.GET_record. rewrite Ht, Hn, Hc. cbn.
    unfold Prisma.shaped_list, Prisma.record_findMany, Prisma.in_range. cbn.
    rewrite Hfits. cbn.
    rewrite !(where_userId_only (U := Baseline.User.t)).
    replace (filter _ (filter _ (Prisma.records s))) with (@nil ExpenseRecord.t);
      [reflexivity|].
    symmetry. rewrite <- (filter_nothing (owned_by u) (Prisma.records s)) at 1.
    apply filter_ext. intro r. unfold Prisma.satisfies, owned_by. simpl.
    now rewrite !andb_true_r.
Qed.

(** The authenticated router deletes the user straight away; when the
    user owns a record the foreign key stops it: 500, nothing deleted. *)
Lemma auth_delete_user_with_records (req : Request) (s : Auth.Store) (u : Z) :
  Number_ (param "userId" req) = Int u ->
  Prisma.has_user u s = true ->
  existsb (owned_by u) (Prisma.records s) = true ->
  asyncHandler (Auth.DELETE_user_userId req) s
  = (message 500 "Internal server error", s).
Proof.
  intros Hid Huser Hown.
  unfold Auth.DELETE_user_userId. rewrite Hid.
  destruct (existsb_find _ _ Huser) as [usr Hfind].
  run. unfold Prisma.user_findUnique, Prisma.user_delete.
  rewrite Hfind. cbn. change (@user_id Auth.User.t _) with Auth.User.id in *.
  rewrite Hfind. fold (owned_by u). rewrite Hown. reflexivity.
Qed.

End UserDeletion.

(** C2 fails on the authenticated router.  With a verified token, DELETE
    /user/:userId for a user that exists and owns a record is answered 500
    "Internal server error", not 204: no record and no user is deleted, the
    store is left as it was. *)
Theorem auth_delete_user_with_records_is_500 {platform : Platform} (w : World)
    (req : Request) (uid : value) (s : Auth.Store) (u : Z) :
  Auth.authMiddleware w req = Auth.Next (with_userId req uid) ->
  Number_ (param "userId" req) = Int u ->
  Prisma.has_user u s = true ->
  existsb (owned_by u) (Prisma.records s) = true ->
  Auth.router Auth.delete_user w req s
  = ({| status := 500;
        payload := VObj [("message", VStr "Internal server error")] |}, s).
Proof.
  intros Hmw Hid Huser Hown.
  rewrite (router_next w req Hmw Auth.delete_user s eq_refl).
  apply (auth_delete_user_with_records (with_userId req uid) s Hid Huser Hown).
Qed.

Lemma auth_delete_user_with_records_is_500_witness :
  Auth.router (platform := Demo.platform) Auth.delete_user Demo.world
    (Demo.request [("userId", "1")] [] [] (Demo.bearer "fresh")) Demo.auth_store
  = ({| status := 500;
        payload := VObj [("message", VStr "Internal server error")] |},
     Demo.auth_store).
Proof.
  apply (@auth_delete_user_with_records_is_500 Demo.platform Demo.world
           (Demo.request [("userId", "1")] [] [] (Demo.bearer "fresh"))
           (VNum (Int 1)) Demo.auth_store 1);
    reflexivity.
Defined.

(** ** Integrity is an invariant of both Prisma routers *)

#[global] Instance Baseline_User_laws : UserRowLaws Baseline.User_row.
Proof. split; reflexivity. Qed.

#[global] Instance Auth_User_laws : UserRowLaws Auth.User_row.
Proof. split; reflexivity. Qed.

Lemma existsb_app_r {A} (f : A -> bool) (l : list A) (x : A) :
  existsb f l = true -> existsb f (l ++ [x]) = true.
Proof. intros Hl. rewrite existsb_app, Hl. reflexivity. Qed.

Lemma existsb_app_new {A} (f : A -> bool) (l : list A) (x : A) :
  f x = true -> existsb f (l ++ [x]) = true.
Proof. intros Hx. rewrite existsb_app. simpl. rewrite Hx. now rewrite orb_true_r. Qed.

Lemma existsb_filter_other {A} (key : A -> Z) (k id : Z) (l : list A) :
  k <> id ->
  existsb (fun x => key x =? k) (filter (fun x => negb (key x =? id)) l)
  = existsb (fun x => key x =? k) l.
Proof.
  intros Hk. induction l as [|a l IH]; simpl; [reflexivity|].
  destruct (key a =? id) eqn:E; simpl.
  - apply Z.eqb_eq in E. replace (key a =? k) with false; [exact IH|].
    symmetry. apply Z.eqb_neq. lia.
  - now rewrite IH.
Qed.

Lemma existsb_map_key {A} (key : A -> Z) (f : A -> A) (k : Z) (l : list A) :
  (forall x, key (f x) = key x) ->
  existsb (fun x => key x =? k) (map f l) = existsb (fun x => key x =? k) l.
Proof.
  intros Hf. induction l as [|a l IH]; simpl; [reflexivity|].
  now rewrite Hf, IH.
Qed.

Lemma existsb_false_all {A} (f : A -> bool) (l : list A) (x : A) :
  existsb f l = false -> In x l -> f x = false.
Proof.
  intros He Hin. destruct (f x) eqn:E; [|reflexivity].
  rewrite <- He. symmetry. apply existsb_exists. eauto.
Qed.

(** A lookup returns or rejects: the cases of one. *)
Ltac lookup_cases :=
  unfold Prisma.user_findUnique, Prisma.category_findUnique,
    Prisma.currency_findUnique, Prisma.record_findUnique,
    Prisma.record_findMany, Prisma.not_found;
  repeat match goal with
         | |- context [match ?x with _ => _ end] => destruct x
         end.

Section Integrity.
Context {U : Type} {row : UserRow U} {laws : UserRowLaws row}.

(** Integrity, spelled out. *)
Lemma integrity_spec (s : @Prisma.Store U) :
  integrity s = true <->
  (forall u c, In u (Prisma.users s) -> user_defaultCurrencyId u = Some c ->
               Prisma.has_currency c s = true)
  /\ (forall r, In r (Prisma.records s) ->
                Prisma.has_user (ExpenseRecord.userId r) s = true
                /\ Prisma.has_category (ExpenseRecord.categoryId r) s = true
                /\ Prisma.has_currency (ExpenseRecord.currencyId r) s = true)
  /\ (forall c, In c (Prisma.currencies s) -> 1 <= Currency.id c)
  /\ 1 <= Prisma.Currency_id_seq s.
Proof.
  unfold integrity. rewrite !andb_true_iff, !forallb_forall, Z.leb_le.
  split.
  - intros [[[Hu Hr] Hc] Hs]. split; [|split; [|split]]; try assumption.
    + intros u c Hin Hd. specialize (Hu u Hin). now rewrite Hd in Hu.
    + intros r Hin. specialize (Hr r Hin). now rewrite !andb_true_iff in Hr.
    + intros c Hin. apply Z.leb_le. auto.
  - intros [Hu [Hr [Hc Hs]]]. split; [split; [split|]|]; try assumption.
    + intros u Hin. destruct (user_defaultCurrencyId u) eqn:E; eauto.
    + intros r Hin. destruct (Hr r Hin) as [-> [-> ->]]. reflexivity.
    + intros c Hin. apply Z.leb_le. auto.
Qed.

Lemma preserves_ret {A} (a : A) : preserves (ret (S := @Prisma.Store U) a).
Proof. intros s Hs. exact Hs. Qed.

Lemma preserves_throw {A} (e : PrismaError) :
  preserves (throw (S := @Prisma.Store U) (A := A) e).
Proof. intros s Hs. exact Hs. Qed.

Lemma preserves_bind {A B} (m : M (@Prisma.Store U) A)
    (k : A -> M (@Prisma.Store U) B) :
  preserves m -> (forall a, preserves (k a)) -> preserves (bind m k).
Proof.
  intros Hm Hk s Hs. unfold bind. specialize (Hm s Hs).
  destruct (m s) as [[a|e] s']; simpl in *; [|exact Hm].
  apply Hk, Hm.
Qed.

Lemma preserves_int (n : number) : preserves (int (S := @Prisma.Store U) n).
Proof. destruct n; [apply preserves_throw|apply preserves_ret]. Qed.

Lemma preserves_shaped {A} (shape : @Prisma.Store U -> A -> value)
    (q : Prisma.Q A) :
  preserves q -> preserves (Prisma.shaped shape q).
Proof.
  intros Hq s Hs. unfold Prisma.shaped. specialize (Hq s Hs).
  destruct (q s) as [[a|e] s']; exact Hq.
Qed.

Lemma preserves_shaped_option {A} (shape : @Prisma.Store U -> A -> value)
    (q : Prisma.Q (option A)) :
  preserves q -> preserves (Prisma.shaped_option shape q).
Proof.
  intros Hq s Hs. unfold Prisma.shaped_option. specialize (Hq s Hs).
  destruct (q s) as [[a|e] s']; exact Hq.
Qed.

Lemma preserves_shaped_list {A} (shape : @Prisma.Store U -> A -> value)
    (q : Prisma.Q (list A)) :
  preserves q -> preserves (Prisma.shaped_list shape q).
Proof.
  intros Hq s Hs. unfold Prisma.shaped_list. specialize (Hq s Hs).
  destruct (q s) as [[a|e] s']; exact Hq.
Qed.

(** Reads. *)
Lemma preserves_user_findUnique id : preserves (Prisma.user_findUnique (U := U) id).
Proof. intros s Hs. lookup_cases; exact Hs. Qed.
Lemma preserves_user_findMany : preserves (Prisma.user_findMany (U := U)).
Proof. intros s Hs. exact Hs. Qed.
Lemma preserves_category_findUnique id :
  preserves (Prisma.category_findUnique (U := U) id).
Proof. intros s Hs. lookup_cases; exact Hs. Qed.
Lemma preserves_category_findMany : preserves (Prisma.category_findMany (U := U)).
Proof. intros s Hs. exact Hs. Qed.
Lemma preserves_currency_findUnique id :
  preserves (Prisma.currency_findUnique (U := U) id).
Proof. intros s Hs. lookup_cases; exact Hs. Qed.
Lemma preserves_currency_findMany : preserves (Prisma.currency_findMany (U := U)).
Proof. intros s Hs. exact Hs. Qed.
Lemma preserves_record_findUnique id :
  preserves (Prisma.record_findUnique (U := U) id).
Proof. intros s Hs. lookup_cases; exact Hs. Qed.
Lemma preserves_record_findMany w : preserves (Prisma.record_findMany (U := U) w).
Proof. intros s Hs. lookup_cases; exact Hs. Qed.
Lemma preserves_record_count w : preserves (Prisma.record_count (U := U) w).
Proof. intros s Hs. exact Hs. Qed.

(** Writes. *)
Lemma preserves_user_create (mk : Z -> U) : preserves (Prisma.user_create mk).
Proof.
  intros s Hs. apply integrity_spec in Hs as [Hu [Hr [Hc Hq]]].
  unfold Prisma.user_create.
  assert (Hadd : forall d, (forall c, d = Some c -> Prisma.has_currency c s = true) ->
            user_defaultCurrencyId (mk (Prisma.User_id_seq s)) = d ->
            integrity (Prisma.set_users (fun l => l ++ [mk (Prisma.User_id_seq s)])
                         (Prisma.next_User_id s)) = true).
  { intros d Hd Hmk. apply integrity_spec. cbn. split; [|split; [|split]]; try assumption.
    - intros u c Hin Hdu. apply in_app_or in Hin as [Hin | [<- | []]].
      + exact (Hu u c Hin Hdu).
      + apply Hd. congruence.
    - intros r Hin. destruct (Hr r Hin) as [H1 [H2 H3]].
      split; [|split]; try assumption.
      unfold Prisma.has_user in *. cbn. now apply existsb_app_r. }
  destruct (user_defaultCurrencyId (mk (Prisma.User_id_seq s))) as [c|] eqn:E.
  - destruct (Prisma.has_currency c s) eqn:Hcur; cbn [snd].
    + apply (Hadd (Some c)); [congruence|reflexivity].
    + apply integrity_spec. cbn. auto.
  - cbn [snd]. apply (Hadd None); [discriminate|reflexivity].
Qed.

Lemma preserves_user_update (id c : Z) :
  preserves (Prisma.user_update_defaultCurrencyId (U := U) id c).
Proof.
  intros s Hs. unfold Prisma.user_update_defaultCurrencyId.
  destruct (find _ (Prisma.users s)) as [found|]; [|exact Hs].
  destruct (Prisma.has_currency c s) eqn:Hcur; [|exact Hs].
  apply integrity_spec in Hs as [Hu [Hr [Hc Hq]]].
  cbn [snd]. apply integrity_spec. cbn. split; [|split; [|split]]; try assumption.
  - intros u d Hin Hd. apply in_map_iff in Hin as [x [<- Hx]].
    destruct (user_id x =? id).
    + rewrite user_defaultCurrencyId_set in Hd. injection Hd as <-. exact Hcur.
    + exact (Hu x d Hx Hd).
  - intros r Hin. destruct (Hr r Hin) as [H1 [H2 H3]].
    split; [|split]; try assumption.
    unfold Prisma.has_user in *. cbn.
    rewrite existsb_map_key; [exact H1|].
    intros x. destruct (user_id x =? id); [apply user_id_set|reflexivity].
Qed.

Lemma preserves_user_delete (id : Z) : preserves (Prisma.user_delete (U := U) id).
Proof.
  intros s Hs. unfold Prisma.user_delete.
  destruct (find _ (Prisma.users s)) as [found|]; [|exact Hs].
  destruct (existsb _ (Prisma.records s)) eqn:Hown; [exact Hs|].
  apply integrity_spec in Hs as [Hu [Hr [Hc Hq]]].
  cbn [snd]. apply integrity_spec. cbn. split; [|split; [|split]]; try assumption.
  - intros u d Hin Hd. apply filter_In in Hin as [Hin _]. exact (Hu u d Hin Hd).
  - intros r Hin. destruct (Hr r Hin) as [H1 [H2 H3]].
    split; [|split]; try assumption.
    unfold Prisma.has_user in *. cbn.
    rewrite existsb_filter_other; [exact H1|].
    pose proof (existsb_false_all _ _ r Hown Hin) as Hne. cbn in Hne.
    apply Z.eqb_neq in Hne. exact Hne.
Qed.

Lemma preserves_category_create (name : string) :
  preserves (Prisma.category_create (U := U) name).
Proof.
  intros s Hs. apply integrity_spec in Hs as [Hu [Hr [Hc Hq]]].
  unfold Prisma.category_create. cbn [snd]. apply integrity_spec. cbn.
  split; [|split; [|split]]; try assumption.
  intros r Hin. destruct (Hr r Hin) as [H1 [H2 H3]].
  split; [|split]; try assumption.
  unfold Prisma.has_category in *. cbn. now apply existsb_app_r.
Qed.

Lemma preserves_category_delete (id : Z) :
  preserves (Prisma.category_delete (U := U) id).
Proof.
  intros s Hs. unfold Prisma.category_delete.
  destruct (find _ (Prisma.categories s)) as [found|]; [|exact Hs].
  destruct (existsb _ (Prisma.records s)) eqn:Hown; [exact Hs|].
  apply integrity_spec in Hs as [Hu [Hr [Hc Hq]]].
  cbn [snd]. apply integrity_spec. cbn. split; [|split; [|split]]; try assumption.
  intros r Hin. destruct (Hr r Hin) as [H1 [H2 H3]].
  split; [|split]; try assumption.
  unfold Prisma.has_category in *. cbn.
  rewrite (existsb_filter_other Category.id); [exact H2|].
  pose proof (existsb_false_all _ _ r Hown Hin) as Hne. cbn in Hne.
  apply Z.eqb_neq in Hne. exact Hne.
Qed.

Lemma preserves_currency_create (code name : string) :
  preserves (Prisma.currency_create (U := U) code name).
Proof.
  intros s Hs. apply integrity_spec in Hs as [Hu [Hr [Hc Hq]]].
  unfold Prisma.currency_create.
  destruct (existsb _ (Prisma.currencies s)); cbn [snd]; apply integrity_spec; cbn.
  - split; [|split; [|split]]; try assumption. lia.
  - split; [|split; [|split]]; [| | |lia].
    + intros u c Hin Hd. unfold Prisma.has_currency in *. cbn.
      apply existsb_app_r. exact (Hu u c Hin Hd).
    + intros r Hin. destruct (Hr r Hin) as [H1 [H2 H3]].
      split; [|split]; try assumption.
      unfold Prisma.has_currency in *. cbn. now apply existsb_app_r.
    + intros c Hin. apply in_app_or in Hin as [Hin | [<- | []]]; [auto|exact Hq].
Qed.

Lemma preserves_currency_delete (id : Z) :
  preserves (Prisma.currency_delete (U := U) id).
Proof.
  intros s Hs. unfold Prisma.currency_delete.
  destruct (find _ (Prisma.currencies s)) as [found|]; [|exact Hs].
  destruct (existsb _ (Prisma.records s)) eqn:Huse; [exact Hs|].
  apply integrity_spec in Hs as [Hu [Hr [Hc Hq]]].
  cbn [snd]. apply integrity_spec. cbn. split; [|split; [|split]]; try assumption.
  - intros u d Hin Hd. apply in_map_iff in Hin as [x [<- Hx]].
    unfold Prisma.has_currency in *. cbn.
    destruct (user_defaultCurrencyId x) as [dx|] eqn:Ex.
    + destruct (dx =? id) eqn:E.
      * rewrite user_defaultCurrencyId_set in Hd. discriminate.
      * rewrite Ex in Hd. injection Hd as <-.
        rewrite (existsb_filter_other Currency.id); [exact (Hu x dx Hx Ex)|].
        now apply Z.eqb_neq.
    + rewrite Ex in Hd. discriminate.
  - intros r Hin. destruct (Hr r Hin) as [H1 [H2 H3]].
    pose proof (existsb_false_all _ _ r Huse Hin) as Hne. cbn in Hne.
    apply Z.eqb_neq in Hne.
    split; [|split]; try assumption.
    + unfold Prisma.has_user in *. cbn.
      rewrite existsb_map_key; [exact H1|].
      intros x. destruct (user_defaultCurrencyId x) as [dx|]; [|reflexivity].
      destruct (dx =? id); [apply user_id_set|reflexivity].
    + unfold Prisma.has_currency in *. cbn.
      rewrite (existsb_filter_other Currency.id); [exact H3|exact Hne].
  - intros c Hin. apply filter_In in Hin as [Hin _]. auto.
Qed.

Lemma preserves_record_create (u c d : Z) (a : number) (t : Z) :
  preserves (Prisma.record_create (U := U) u c d a t).
Proof.
  intros s Hs. unfold Prisma.record_create.
  destruct (Prisma.has_user u s && Prisma.has_category c s
            && Prisma.has_currency d s) eqn:Hfk; cbn [snd].
  - apply integrity_spec in Hs as [Hu [Hr [Hc Hq]]].
    apply integrity_spec. cbn. split; [|split; [|split]]; try assumption.
    intros r Hin. apply in_app_or in Hin as [Hin | [<- | []]]; [exact (Hr r Hin)|].
    cbn. now rewrite !andb_true_iff in Hfk.
  - exact Hs.
Qed.

Lemma preserves_records_filter (f : ExpenseRecord.t -> bool) (s : @Prisma.Store U) :
  integrity s = true -> integrity (Prisma.set_records (filter f) s) = true.
Proof.
  intros Hs. apply integrity_spec in Hs as [Hu [Hr [Hc Hq]]].
  apply integrity_spec. cbn. split; [|split; [|split]]; try assumption.
  intros r Hin. apply filter_In in Hin as [Hin _]. exact (Hr r Hin).
Qed.

Lemma preserves_record_deleteMany w : preserves (Prisma.record_deleteMany (U := U) w).
Proof. intros s Hs. apply preserves_records_filter, Hs. Qed.

Lemma preserves_record_delete id : preserves (Prisma.record_delete (U := U) id).
Proof.
  intros s Hs. unfold Prisma.record_delete.
  destruct (find _ (Prisma.records s)) as [found|]; [|exact Hs].
  apply preserves_records_filter, Hs.
Qed.

End Integrity.

Lemma asyncHandler_preserves {U : Type} {row : UserRow U}
    (fn : M (@Prisma.Store U) Response) (s : @Prisma.Store U) :
  preserves fn -> integrity s = true -> integrity (snd (asyncHandler fn s)) = true.
Proof.
  intros Hfn Hs. unfold asyncHandler. specialize (Hfn s Hs).
  destruct (fn s) as [[res|e] s']; exact Hfn.
Qed.

Lemma preserves_user_findUnique_email (email : string) :
  preserves (Auth.user_findUnique_email email).
Proof. intros s Hs. exact Hs. Qed.

Lemma preserves_user_create_data (name email passwordHash : string) :
  preserves (Auth.user_create_data name email passwordHash).
Proof.
  intros s Hs. unfold Auth.user_create_data.
  destruct (existsb _ (Prisma.users s)).
  - apply integrity_spec in Hs. apply integrity_spec. exact Hs.
  - apply preserves_user_create, Hs.
Qed.

Lemma preserves_float {platform : Platform} (n : number) :
  preserves (Baseline.float n).
Proof. destruct n; [apply preserves_throw|apply preserves_ret]. Qed.

Ltac preserve :=
  cbv zeta;
  repeat first
    [ apply preserves_ret | apply preserves_throw | apply preserves_int
    | apply preserves_float
    | apply preserves_bind; [|intros ?]
    | apply preserves_shaped | apply preserves_shaped_option
    | apply preserves_shaped_list
    | apply preserves_user_findUnique | apply preserves_user_findMany
    | apply preserves_category_findUnique | apply preserves_category_findMany
    | apply preserves_currency_findUnique | apply preserves_currency_findMany
    | apply preserves_record_findUnique | apply preserves_record_findMany
    | apply preserves_record_count
    | apply preserves_user_findUnique_email | apply preserves_user_create_data
    | apply preserves_user_create | apply preserves_user_update
    | apply preserves_user_delete
    | apply preserves_category_create | apply preserves_category_delete
    | apply preserves_currency_create | apply preserves_currency_delete
    | apply preserves_record_create | apply preserves_record_deleteMany
    | apply preserves_record_delete
    | match goal with
      | |- preserves (match ?x with _ => _ end) => destruct x
      | |- preserves (if ?b then _ else _) => destruct b
      end ].

Section Invariant.
Context {platform : Platform}.

Lemma baseline_handler_preserves (r : Baseline.Route) (w : World) (req : Request) :
  preserves (Baseline.handler r w req).
Proof.
  destruct r; cbn [Baseline.handler];
    unfold Baseline.GET_healthcheck, Baseline.POST_user, Baseline.GET_user_userId,
      Baseline.DELETE_user_userId, Baseline.GET_users,
      Baseline.PATCH_user_userId_currency, Baseline.GET_category,
      Baseline.POST_category, Baseline.DELETE_category, Baseline.GET_currency,
      Baseline.POST_currency, Baseline.DELETE_currency_id, Baseline.POST_record,
      Baseline.GET_record_recordId, Baseline.DELETE_record_recordId,
      Baseline.GET_record;
    preserve.
Qed.

Lemma auth_handler_preserves (r : Auth.Route) (w : World) (req : Request) :
  preserves (Auth.handler r w req).
Proof.
  destruct r; cbn [Auth.handler];
    unfold Auth.GET_healthcheck, Auth.POST_user, Auth.POST_auth_login,
      Auth.GET_user_userId, Auth.GET_users, Auth.PATCH_user_userId_currency,
      Auth.DELETE_user_userId, Auth.GET_category, Auth.POST_category,
      Auth.DELETE_category, Auth.GET_currency, Auth.POST_currency,
      Auth.DELETE_currency_id, Auth.POST_record, Auth.GET_record_recordId,
      Auth.GET_record, Auth.DELETE_record_recordId;
    preserve.
Qed.

(** Every route of either router takes a store with integrity to a store
    with integrity. *)
Lemma baseline_router_preserves_integrity (r : Baseline.Route) (w : World)
    (req : Request) (s : Baseline.Store) :
  integrity s = true -> integrity (snd (Baseline.router r w req s)) = true.
Proof. apply asyncHandler_preserves, baseline_handler_preserves. Qed.

Lemma auth_router_preserves_integrity (r : Auth.Route) (w : World)
    (req : Request) (s : Auth.Store) :
  integrity s = true -> integrity (snd (Auth.router r w req s)) = true.
Proof.
  intros Hs. unfold Auth.router.
  destruct (Auth.public r);
    [apply asyncHandler_preserves; [apply auth_handler_preserves|exact Hs]|].
  destruct (Auth.authMiddleware w req) as [res|req']; [exact Hs|].
  apply asyncHandler_preserves; [apply auth_handler_preserves|exact Hs].
Qed.

End Invariant.

(** ** POST /record: which currency the record gets *)

Section RecordCreation.
Context {platform : Platform}.




End RecordCreation.




(** ** GET /record: the filters *)

Section RecordListing.
Context {platform : Platform}.

Lemma satisfies_both {U} `{UserRow U} (u c : Z) (l : list ExpenseRecord.t)
    (r : ExpenseRecord.t) :
  In r (filter (@Prisma.satisfies
                  {| Prisma.where_userId := Some u;
                     Prisma.where_categoryId := Some c;
                     Prisma.where_currencyId := None |}) l)
  <-> In r l /\ ExpenseRecord.userId r = u /\ ExpenseRecord.categoryId r = c.
Proof.
  rewrite filter_In. unfold Prisma.satisfies. simpl.
  rewrite andb_true_r, andb_true_iff, !Z.eqb_eq. tauto.
Qed.

Lemma satisfies_nothing {U} `{UserRow U} (l : list ExpenseRecord.t) :
  filter (@Prisma.satisfies
            {| Prisma.where_userId := None; Prisma.where_categoryId := None;
               Prisma.where_currencyId := None |}) l = l.
Proof.
  induction l as [|r l IH]; simpl; [reflexivity|]. now rewrite IH.
Qed.

Lemma baseline_get_record (req : Request) (s : Baseline.Store) :
  (truthy (get "user_id" (query req)) = false ->
   truthy (get "category_id" (query req)) = false ->
   asyncHandler (Baseline.GET_record req) s
   = (message 400
        "At least one of query parameters 'user_id' or 'category_id' is required",
      s))
  /\ (forall u c,
        truthy (get "user_id" (query req)) = true ->
        truthy (get "category_id" (query req)) = true ->
        Number_ (get "user_id" (query req)) = Int u ->
        Number_ (get "category_id" (query req)) = Int c ->
        Prisma.INTEGER u = true -> Prisma.INTEGER c = true ->
        exists listed,
          asyncHandler (Baseline.GET_record req) s
          = (json 200
               (VArr (map (Prisma.include_user_category_currency s) listed)), s)
          /\ forall r, In r listed
                       <-> In r (Prisma.records s)
                           /\ ExpenseRecord.userId r = u
                           /\ ExpenseRecord.categoryId r = c)
  /\ (forall u c,
        truthy (get "user_id" (query req)) = true ->
        truthy (get "category_id" (query req)) = true ->
        Number_ (get "user_id" (query req)) = Int u ->
        Number_ (get "category_id" (query req)) = Int c ->
        Prisma.INTEGER u && Prisma.INTEGER c = false ->
        asyncHandler (Baseline.GET_record req) s
        = (message 500 "Internal server error", s)).
Proof.
  split; [|split].
  - intros Hu Hc. unfold Baseline.GET_record. rewrite Hu, Hc. reflexivity.
  - intros u c Hu Hc Hnu Hnc Hfu Hfc. unfold Baseline.GET_record.
    rewrite Hu, Hc, Hnu, Hnc. cbn.
    run. unfold Prisma.shaped_list, Prisma.record_findMany, Prisma.in_range.
    cbn. rewrite Hfu, Hfc. cbn.
    eexists. split; [reflexivity|].
    intro r. apply (satisfies_both (U := Baseline.User.t)).
  - intros u c Hu Hc Hnu Hnc Hfits. unfold Baseline.GET_record.
    rewrite Hu, Hc, Hnu, Hnc. cbn.
    run. unfold Prisma.shaped_list, Prisma.record_findMany, Prisma.in_range.
    cbn. rewrite andb_true_r, Hfits. reflexivity.
Qed.

Lemma auth_get_record (req : Request) (s : Auth.Store) :
  (get "userId" (query req) = VUndefined ->
   get "categoryId" (query req) = VUndefined ->
   asyncHandler (Auth.GET_record req) s
   = (json 200
        (VArr (map (Prisma.include_user_category_currency s) (Prisma.records s))),
      s))
  /\ (forall u c,
        defined (get "userId" (query req)) = true ->
        defined (get "categoryId" (query req)) = true ->
        Number_ (get "userId" (query req)) = Int u ->
        Number_ (get "categoryId" (query req)) = Int c ->
        Prisma.INTEGER u = true -> Prisma.INTEGER c = true ->
        exists listed,
          asyncHandler (Auth.GET_record req) s
          = (json 200
               (VArr (map (Prisma.include_user_category_currency s) listed)), s)
          /\ forall r, In r listed
                       <-> In r (Prisma.records s)
                           /\ ExpenseRecord.userId r = u
                           /\ ExpenseRecord.categoryId r = c)
  /\ (forall u c,
        defined (get "userId" (query req)) = true ->
        defined (get "categoryId" (query req)) = true ->
        Number_ (get "userId" (query req)) = Int u ->
        Number_ (get "categoryId" (query req)) = Int c ->
        Prisma.INTEGER u && Prisma.INTEGER c = false ->
        asyncHandler (Auth.GET_record req) s
        = (message 500 "Internal server error", s)).
Proof.
  split; [|split].
  - intros Hu Hc. unfold Auth.GET_record. rewrite Hu, Hc. cbn.
    unfold Prisma.shaped_list, Prisma.record_findMany. cbn.
    now rewrite (satisfies_nothing (U := Auth.User.t)).
  - intros u c Hu Hc Hnu Hnc Hfu Hfc. unfold Auth.GET_record.
    rewrite Hu, Hc, Hnu, Hnc. cbn.
    run. unfold Prisma.shaped_list, Prisma.record_findMany, Prisma.in_range.
    cbn. rewrite Hfu, Hfc. cbn.
    eexists. split; [reflexivity|].
    intro r. apply (satisfies_both (U := Auth.User.t)).
  - intros u c Hu Hc Hnu Hnc Hfits. unfold Auth.GET_record.
    rewrite Hu, Hc, Hnu, Hnc. cbn.
    run. unfold Prisma.shaped_list, Prisma.record_findMany, Prisma.in_range.
    cbn. rewrite andb_true_r, Hfits. reflexivity.
Qed.

End RecordListing.

(** C4 as stated fails on the authenticated router: GET /record with no
    query parameter at all, and a valid token, is answered 200 with every
    stored record, not 400. *)
Lemma auth_get_record_without_filters_is_200 :
  let req := Demo.request [] [] [] (Demo.bearer "fresh") in
  get "user_id" (query req) = VUndefined
  /\ get "category_id" (query req) = VUndefined
  /\ status (fst (Auth.router (platform := Demo.platform) Auth.get_record
                    Demo.world req Demo.auth_store)) = 200
  /\ status (fst (Auth.router (platform := Demo.platform) Auth.get_record
                    Demo.world req Demo.auth_store)) <> 400.
Proof. cbv zeta. repeat split. discriminate. Qed.

(** C4, amended.  In the baseline router GET /record without a non-empty
    [user_id] or [category_id] is answered 400.  In the authenticated
    router the filters are read from [userId] and [categoryId] and none is
    required: without them every stored record is listed (200).  In both,
    with the two filters converting to integers that fit INTEGER, the
    answer lists exactly the stored records that satisfy both; when one of
    the two does not fit INTEGER the answer is 500. *)
Theorem get_record_filters {platform : Platform} (req : Request) :
  (forall s : Baseline.Store,
     (truthy (get "user_id" (query req)) = false ->
      truthy (get "category_id" (query req)) = false ->
      asyncHandler (Baseline.GET_record req) s
      = (message 400
           "At least one of query parameters 'user_id' or 'category_id' is required",
         s))
     /\ (forall u c,
           truthy (get "user_id" (query req)) = true ->
           truthy (get "category_id" (query req)) = true ->
           Number_ (get "user_id" (query req)) = Int u ->
           Number_ (get "category_id" (query req)) = Int c ->
           Prisma.INTEGER u = true -> Prisma.INTEGER c = true ->
           exists listed,
             asyncHandler (Baseline.GET_record req) s
             = (json 200
                  (VArr (map (Prisma.include_user_category_currency s) listed)), s)
             /\ forall r, In r listed
                          <-> In r (Prisma.records s)
                              /\ ExpenseRecord.userId r = u
                              /\ ExpenseRecord.categoryId r = c)
     /\ (forall u c,
           truthy (get "user_id" (query req)) = true ->
           truthy (get "category_id" (query req)) = true ->
           Number_ (get "user_id" (query req)) = Int u ->
           Number_ (get "category_id" (query req)) = Int c ->
           Prisma.INTEGER u && Prisma.INTEGER c = false ->
           asyncHandler (Baseline.GET_record req) s
           = (message 500 "Internal server error", s)))
  /\
  (forall s : Auth.Store,
     (get "userId" (query req) = VUndefined ->
      get "categoryId" (query req) = VUndefined ->
      asyncHandler (Auth.GET_record req) s
      = (json 200
           (VArr (map (Prisma.include_user_category_currency s) (Prisma.records s))),
         s))
     /\ (forall u c,
           defined (get "userId" (query req)) = true ->
           defined (get "categoryId" (query req)) = true ->
           Number_ (get "userId" (query req)) = Int u ->
           Number_ (get "categoryId" (query req)) = Int c ->
           Prisma.INTEGER u = true -> Prisma.INTEGER c = true ->
           exists listed,
             asyncHandler (Auth.GET_record req) s
             = (json 200
                  (VArr (map (Prisma.include_user_category_currency s) listed)), s)
             /\ forall r, In r listed
                          <-> In r (Prisma.records s)
                              /\ ExpenseRecord.userId r = u
                              /\ ExpenseRecord.categoryId r = c)
     /\ (forall u c,
           defined (get "userId" (query req)) = true ->
           defined (get "categoryId" (query req)) = true ->
           Number_ (get "userId" (query req)) = Int u ->
           Number_ (get "categoryId" (query req)) = Int c ->
           Prisma.INTEGER u && Prisma.INTEGER c = false ->
           asyncHandler (Auth.GET_record req) s
           = (message 500 "Internal server error", s))).
Proof.
  split; intro s.
  - apply baseline_get_record.
  - apply auth_get_record.
Qed.

Lemma get_record_filters_witness :
  let none := Demo.request [] [] [] [] in
  let snake := Demo.request []
                 [("user_id", VStr "1"); ("category_id", VStr "1")] [] [] in
  let camel := Demo.request []
                 [("userId", VStr "1"); ("categoryId", VStr "1")] [] [] in
  let wide := Demo.request []
                [("userId", VStr "2147483648"); ("categoryId", VStr "1")] [] [] in
  status (fst (asyncHandler (Baseline.GET_record (platform := Demo.platform) none)
                 Demo.baseline_store)) = 400
  /\ (exists listed,
        asyncHandler (Baseline.GET_record (platform := Demo.platform) snake)
          Demo.baseline_store
        = (json 200
             (VArr (map (Prisma.include_user_category_currency
                           (platform := Demo.platform) Demo.baseline_store)
                      listed)),
           Demo.baseline_store)
        /\ In Demo.lunch listed)
  /\ asyncHandler (Auth.GET_record (platform := Demo.platform) none) Demo.auth_store
     = (json 200
          (VArr (map (Prisma.include_user_category_currency
                        (platform := Demo.platform) Demo.auth_store)
                   [Demo.lunch])),
        Demo.auth_store)
  /\ (exists listed,
        asyncHandler (Auth.GET_record (platform := Demo.platform) camel)
          Demo.auth_store
        = (json 200
             (VArr (map (Prisma.include_user_category_currency
                           (platform := Demo.platform) Demo.auth_store)
                      listed)),
           Demo.auth_store)
        /\ In Demo.lunch listed)
  /\ asyncHandler (Auth.GET_record (platform := Demo.platform) wide) Demo.auth_store
     = (message 500 "Internal server error", Demo.auth_store).
Proof.
  cbv zeta. split; [|split; [|split; [|split]]].
  - destruct (get_record_filters (platform := Demo.platform)
                (Demo.request [] [] [] [])) as [B _].
    destruct (B Demo.baseline_store) as [Hnone _].
    rewrite (Hnone eq_refl eq_refl). reflexivity.
  - destruct (get_record_filters (platform := Demo.platform)
                (Demo.request []
                   [("user_id", VStr "1"); ("category_id", VStr "1")] [] []))
      as [B _].
    destruct (B Demo.baseline_store) as [_ [Hboth _]].
    destruct (Hboth 1 1 eq_refl eq_refl eq_refl eq_refl eq_refl eq_refl)
      as [listed [Heq Hin]].
    exists listed. split; [exact Heq|].
    apply Hin. repeat split. left. reflexivity.
  - destruct (get_record_filters (platform := Demo.platform)
                (Demo.request [] [] [] [])) as [_ A].
    destruct (A Demo.auth_store) as [Hnone _].
    exact (Hnone eq_refl eq_refl).
  - destruct (get_record_filters (platform := Demo.platform)
                (Demo.request []
                   [("userId", VStr "1"); ("categoryId", VStr "1")] [] []))
      as [_ A].
    destruct (A Demo.auth_store) as [_ [Hboth _]].
    destruct (Hboth 1 1 eq_refl eq_refl eq_refl eq_refl eq_refl eq_refl)
      as [listed [Heq Hin]].
    exists listed. split; [exact Heq|].
    apply Hin. repeat split. left. reflexivity.
  - destruct (get_record_filters (platform := Demo.platform)
                (Demo.request []
                   [("userId", VStr "2147483648"); ("categoryId", VStr "1")]
                   [] []))
      as [_ A].
    destruct (A Demo.auth_store) as [_ [_ Hwide]].
    exact (Hwide 2147483648 1 eq_refl eq_refl eq_refl eq_refl eq_refl).
Defined.

(** ** authMiddleware *)

(** The text before the first separator is the first piece, the pieces of
    the text after it are the other pieces. *)
Lemma split_second (sep : ascii) (s p q : string) (rest : list string) :
  split sep s = p :: q :: rest ->
  exists t, s = (p ++ String sep t)%string /\ split sep t = q :: rest.
Proof.
  revert p. induction s as [|a s IH]; intros p; simpl; [discriminate|].
  destruct (Ascii.eqb a sep) eqn:E.
  - apply Ascii.eqb_eq in E. subst a. intros [= <- Hs].
    exists s. split; [reflexivity|exact Hs].
  - destruct (split sep s) as [|piece pieces] eqn:Hs; [discriminate|].
    intros [= <- ->].
    destruct (IH piece eq_refl) as [t [-> Ht]].
    exists t. split; [reflexivity|exact Ht].
Qed.

Lemma split_no_space (t : string) : no_space t = true -> split " " t = [t].
Proof.
  induction t as [|a t IH]; simpl; [reflexivity|].
  intros Hn. apply andb_prop in Hn as [Ha Ht].
  apply negb_true_iff in Ha. rewrite Ha, (IH Ht). reflexivity.
Qed.

Lemma split_bearer (t : string) :
  no_space t = true -> split " " ("Bearer " ++ t) = ["Bearer"; t].
Proof. intros Hn. cbn. rewrite (split_no_space _ Hn). reflexivity. Qed.

Lemma eqb_empty (s : string) : s <> EmptyString -> String.eqb s "" = false.
Proof. intros Hs. apply String.eqb_neq. exact Hs. Qed.

(** The first piece is the text up to the first space. *)
Lemma split_first (t : string) :
  exists pieces, split " " t = before_space t :: pieces.
Proof.
  induction t as [|a t [pieces IH]]; simpl; [eexists; reflexivity|].
  destruct (Ascii.eqb a " "); [eexists; reflexivity|].
  rewrite IH. eexists; reflexivity.
Qed.

Section Middleware.
Context {platform : Platform}.

Lemma middleware_no_credentials (w : World) (req : Request) :
  header "Authorization" req = None \/ header "Authorization" req = Some EmptyString ->
  rejects w req "authorization_required".
Proof.
  intros Hh. exists Auth.authorization_required.
  assert (Hmw : Auth.authMiddleware w req = Auth.Respond Auth.authorization_required)
    by (unfold Auth.authMiddleware; destruct Hh as [-> | ->]; reflexivity).
  repeat split; [exact Hmw|]. apply router_respond, Hmw.
Qed.

Lemma middleware_bad_format (w : World) (req : Request) (h : string) :
  header "Authorization" req = Some h ->
  h <> EmptyString ->
  ~ bearer_form h ->
  rejects w req "invalid_token".
Proof.
  intros Hh Hne Hform. exists Auth.bearer_format.
  assert (Hmw : Auth.authMiddleware w req = Auth.Respond Auth.bearer_format).
  { unfold Auth.authMiddleware. rewrite Hh, (eqb_empty Hne).
    destruct (split " " h) as [|p [|q rest]] eqn:Hs; try reflexivity.
    cbn [hd nth_error].
    destruct (String.eqb p "Bearer") eqn:Hp; [|reflexivity].
    destruct (String.eqb q "") eqn:Hq; [reflexivity|].
    exfalso. apply Hform.
    apply String.eqb_eq in Hp. subst p.
    destruct (split_second _ _ Hs) as [t [-> Ht]].
    exists t. split; [|reflexivity].
    intros ->. simpl in Ht. injection Ht as <- _. discriminate. }
  repeat split; [exact Hmw|]. apply router_respond, Hmw.
Qed.

Lemma middleware_verifies (w : World) (req : Request) (token : string) :
  header "Authorization" req = Some ("Bearer " ++ token)%string ->
  token <> EmptyString ->
  no_space token = true ->
  Auth.authMiddleware w req
  = match jwt_verify token JWT_SECRET (now w) with
    | Payload uid => Auth.Next (with_userId req uid)
    | VerifyError name =>
        if String.eqb name "TokenExpiredError"
        then Auth.Respond Auth.token_expired
        else Auth.Respond Auth.signature_failed
    end.
Proof.
  intros Hh Hne Hns. unfold Auth.authMiddleware. rewrite Hh.
  change (String.eqb ("Bearer " ++ token) "") with false. cbv iota.
  rewrite (split_bearer _ Hns). cbn [hd nth_error].
  rewrite (eqb_empty Hne). reflexivity.
Qed.

(** What the middleware does with ["Bearer " ++ t]: its token is the text
    of [t] up to the first space. *)
Lemma middleware_bearer (w : World) (req : Request) (t : string) :
  header "Authorization" req = Some ("Bearer " ++ t)%string ->
  Auth.authMiddleware w req
  = if String.eqb (before_space t) ""
    then Auth.Respond Auth.bearer_format
    else match jwt_verify (before_space t) JWT_SECRET (now w) with
         | Payload uid => Auth.Next (with_userId req uid)
         | VerifyError name =>
             if String.eqb name "TokenExpiredError"
             then Auth.Respond Auth.token_expired
             else Auth.Respond Auth.signature_failed
         end.
Proof.
  intros Hh. unfold Auth.authMiddleware. rewrite Hh.
  change (String.eqb ("Bearer " ++ t) "") with false. cbv iota.
  destruct (split_first t) as [pieces Hs].
  cbn. rewrite Hs. cbn [hd nth_error]. reflexivity.
Qed.

End Middleware.

(** C5 as stated fails on an Authorization header that is present but
    empty: it is not of the form [Bearer <token>], and the answer is 401
    [authorization_required], not [invalid_token]. *)
Lemma empty_authorization_header_is_not_invalid_token :
  let req := Demo.request [] [] [] [("authorization", "")] in
  header (platform := Demo.platform) "Authorization" req = Some EmptyString
  /\ ~ bearer_form EmptyString
  /\ Auth.authMiddleware (platform := Demo.platform) Demo.world req
     = Auth.Respond Auth.authorization_required
  /\ error_of Auth.authorization_required = VStr "authorization_required"
  /\ error_of Auth.authorization_required <> VStr "invalid_token".
Proof.
  cbv zeta. repeat split.
  - intros [t [_ Ht]]. discriminate Ht.
  - discriminate.
Qed.

(** C5, amended.  On a protected route of the authenticated router: an
    absent or empty Authorization header is answered 401
    [authorization_required]; a non-empty header that is not [Bearer ]
    followed by a non-empty rest is answered 401 [invalid_token].  For a
    header that begins with [Bearer ], the token is what follows up to the
    next space, and the rest is not looked at: an empty token is answered
    401 [invalid_token]; a token whose verification throws
    TokenExpiredError is answered 401 [token_expired], any other
    verification error 401 [invalid_token], and a verified token has its
    [userId] attached to the request the handler then runs on. *)
Theorem auth_middleware_contract {platform : Platform} (w : World) (req : Request) :
  (header "Authorization" req = None
   \/ header "Authorization" req = Some EmptyString ->
   rejects w req "authorization_required")
  /\ (forall h,
        header "Authorization" req = Some h ->
        h <> EmptyString ->
        ~ bearer_form h ->
        rejects w req "invalid_token")
  /\ (forall rest,
        header "Authorization" req = Some ("Bearer " ++ rest)%string ->
        (before_space rest = EmptyString -> rejects w req "invalid_token")
        /\ (before_space rest <> EmptyString ->
            (jwt_verify (before_space rest) JWT_SECRET (now w)
             = VerifyError "TokenExpiredError" ->
             rejects w req "token_expired")
            /\ (forall name,
                  jwt_verify (before_space rest) JWT_SECRET (now w)
                  = VerifyError name ->
                  name <> "TokenExpiredError" ->
                  rejects w req "invalid_token")
            /\ (forall uid,
                  jwt_verify (before_space rest) JWT_SECRET (now w) = Payload uid ->
                  admits w req uid))).
Proof.
  split; [apply middleware_no_credentials|].
  split; [intros h; apply middleware_bad_format|].
  intros rest Hh.
  pose proof (middleware_bearer w req Hh) as Hmw.
  split.
  - intros Hempty. rewrite Hempty in Hmw. cbn in Hmw.
    exists Auth.bearer_format. repeat split; [exact Hmw|].
    apply router_respond, Hmw.
  - intros Htoken. rewrite (eqb_empty Htoken) in Hmw.
    split; [|split].
    + intros Hv. rewrite Hv in Hmw. cbn in Hmw.
      exists Auth.token_expired. repeat split; [exact Hmw|].
      apply router_respond, Hmw.
    + intros name Hv Hname. rewrite Hv in Hmw.
      apply String.eqb_neq in Hname. rewrite Hname in Hmw.
      exists Auth.signature_failed. repeat split; [exact Hmw|].
      apply router_respond, Hmw.
    + intros uid Hv. rewrite Hv in Hmw.
      split; [exact Hmw|]. split; [reflexivity|].
      intros r s Hr. unfold Auth.router. rewrite Hr, Hmw. reflexivity.
Qed.

Lemma auth_middleware_contract_witness :
  let sent := fun h => Demo.request [] [] [] h in
  rejects (platform := Demo.platform) Demo.world (sent []) "authorization_required"
  /\ rejects (platform := Demo.platform) Demo.world
       (sent [("authorization", "Token abc")]) "invalid_token"
  /\ rejects (platform := Demo.platform) Demo.world
       (sent [("authorization", "Bearer  fresh")]) "invalid_token"
  /\ rejects (platform := Demo.platform) Demo.world
       (sent (Demo.bearer "stale")) "token_expired"
  /\ rejects (platform := Demo.platform) Demo.world
       (sent (Demo.bearer "forged")) "invalid_token"
  /\ admits (platform := Demo.platform) Demo.world
       (sent (Demo.bearer "fresh")) (VNum (Int 1))
  /\ admits (platform := Demo.platform) Demo.world
       (sent [("authorization", "Bearer fresh junk")]) (VNum (Int 1)).
Proof.
  cbv zeta.
  destruct (auth_middleware_contract (platform := Demo.platform) Demo.world
              (Demo.request [] [] [] [])) as [Habsent _].
  destruct (auth_middleware_contract (platform := Demo.platform) Demo.world
              (Demo.request [] [] [] [("authorization", "Token abc")]))
    as [_ [Hformat _]].
  destruct (auth_middleware_contract (platform := Demo.platform) Demo.world
              (Demo.request [] [] [] [("authorization", "Bearer  fresh")]))
    as [_ [_ Hblank]].
  destruct (auth_middleware_contract (platform := Demo.platform) Demo.world
              (Demo.request [] [] [] (Demo.bearer "stale"))) as [_ [_ Hstale]].
  destruct (auth_middleware_contract (platform := Demo.platform) Demo.world
              (Demo.request [] [] [] (Demo.bearer "forged"))) as [_ [_ Hforged]].
  destruct (auth_middleware_contract (platform := Demo.platform) Demo.world
              (Demo.request [] [] [] (Demo.bearer "fresh"))) as [_ [_ Hfresh]].
  destruct (auth_middleware_contract (platform := Demo.platform) Demo.world
              (Demo.request [] [] [] [("authorization", "Bearer fresh junk")]))
    as [_ [_ Hjunk]].
  assert (Hne : forall a s, String a s <> EmptyString) by discriminate.
  split; [|split; [|split; [|split; [|split; [|split]]]]].
  - apply Habsent. left. reflexivity.
  - apply (Hformat "Token abc" eq_refl (Hne _ _)).
    intros [t [_ Ht]]. discriminate Ht.
  - destruct (Hblank " fresh" eq_refl) as [Hempty _].
    apply Hempty. reflexivity.
  - destruct (Hstale "stale" eq_refl) as [_ Htoken].
    destruct (Htoken (Hne _ _)) as [Hexpired _].
    apply Hexpired. reflexivity.
  - destruct (Hforged "forged" eq_refl) as [_ Htoken].
    destruct (Htoken (Hne _ _)) as [_ [Hother _]].
    apply (Hother "JsonWebTokenError"); [reflexivity|discriminate].
  - destruct (Hfresh "fresh" eq_refl) as [_ Htoken].
    destruct (Htoken (Hne _ _)) as [_ [_ Hok]].
    apply Hok. reflexivity.
  - destruct (Hjunk "fresh junk" eq_refl) as [_ Htoken].
    destruct (Htoken (Hne _ _)) as [_ [_ Hok]].
    apply Hok. reflexivity.
Defined.

(** ** POST /auth/login *)

(** C6.  POST /auth/login with a non-empty string [email] and [password]:
    on a store where no user has the normalized email, and on a store where
    a user has it but the password does not match the stored hash, the
    answer is the same: 401 with body {"message":"Invalid email or
    password"}, and the store is left unchanged. *)
Theorem login_failure_is_uniform {platform : Platform} (w : World) (req : Request)
    (email password : string) (s1 s2 : Auth.Store) (usr : Auth.User.t) :
  get "email" (body req) = VStr email -> email <> EmptyString ->
  get "password" (body req) = VStr password -> password <> EmptyString ->
  find (fun u => String.eqb (Auth.User.email u) (toLowerCase (trim email)))
    (Prisma.users s1) = None ->
  find (fun u => String.eqb (Auth.User.email u) (toLowerCase (trim email)))
    (Prisma.users s2) = Some usr ->
  bcrypt_compare password (Auth.User.passwordHash usr) = false ->
  Auth.router Auth.post_auth_login w req s1
  = ({| status := 401;
        payload := VObj [("message", VStr "Invalid email or password")] |}, s1)
  /\ Auth.router Auth.post_auth_login w req s2
     = ({| status := 401;
           payload := VObj [("message", VStr "Invalid email or password")] |}, s2)
  /\ fst (Auth.router Auth.post_auth_login w req s1)
     = fst (Auth.router Auth.post_auth_login w req s2).
Proof.
  intros He Hene Hp Hpne Habsent Hpresent Hmismatch.
  assert (H1 : Auth.router Auth.post_auth_login w req s1
               = (message 401 "Invalid email or password", s1)).
  { unfold Auth.router, Auth.handler, Auth.POST_auth_login. cbn [Auth.public].
    rewrite He, Hp. cbn [truthy typeof jstype_eqb negb orb text].
    rewrite (eqb_empty Hene), (eqb_empty Hpne). cbn [negb orb].
    run. unfold Auth.user_findUnique_email. rewrite Habsent. reflexivity. }
  assert (H2 : Auth.router Auth.post_auth_login w req s2
               = (message 401 "Invalid email or password", s2)).
  { unfold Auth.router, Auth.handler, Auth.POST_auth_login. cbn [Auth.public].
    rewrite He, Hp. cbn [truthy typeof jstype_eqb negb orb text].
    rewrite (eqb_empty Hene), (eqb_empty Hpne). cbn [negb orb].
    run. unfold Auth.user_findUnique_email. rewrite Hpresent, Hmismatch.
    reflexivity. }
  rewrite H1, H2. repeat split.
Qed.

Lemma login_failure_is_uniform_witness :
  let req := Demo.request [] []
               (Demo.credentials VUndefined (VStr " Alice@Example.com ")
                  (VStr "letmein")) [] in
  fst (Auth.router (platform := Demo.platform) Auth.post_auth_login Demo.world
         req Demo.auth_empty)
  = fst (Auth.router (platform := Demo.platform) Auth.post_auth_login Demo.world
           req Demo.auth_store).
Proof.
  cbv zeta.
  apply (login_failure_is_uniform (platform := Demo.platform) Demo.world
           (Demo.request [] []
              (Demo.credentials VUndefined (VStr " Alice@Example.com ")
                 (VStr "letmein")) [])
           (email := " Alice@Example.com ") (password := "letmein")
           Demo.auth_empty Demo.auth_store (usr := Demo.auth_alice));
    first [reflexivity | discriminate].
Defined.

(** ** POST /user, with authentication *)

Section Signup.
Context {platform : Platform}.



End Signup.



(** ** PATCH /user/:userId/currency *)

Section DefaultCurrency.
Context {platform : Platform}.

Lemma find_updated {U} `{UserRow U} (u : Z) (d : option Z) (l : list U) (usr : U) :
  (forall x, user_id (set_defaultCurrencyId d x) = user_id x) ->
  find (fun x => user_id x =? u) l = Some usr ->
  find (fun x => user_id x =? u)
    (map (fun x => if user_id x =? u then set_defaultCurrencyId d x else x) l)
  = Some (set_defaultCurrencyId d usr).
Proof.
  intros Hid. induction l as [|a l IH]; simpl; [discriminate|].
  destruct (user_id a =? u) eqn:E.
  - intros [= ->]. rewrite Hid, E. reflexivity.
  - rewrite E. exact IH.
Qed.

Lemma baseline_patch_currency (req : Request) (s : Baseline.Store) (u c : Z) :
  Number_ (param "userId" req) = Int u ->
  get "currencyId" (body req) = VNum (Int c) ->
  (Prisma.has_user u s = false ->
   (Prisma.INTEGER u = true ->
    asyncHandler (Baseline.PATCH_user_userId_currency req) s
    = (message 404 "User not found", s))
   /\ (Prisma.INTEGER u = false ->
       asyncHandler (Baseline.PATCH_user_userId_currency req) s
       = (message 500 "Internal server error", s)))
  /\ (Prisma.has_user u s = true ->
      Prisma.has_currency c s = false ->
      (Prisma.INTEGER c = true ->
       asyncHandler (Baseline.PATCH_user_userId_currency req) s
       = (message 404 "Currency not found", s))
      /\ (Prisma.INTEGER c = false ->
          asyncHandler (Baseline.PATCH_user_userId_currency req) s
          = (message 500 "Internal server error", s)))
  /\ (forall usr cur,
        find (fun x => Baseline.User.id x =? u) (Prisma.users s) = Some usr ->
        find (fun x => Currency.id x =? c) (Prisma.currencies s) = Some cur ->
        exists s',
          asyncHandler (Baseline.PATCH_user_userId_currency req) s
          = (json 200
               (VObj [("id", VNum (Int (Baseline.User.id usr)));
                      ("name", VStr (Baseline.User.name usr));
                      ("defaultCurrencyId", VNum (Int c));
                      ("defaultCurrency", Currency.toJSON cur)]), s')
          /\ find (fun x => Baseline.User.id x =? u) (Prisma.users s')
             = Some {| Baseline.User.id := Baseline.User.id usr;
                       Baseline.User.name := Baseline.User.name usr;
                       Baseline.User.defaultCurrencyId := Some c |}
          /\ Prisma.currencies s' = Prisma.currencies s
          /\ Prisma.records s' = Prisma.records s).
Proof.
  intros Hu Hc. unfold Baseline.PATCH_user_userId_currency. rewrite Hu, Hc.
  cbn [typeof jstype_eqb negb number_of].
  split; [|split].
  - intros Hno. run. unfold Prisma.user_findUnique, Prisma.not_found.
    rewrite (existsb_false_find _ _ Hno).
    split; intros ->; reflexivity.
  - intros Huser Hno. destruct (existsb_find _ _ Huser) as [usr Hfind].
    run. unfold Prisma.user_findUnique, Prisma.currency_findUnique,
      Prisma.not_found.
    rewrite Hfind. cbn. rewrite (existsb_false_find _ _ Hno).
    split; intros ->; reflexivity.
  - intros usr cur Hfind Hcur.
    run. unfold Prisma.user_findUnique, Prisma.currency_findUnique,
      Prisma.shaped, Prisma.user_update_defaultCurrencyId.
    change (@user_id Baseline.User.t _) with Baseline.User.id.
    rewrite Hfind. cbn. rewrite Hcur. cbn. rewrite Hfind.
    rewrite (find_existsb _ _ Hcur : Prisma.has_currency c s = true).
    unfold Prisma.include_defaultCurrency, Auth.select_user_defaultCurrency,
      Prisma.defaultCurrency, Prisma.the_currency.
    cbn. rewrite Hcur. cbn.
    eexists. split; [reflexivity|]. cbn. split; [|split; reflexivity].
    exact (find_updated (U := Baseline.User.t) u (Some c) (Prisma.users s)
             (usr := usr) (fun _ => eq_refl) Hfind).
Qed.

Lemma auth_patch_currency (req : Request) (s : Auth.Store) (u c : Z) :
  Number_ (param "userId" req) = Int u ->
  Number_ (get "currencyId" (body req)) = Int c ->
  (Prisma.has_user u s = false ->
   (Prisma.INTEGER u = true ->
    asyncHandler (Auth.PATCH_user_userId_currency req) s
    = (message 404 "User not found", s))
   /\ (Prisma.INTEGER u = false ->
       asyncHandler (Auth.PATCH_user_userId_currency req) s
       = (message 500 "Internal server error", s)))
  /\ (Prisma.has_user u s = true ->
      Prisma.has_currency c s = false ->
      (Prisma.INTEGER c = true ->
       asyncHandler (Auth.PATCH_user_userId_currency req) s
       = (message 400 "Currency does not exist", s))
      /\ (Prisma.INTEGER c = false ->
          asyncHandler (Auth.PATCH_user_userId_currency req) s
          = (message 500 "Internal server error", s)))
  /\ (forall usr cur,
        find (fun x => Auth.User.id x =? u) (Prisma.users s) = Some usr ->
        find (fun x => Currency.id x =? c) (Prisma.currencies s) = Some cur ->
        exists s',
          asyncHandler (Auth.PATCH_user_userId_currency req) s
          = (json 200
               (VObj [("id", VNum (Int (Auth.User.id usr)));
                      ("name", VStr (Auth.User.name usr));
                      ("email", VStr (Auth.User.email usr));
                      ("defaultCurrencyId", VNum (Int c));
                      ("defaultCurrency", Currency.toJSON cur)]), s')
          /\ find (fun x => Auth.User.id x =? u) (Prisma.users s')
             = Some {| Auth.User.id := Auth.User.id usr;
                       Auth.User.name := Auth.User.name usr;
                       Auth.User.email := Auth.User.email usr;
                       Auth.User.passwordHash := Auth.User.passwordHash usr;
                       Auth.User.defaultCurrencyId := Some c |}
          /\ Prisma.currencies s' = Prisma.currencies s
          /\ Prisma.records s' = Prisma.records s).
Proof.
  intros Hu Hc. unfold Auth.PATCH_user_userId_currency. rewrite Hu, Hc.
  split; [|split].
  - intros Hno. run. unfold Prisma.user_findUnique, Prisma.not_found.
    rewrite (existsb_false_find _ _ Hno).
    split; intros ->; reflexivity.
  - intros Huser Hno. destruct (existsb_find _ _ Huser) as [usr Hfind].
    run. unfold Prisma.user_findUnique, Prisma.currency_findUnique,
      Prisma.not_found.
    rewrite Hfind. cbn. rewrite (existsb_false_find _ _ Hno).
    split; intros ->; reflexivity.
  - intros usr cur Hfind Hcur.
    run. unfold Prisma.user_findUnique, Prisma.currency_findUnique,
      Prisma.shaped, Prisma.user_update_defaultCurrencyId.
    change (@user_id Auth.User.t _) with Auth.User.id.
    rewrite Hfind. cbn. rewrite Hcur. cbn. rewrite Hfind.
    rewrite (find_existsb _ _ Hcur : Prisma.has_currency c s = true).
    unfold Prisma.include_defaultCurrency, Auth.select_user_defaultCurrency,
      Prisma.defaultCurrency, Prisma.the_currency.
    cbn. rewrite Hcur. cbn.
    eexists. split; [reflexivity|]. cbn. split; [|split; reflexivity].
    exact (find_updated (U := Auth.User.t) u (Some c) (Prisma.users s)
             (usr := usr) (fun _ => eq_refl) Hfind).
Qed.

End DefaultCurrency.

(** C8 as stated fails on the baseline router: user 1 exists, currency 7
    does not, and PATCH /user/1/currency with [currencyId] 7 is answered
    404 "Currency not found", not 400. *)
Lemma baseline_patch_unknown_currency_is_404 :
  let req := Demo.request [("userId", "1")] [] [("currencyId", VNum (Int 7))] [] in
  Prisma.has_user 1 Demo.baseline_store = true
  /\ Prisma.has_currency 7 Demo.baseline_store = false
  /\ asyncHandler (Baseline.PATCH_user_userId_currency (platform := Demo.platform) req)
       Demo.baseline_store
     = (message 404 "Currency not found", Demo.baseline_store)
  /\ status (fst (asyncHandler
                    (Baseline.PATCH_user_userId_currency (platform := Demo.platform) req)
                    Demo.baseline_store)) <> 400.
Proof. cbv zeta. repeat split. discriminate. Qed.

(** C8, amended.  PATCH /user/:userId/currency with a numeric [userId] and
    [currencyId]: an unknown user is answered 404 when the id fits INTEGER
    and 500 when it does not; a known user with an unknown currency is
    answered 400 by the authenticated router and 404 by the baseline
    router when the currency id fits INTEGER, and 500 when it does not;
    none of these changes the store.  When both exist the user's
    [defaultCurrencyId] becomes the given id and the answer is 200 with the
    updated user and its default currency. *)
Theorem patch_default_currency {platform : Platform} (req : Request) (u c : Z) :
  (forall s : Baseline.Store,
     Number_ (param "userId" req) = Int u ->
     get "currencyId" (body req) = VNum (Int c) ->
     (Prisma.has_user u s = false ->
      (Prisma.INTEGER u = true ->
       asyncHandler (Baseline.PATCH_user_userId_currency req) s
       = (message 404 "User not found", s))
      /\ (Prisma.INTEGER u = false ->
          asyncHandler (Baseline.PATCH_user_userId_currency req) s
          = (message 500 "Internal server error", s)))
     /\ (Prisma.has_user u s = true ->
         Prisma.has_currency c s = false ->
         (Prisma.INTEGER c = true ->
          asyncHandler (Baseline.PATCH_user_userId_currency req) s
          = (message 404 "Currency not found", s))
         /\ (Prisma.INTEGER c = false ->
             asyncHandler (Baseline.PATCH_user_userId_currency req) s
             = (message 500 "Internal server error", s)))
     /\ (forall usr cur,
           find (fun x => Baseline.User.id x =? u) (Prisma.users s) = Some usr ->
           find (fun x => Currency.id x =? c) (Prisma.currencies s) = Some cur ->
           exists s',
             asyncHandler (Baseline.PATCH_user_userId_currency req) s
             = (json 200
                  (VObj [("id", VNum (Int (Baseline.User.id usr)));
                         ("name", VStr (Baseline.User.name usr));
                         ("defaultCurrencyId", VNum (Int c));
                         ("defaultCurrency", Currency.toJSON cur)]), s')
             /\ find (fun x => Baseline.User.id x =? u) (Prisma.users s')
                = Some {| Baseline.User.id := Baseline.User.id usr;
                          Baseline.User.name := Baseline.User.name usr;
                          Baseline.User.defaultCurrencyId := Some c |}
             /\ Prisma.currencies s' = Prisma.currencies s
             /\ Prisma.records s' = Prisma.records s))
  /\
  (forall s : Auth.Store,
     Number_ (param "userId" req) = Int u ->
     Number_ (get "currencyId" (body req)) = Int c ->
     (Prisma.has_user u s = false ->
      (Prisma.INTEGER u = true ->
       asyncHandler (Auth.PATCH_user_userId_currency req) s
       = (message 404 "User not found", s))
      /\ (Prisma.INTEGER u = false ->
          asyncHandler (Auth.PATCH_user_userId_currency req) s
          = (message 500 "Internal server error", s)))
     /\ (Prisma.has_user u s = true ->
         Prisma.has_currency c s = false ->
         (Prisma.INTEGER c = true ->
          asyncHandler (Auth.PATCH_user_userId_currency req) s
          = (message 400 "Currency does not exist", s))
         /\ (Prisma.INTEGER c = false ->
             asyncHandler (Auth.PATCH_user_userId_currency req) s
             = (message 500 "Internal server error", s)))
     /\ (forall usr cur,
           find (fun x => Auth.User.id x =? u) (Prisma.users s) = Some usr ->
           find (fun x => Currency.id x =? c) (Prisma.currencies s) = Some cur ->
           exists s',
             asyncHandler (Auth.PATCH_user_userId_currency req) s
             = (json 200
                  (VObj [("id", VNum (Int (Auth.User.id usr)));
                         ("name", VStr (Auth.User.name usr));
                         ("email", VStr (Auth.User.email usr));
                         ("defaultCurrencyId", VNum (Int c));
                         ("defaultCurrency", Currency.toJSON cur)]), s')
             /\ find (fun x => Auth.User.id x =? u) (Prisma.users s')
                = Some {| Auth.User.id := Auth.User.id usr;
                          Auth.User.name := Auth.User.name usr;
                          Auth.User.email := Auth.User.email usr;
                          Auth.User.passwordHash := Auth.User.passwordHash usr;
                          Auth.User.defaultCurrencyId := Some c |}
             /\ Prisma.currencies s' = Prisma.currencies s
             /\ Prisma.records s' = Prisma.records s)).
Proof.
  split; intro s.
  - apply baseline_patch_currency.
  - apply auth_patch_currency.
Qed.

Lemma patch_default_currency_witness :
  let patch_b := fun u c =>
    asyncHandler (Baseline.PATCH_user_userId_currency (platform := Demo.platform)
                    (Demo.request [("userId", u)] [] [("currencyId", VNum (Int c))] []))
      Demo.baseline_store in
  let patch_a := fun u c =>
    asyncHandler (Auth.PATCH_user_userId_currency (platform := Demo.platform)
                    (Demo.request [("userId", u)] [] [("currencyId", VStr c)] []))
      Demo.auth_store in
  (patch_b "9" 1 = (message 404 "User not found", Demo.baseline_store)
   /\ patch_b "2147483648" 1
      = (message 500 "Internal server error", Demo.baseline_store)
   /\ patch_b "2" 7 = (message 404 "Currency not found", Demo.baseline_store)
   /\ exists s', patch_b "2" 1
                 = (json 200 (VObj [("id", VNum (Int 2)); ("name", VStr "Bob");
                                    ("defaultCurrencyId", VNum (Int 1));
                                    ("defaultCurrency", Currency.toJSON Demo.uah)]),
                    s'))
  /\
  (patch_a "9" "1" = (message 404 "User not found", Demo.auth_store)
   /\ patch_a "2" "7" = (message 400 "Currency does not exist", Demo.auth_store)
   /\ patch_a "2" "2147483648"
      = (message 500 "Internal server error", Demo.auth_store)
   /\ exists s', patch_a "2" "1"
                 = (json 200 (VObj [("id", VNum (Int 2)); ("name", VStr "Bob");
                                    ("email", VStr "bob@example.com");
                                    ("defaultCurrencyId", VNum (Int 1));
                                    ("defaultCurrency", Currency.toJSON Demo.uah)]),
                    s')).
Proof.
  cbv zeta.
  assert (B : forall (us : string) (u : Z) (c : Z),
            Number_ (platform := Demo.platform) (VStr us) = Int u -> _)
    by (intros us u c Hn;
        exact (proj1 (patch_default_currency (platform := Demo.platform)
                        (Demo.request [("userId", us)] []
                           [("currencyId", VNum (Int c))] []) u c)
                 Demo.baseline_store Hn eq_refl)).
  assert (A : forall (us cs : string) (u c : Z),
            Number_ (platform := Demo.platform) (VStr us) = Int u ->
            Number_ (platform := Demo.platform) (VStr cs) = Int c -> _)
    by (intros us cs u c Hn Hc;
        exact (proj2 (patch_default_currency (platform := Demo.platform)
                        (Demo.request [("userId", us)] []
                           [("currencyId", VStr cs)] []) u c)
                 Demo.auth_store Hn Hc)).
  split; (split; [|split; [|split]]).
  - apply (proj1 (B "9" 9 1 eq_refl)); reflexivity.
  - apply (proj1 (B "2147483648" 2147483648 1 eq_refl)); reflexivity.
  - apply (proj1 (proj2 (B "2" 2 7 eq_refl))); reflexivity.
  - destruct (B "2" 2 1 eq_refl) as [_ [_ Hok]].
    destruct (Hok Demo.baseline_bob Demo.uah eq_refl eq_refl) as [s' [Hrun _]].
    exists s'. exact Hrun.
  - apply (proj1 (A "9" "1" 9 1 eq_refl eq_refl)); reflexivity.
  - apply (proj1 (proj2 (A "2" "7" 2 7 eq_refl eq_refl))); reflexivity.
  - apply (proj1 (proj2 (A "2" "2147483648" 2 2147483648 eq_refl eq_refl)));
      reflexivity.
  - destruct (A "2" "1" 2 1 eq_refl eq_refl) as [_ [_ Hok]].
    destruct (Hok Demo.auth_bob Demo.uah eq_refl eq_refl) as [s' [Hrun _]].
    exists s'. exact Hrun.
Defined.

(** ** POST /category *)

(** C9 fails on all three routers.  A name that is not empty but made of
    white space passes the [!name] test and is stored trimmed: POST
    /category is answered 201 and the category is stored under the empty
    name. *)
Theorem post_category_stores_blank_name {platform : Platform} (req : Request)
    (name : string) :
  get "name" (body req) = VStr name ->
  name <> EmptyString ->
  trim name = EmptyString ->
  (forall st : InMemory.State,
     InMemory.POST_category req st
     = (json 201 (VObj [("id", VNum (Int (InMemory.nextCategoryId st)));
                        ("name", VStr EmptyString)]),
        {| InMemory.users := InMemory.users st;
           InMemory.categories :=
             InMemory.categories st
             ++ [{| InMemory.Category_id := InMemory.nextCategoryId st;
                    InMemory.Category_name := EmptyString |}];
           InMemory.records := InMemory.records st;
           InMemory.nextUserId := InMemory.nextUserId st;
           InMemory.nextCategoryId := InMemory.nextCategoryId st + 1;
           InMemory.nextRecordId := InMemory.nextRecordId st |}))
  /\ (forall s : Baseline.Store,
        asyncHandler (Baseline.POST_category req) s
        = (json 201 (VObj [("id", VNum (Int (Prisma.Category_id_seq s)));
                           ("name", VStr EmptyString)]),
           Prisma.set_categories
             (fun l => l ++ [{| Category.id := Prisma.Category_id_seq s;
                                Category.name := EmptyString |}])
             (Prisma.next_Category_id s)))
  /\ (forall s : Auth.Store,
        asyncHandler (Auth.POST_category req) s
        = (json 201 (VObj [("id", VNum (Int (Prisma.Category_id_seq s)));
                           ("name", VStr EmptyString)]),
           Prisma.set_categories
             (fun l => l ++ [{| Category.id := Prisma.Category_id_seq s;
                                Category.name := EmptyString |}])
             (Prisma.next_Category_id s))).
Proof.
  intros Hn Hne Hblank. repeat split; intros st.
  - unfold InMemory.POST_category. rewrite Hn. cbn [truthy typeof jstype_eqb text].
    rewrite (eqb_empty Hne), Hblank. reflexivity.
  - unfold Baseline.POST_category. rewrite Hn. cbn [truthy typeof jstype_eqb text].
    rewrite (eqb_empty Hne), Hblank. reflexivity.
  - unfold Auth.POST_category. rewrite Hn. cbn [truthy typeof jstype_eqb text].
    rewrite (eqb_empty Hne), Hblank. reflexivity.
Qed.

Lemma post_category_stores_blank_name_witness :
  let req := Demo.request [] [] [("name", VStr " ")] [] in
  let inmemory :=
    InMemory.POST_category (platform := Demo.platform) req InMemory.initial in
  let baseline :=
    asyncHandler (Baseline.POST_category (platform := Demo.platform) req)
      Demo.baseline_store in
  (status (fst inmemory) = 201
   /\ map InMemory.Category_name (InMemory.categories (snd inmemory))
      = [EmptyString])
  /\ (status (fst baseline) = 201
      /\ map Category.name (Prisma.categories (snd baseline))
         = ["Food"; EmptyString]).
Proof.
  cbv zeta.
  destruct (@post_category_stores_blank_name Demo.platform
              (Demo.request [] [] [("name", VStr " ")] []) " "
              eq_refl ltac:(discriminate) eq_refl) as [Hmem [Hbase _]].
  rewrite (Hmem InMemory.initial), (Hbase Demo.baseline_store).
  repeat split.
Defined.

(** ** Where [passwordHash] shows *)

Section PasswordHash.
Context {platform : Platform}.

Lemma select_user_hides_hash (s : Auth.Store) (u : Auth.User.t) :
  mentions "passwordHash" (Auth.select_user s u) = false.
Proof. destruct u as [i n e h [d|]]; reflexivity. Qed.

Lemma select_user_defaultCurrency_hides_hash (s : Auth.Store) (u : Auth.User.t) :
  mentions "passwordHash" (Auth.select_user_defaultCurrency s u) = false.
Proof.
  unfold Auth.select_user_defaultCurrency, Prisma.defaultCurrency.
  destruct (Prisma.the_currency s (user_defaultCurrencyId u)) as [cur|];
    destruct u as [i n e h [d|]]; reflexivity.
Qed.

Lemma select_users_hide_hash (s : Auth.Store) (l : list Auth.User.t) :
  existsb (mentions "passwordHash")
    (map (Auth.select_user_defaultCurrency s) l) = false.
Proof.
  induction l as [|u l IH]; [reflexivity|].
  cbn [map existsb]. rewrite select_user_defaultCurrency_hides_hash. exact IH.
Qed.

Lemma middleware_hides_hash (w : World) (req : Request) (res : Response) :
  Auth.authMiddleware w req = Auth.Respond res ->
  mentions "passwordHash" (payload res) = false.
Proof.
  unfold Auth.authMiddleware.
  destruct (header "Authorization" req) as [h|]; [|intros [= <-]; reflexivity].
  destruct (String.eqb h ""); [intros [= <-]; reflexivity|].
  destruct (nth_error (split " " h) 1) as [token|]; [|intros [= <-]; reflexivity].
  destruct (negb (String.eqb (hd EmptyString (split " " h)) "Bearer")
            || String.eqb token ""); [intros [= <-]; reflexivity|].
  destruct (jwt_verify token JWT_SECRET (now w)) as [uid|name]; [discriminate|].
  destruct (String.eqb name "TokenExpiredError"); intros [= <-]; reflexivity.
Qed.

(** The five user routes answer without [passwordHash], whatever the
    request and the store. *)
Lemma user_routes_hide_hash (r : Auth.Route) (w : World) (req : Request)
    (s : Auth.Store) :
  In r [Auth.post_user; Auth.post_auth_login; Auth.get_user; Auth.get_users;
        Auth.patch_user_currency] ->
  mentions "passwordHash" (payload (fst (Auth.router r w req s))) = false.
Proof.
  intros Hr.
  assert (Hhandler : forall req', mentions "passwordHash"
            (payload (fst (asyncHandler (Auth.handler r w req') s))) = false).
  { intros req'.
    destruct Hr as [<- | [<- | [<- | [<- | [<- | []]]]]]; cbn [Auth.handler].
    - unfold Auth.POST_user.
      repeat match goal with
             | |- context [if ?b then _ else _] => destruct b; [reflexivity|]
             end.
      run. unfold Auth.user_findUnique_email, Prisma.shaped, Auth.user_create_data.
      destruct (find _ (Prisma.users s)); [reflexivity|].
      destruct (existsb _ (Prisma.users s)); [reflexivity|].
      cbn. reflexivity.
    - unfold Auth.POST_auth_login.
      destruct (_ || _); [reflexivity|].
      run. unfold Auth.user_findUnique_email.
      destruct (find _ (Prisma.users s)) as [usr|]; [|reflexivity].
      destruct (negb _); [reflexivity|].
      destruct usr as [i n e h [d|]]; reflexivity.
    - unfold Auth.GET_user_userId.
      destruct (Number_ _); [reflexivity|].
      run. unfold Prisma.shaped_option, Prisma.user_findUnique,
        Prisma.not_found.
      destruct (find _ (Prisma.users s)) as [usr|];
        [|destruct (Prisma.INTEGER _); reflexivity].
      cbn. apply select_user_defaultCurrency_hides_hash.
    - unfold Auth.GET_users. run.
      unfold Prisma.shaped_list, Prisma.user_findMany. cbn.
      apply select_users_hide_hash.
    - unfold Auth.PATCH_user_userId_currency.
      destruct (Number_ (param _ _)); [reflexivity|].
      destruct (Number_ (get _ _)); [reflexivity|].
      run. unfold Prisma.user_findUnique, Prisma.currency_findUnique,
        Prisma.shaped, Prisma.user_update_defaultCurrencyId, Prisma.not_found.
      change (@user_id Auth.User.t _) with Auth.User.id.
      destruct (find _ (Prisma.users s)) as [usr|] eqn:Hu;
        [|destruct (Prisma.INTEGER _); reflexivity].
      cbn. destruct (find _ (Prisma.currencies s)) as [cur|];
        [|destruct (Prisma.INTEGER _); reflexivity].
      cbn. rewrite Hu. destruct (Prisma.has_currency _ s); [|reflexivity].
      cbn. destruct (find _ (Prisma.currencies s)); reflexivity. }
  unfold Auth.router. destruct (Auth.public r); [apply Hhandler|].
  destruct (Auth.authMiddleware w req) as [res|req'] eqn:Hmw; [|apply Hhandler].
  exact (middleware_hides_hash w req Hmw).
Qed.

(** A record is read with [include: { user: true }], and the joined user
    comes with every column. *)
Lemma get_record_by_id_shows_hash (req : Request) (s : Auth.Store) (id : Z)
    (r : ExpenseRecord.t) (usr : Auth.User.t) :
  Number_ (param "recordId" req) = Int id ->
  find (fun x => ExpenseRecord.id x =? id) (Prisma.records s) = Some r ->
  find (fun x => Auth.User.id x =? ExpenseRecord.userId r) (Prisma.users s)
  = Some usr ->
  status (fst (asyncHandler (Auth.GET_record_recordId req) s)) = 200
  /\ mentions "passwordHash"
       (payload (fst (asyncHandler (Auth.GET_record_recordId req) s))) = true.
Proof.
  intros Hid Hr Hu. unfold Auth.GET_record_recordId. rewrite Hid.
  run. unfold Prisma.shaped_option, Prisma.record_findUnique. rewrite Hr.
  cbn. change (@user_id Auth.User.t _) with Auth.User.id. rewrite Hu.
  split; reflexivity.
Qed.

(** So is every record of a listing. *)
Lemma get_record_shows_hash (req : Request) (s : Auth.Store)
    (r : ExpenseRecord.t) (usr : Auth.User.t) :
  get "userId" (query req) = VUndefined ->
  get "categoryId" (query req) = VUndefined ->
  In r (Prisma.records s) ->
  find (fun x => Auth.User.id x =? ExpenseRecord.userId r) (Prisma.users s)
  = Some usr ->
  status (fst (asyncHandler (Auth.GET_record req) s)) = 200
  /\ mentions "passwordHash"
       (payload (fst (asyncHandler (Auth.GET_record req) s))) = true.
Proof.
  intros Hu Hc Hin Husr.
  rewrite (proj1 (auth_get_record req s) Hu Hc). split; [reflexivity|].
  cbn [fst payload json mentions]. apply existsb_exists.
  exists (Prisma.include_user_category_currency s r). split.
  - apply in_map, Hin.
  - unfold Prisma.include_user_category_currency.
    change (@user_id Auth.User.t _) with Auth.User.id. rewrite Husr.
    cbn. reflexivity.
Qed.

End PasswordHash.

(** C10 fails on the record routes of the authenticated router.  With a
    verified token, GET /record/:recordId for a record that exists is
    answered 200 with the record and its user, and that user object
    carries [passwordHash]. *)
Theorem record_route_shows_passwordHash {platform : Platform} (w : World)
    (req : Request) (uid : value) (s : Auth.Store) (id : Z)
    (r : ExpenseRecord.t) (usr : Auth.User.t) :
  Auth.authMiddleware w req = Auth.Next (with_userId req uid) ->
  Number_ (param "recordId" req) = Int id ->
  find (fun x => ExpenseRecord.id x =? id) (Prisma.records s) = Some r ->
  find (fun x => Auth.User.id x =? ExpenseRecord.userId r) (Prisma.users s)
  = Some usr ->
  status (fst (Auth.router Auth.get_record_by_id w req s)) = 200
  /\ mentions "passwordHash"
       (payload (fst (Auth.router Auth.get_record_by_id w req s))) = true.
Proof.
  intros Hmw Hid Hr Hu.
  rewrite (router_next w req Hmw Auth.get_record_by_id s eq_refl).
  apply (get_record_by_id_shows_hash (with_userId req uid) s Hid Hr Hu).
Qed.

Lemma record_route_shows_passwordHash_witness :
  let one := Auth.router (platform := Demo.platform) Auth.get_record_by_id
               Demo.world
               (Demo.request [("recordId", "1")] [] [] (Demo.bearer "fresh"))
               Demo.auth_store in
  status (fst one) = 200
  /\ mentions "passwordHash" (payload (fst one)) = true
  /\ get "user" (match payload (fst one) with VObj o => o | _ => [] end)
     = VObj [("id", VNum (Int 1)); ("name", VStr "Alice");
             ("email", VStr "alice@example.com");
             ("passwordHash", VStr "NaCl$secret1");
             ("defaultCurrencyId", VNum (Int 1))].
Proof.
  cbv zeta.
  destruct (@record_route_shows_passwordHash Demo.platform Demo.world
              (Demo.request [("recordId", "1")] [] [] (Demo.bearer "fresh"))
              (VNum (Int 1)) Demo.auth_store 1 Demo.lunch Demo.auth_alice
              eq_refl eq_refl eq_refl eq_refl) as [Hstatus Hhash].
  split; [exact Hstatus|]. split; [exact Hhash|]. reflexivity.
Defined.

(** * Further properties of the routers *)

(** ** Lists once more *)

Lemma filter_keeps_length {A} (f : A -> bool) (l : list A) :
  (List.length (filter (fun x => negb (f x)) l) =? List.length l)%nat
  = negb (existsb f l).
Proof.
  induction l as [|a l IH]; [reflexivity|]. simpl.
  destruct (f a); simpl.
  - apply Nat.eqb_neq.
    pose proof (filter_length_le (fun x => negb (f x)) l). lia.
  - exact IH.
Qed.

Lemma filter_nothing_out {A} (f : A -> bool) (l : list A) :
  existsb f l = false -> filter (fun x => negb (f x)) l = l.
Proof.
  induction l as [|a l IH]; [reflexivity|]. simpl.
  destruct (f a); [discriminate|]. simpl. intros Hl. now rewrite IH.
Qed.

Lemma NoDup_map_filter {A B} (key : A -> B) (f : A -> bool) (l : list A) :
  NoDup (map key l) -> NoDup (map key (filter f l)).
Proof.
  induction l as [|a l IH]; simpl; [auto|].
  intros Hnd. inversion Hnd as [|? ? Hnotin Hrest]; subst.
  destruct (f a); simpl; [|auto].
  constructor; [|auto].
  intros Hin. apply Hnotin. apply in_map_iff in Hin as [x [Hx Hinx]].
  apply filter_In in Hinx as [Hinx _]. apply in_map_iff. eauto.
Qed.



Lemma Forall_filter {A} (P : A -> Prop) (f : A -> bool) (l : list A) :
  Forall P l -> Forall P (filter f l).
Proof.
  rewrite !Forall_forall. intros Hl x Hin. apply filter_In in Hin as [Hin _]. auto.
Qed.

Lemma find_snoc_fresh {A} (key : A -> Z) (l : list A) (x : A) (k : Z) :
  Forall (fun a => key a < k) l -> key x = k ->
  find (fun a => key a =? k) (l ++ [x]) = Some x.
Proof.
  intros Hlt Hx. induction l as [|a l IH]; simpl.
  - now rewrite Hx, Z.eqb_refl.
  - inversion Hlt as [|? ? Ha Hl]; subst.
    replace (key a =? key x) with false by (symmetry; apply Z.eqb_neq; lia).
    auto.
Qed.

Lemma filter_twice {A} (f g : A -> bool) (l : list A) :
  filter g (filter f l) = filter (fun x => f x && g x) l.
Proof.
  induction l as [|a l IH]; [reflexivity|]. simpl.
  destruct (f a); simpl; [|exact IH].
  destruct (g a); [now rewrite IH|exact IH].
Qed.

(** ** The in-memory router keeps its state consistent *)

Section InMemoryInvariants.
Context {platform : Platform}.

Lemma inmemory_route_keeps_references (r : InMemory.Route) (w : World)
    (req : Request) (st : InMemory.State) :
  references_exist st -> references_exist (snd (InMemory.router r w req st)).
Proof.
  unfold references_exist. intros Href.
  destruct r; cbn [InMemory.router].
  - exact Href.
  - unfold InMemory.GET_user_userId.
    destruct (Number_ _); [exact Href|]. destruct (find _ _); exact Href.
  - unfold InMemory.DELETE_user_userId.
    destruct (Number_ _) as [|u]; [exact Href|].
    rewrite (filter_keeps_length (fun x => InMemory.User_id x =? u)).
    destruct (existsb _ (InMemory.users st)) eqn:Hex; cbn.
    + rewrite Forall_forall in *. intros r Hin.
      apply filter_In in Hin as [Hin Hne]. destruct (Href r Hin) as [Hu Hc].
      split; [|exact Hc].
      rewrite (existsb_filter_other InMemory.User_id); [exact Hu|].
      apply negb_true_iff, Z.eqb_neq in Hne. exact Hne.
    + rewrite (filter_nothing_out _ _ Hex). exact Href.
  - unfold InMemory.POST_user. destruct (_ || _); [exact Href|]. cbn.
    eapply Forall_impl; [|exact Href]. cbn. intros r [Hu Hc].
    split; [|exact Hc]. rewrite existsb_app, Hu. reflexivity.
  - exact Href.
  - exact Href.
  - unfold InMemory.POST_category. destruct (_ || _); [exact Href|]. cbn.
    eapply Forall_impl; [|exact Href]. cbn. intros r [Hu Hc].
    split; [exact Hu|]. rewrite existsb_app, Hc. reflexivity.
  - unfold InMemory.DELETE_category.
    destruct (negb _); [exact Href|].
    destruct (Number_ _) as [|c]; [exact Href|].
    rewrite (filter_keeps_length (fun x => InMemory.Category_id x =? c)).
    destruct (existsb _ (InMemory.categories st)) eqn:Hex; cbn.
    + rewrite Forall_forall in *. intros r Hin.
      apply filter_In in Hin as [Hin Hne]. destruct (Href r Hin) as [Hu Hc].
      split; [exact Hu|].
      rewrite (existsb_filter_other InMemory.Category_id); [exact Hc|].
      apply negb_true_iff, Z.eqb_neq in Hne. exact Hne.
    + rewrite (filter_nothing_out _ _ Hex). exact Href.
  - unfold InMemory.GET_record_recordId.
    destruct (Number_ _); [exact Href|]. destruct (find _ _); exact Href.
  - unfold InMemory.DELETE_record_recordId.
    destruct (Number_ _) as [|k]; [exact Href|]. cbv zeta.
    destruct (_ =? _)%nat; cbn; apply Forall_filter, Href.
  - unfold InMemory.POST_record.
    destruct (_ || _); [exact Href|].
    destruct (number_of _) as [|u]; [exact Href|].
    destruct (find _ (InMemory.users st)) as [usr|] eqn:Hu; [|exact Href].
    destruct (number_of _) as [|c]; [exact Href|].
    destruct (find _ (InMemory.categories st)) as [cat|] eqn:Hc; [|exact Href].
    cbn. apply Forall_app. split; [exact Href|].
    repeat constructor; cbn; eapply find_existsb; eassumption.
  - unfold InMemory.GET_record.
    repeat match goal with
           | |- context [if ?b then _ else _] => destruct b
           | |- context [match Number_ ?v with _ => _ end] => destruct (Number_ v)
           end; exact Href.
Qed.


End InMemoryInvariants.

Lemma initial_ids_fresh : fresh_ids InMemory.initial.
Proof. repeat split; constructor. Qed.

(** X1.  In every state the in-memory router reaches from its initial
    state, each record names a user and a category that are stored: no
    sequence of requests leaves a dangling record. *)
Theorem inmemory_records_never_dangle {platform : Platform}
    (reqs : list (InMemory.Route * World * Request)) :
  references_exist (InMemory.serve reqs InMemory.initial).
Proof.
  assert (Hgen : forall st, references_exist st ->
                            references_exist (InMemory.serve reqs st)).
  { induction reqs as [|[[r w] req] rest IH]; intros st Hst; [exact Hst|].
    cbn [InMemory.serve]. apply IH, inmemory_route_keeps_references, Hst. }
  apply Hgen. constructor.
Qed.


(** ** The in-memory router, route by route *)

(** X3.  In-memory router, in a state whose user ids are below the
    counter: an accepted POST /user is answered 201 with the new user, and
    GET /user/<id> for the id it was given is then answered 200 with the
    same object. *)
Theorem inmemory_created_user_is_found {platform : Platform}
    (st : InMemory.State) (post lookup : Request) (name : string) :
  fresh_ids st ->
  get "name" (body post) = VStr name -> name <> EmptyString ->
  Number_ (param "userId" lookup) = Int (InMemory.nextUserId st) ->
  fst (InMemory.POST_user post st)
  = json 201 (VObj [("id", VNum (Int (InMemory.nextUserId st)));
                    ("name", VStr (trim name))])
  /\ InMemory.GET_user_userId lookup (snd (InMemory.POST_user post st))
     = (json 200 (payload (fst (InMemory.POST_user post st))),
        snd (InMemory.POST_user post st)).
Proof.
  intros (Hu & _) Hn Hne Hid.
  unfold InMemory.POST_user. rewrite Hn.
  cbn [truthy typeof jstype_eqb text]. rewrite (eqb_empty Hne). cbn.
  split; [reflexivity|].
  unfold InMemory.GET_user_userId. rewrite Hid. cbn.
  rewrite (@find_snoc_fresh _ InMemory.User_id _
             {| InMemory.User_id := InMemory.nextUserId st;
                InMemory.User_name := trim name |} _ Hu eq_refl).
  reflexivity.
Qed.

Lemma inmemory_created_user_is_found_witness :
  InMemory.GET_user_userId (platform := Demo.platform)
    (Demo.request [("userId", "1")] [] [] [])
    (snd (InMemory.POST_user (platform := Demo.platform)
            (Demo.request [] [] [("name", VStr " Alice ")] [])
            InMemory.initial))
  = (json 200 (VObj [("id", VNum (Int 1)); ("name", VStr "Alice")]),
     snd (InMemory.POST_user (platform := Demo.platform)
            (Demo.request [] [] [("name", VStr " Alice ")] [])
            InMemory.initial)).
Proof.
  destruct (@inmemory_created_user_is_found Demo.platform InMemory.initial
              (Demo.request [] [] [("name", VStr " Alice ")] [])
              (Demo.request [("userId", "1")] [] [] []) " Alice "
              initial_ids_fresh
              eq_refl ltac:(discriminate) eq_refl) as [_ Hget].
  exact Hget.
Defined.

Lemma inmemory_state_eta (st : InMemory.State) :
  {| InMemory.users := InMemory.users st;
     InMemory.categories := InMemory.categories st;
     InMemory.records := InMemory.records st;
     InMemory.nextUserId := InMemory.nextUserId st;
     InMemory.nextCategoryId := InMemory.nextCategoryId st;
     InMemory.nextRecordId := InMemory.nextRecordId st |} = st.
Proof. destruct st; reflexivity. Qed.

(** X4.  In-memory DELETE /user/<id>: for an id no user has the answer is
    404 and the state is unchanged; for a stored user the answer is 204,
    the user and exactly the records of that user are removed, categories
    stay, and GET /record?user_id=<id> is then answered 200 with the
    empty list. *)
Theorem inmemory_delete_user_cascades {platform : Platform}
    (st : InMemory.State) (req : Request) (u : Z) :
  Number_ (param "userId" req) = Int u ->
  (existsb (fun x => InMemory.User_id x =? u) (InMemory.users st) = false ->
   InMemory.DELETE_user_userId req st = (message 404 "User not found", st))
  /\
  (existsb (fun x => InMemory.User_id x =? u) (InMemory.users st) = true ->
   exists st',
     InMemory.DELETE_user_userId req st = (send 204, st')
     /\ InMemory.users st'
        = filter (fun x => negb (InMemory.User_id x =? u)) (InMemory.users st)
     /\ InMemory.records st'
        = filter (fun r => negb (InMemory.userId r =? u)) (InMemory.records st)
     /\ InMemory.categories st' = InMemory.categories st
     /\ existsb (fun x => InMemory.User_id x =? u) (InMemory.users st') = false
     /\ forall listing,
          truthy (get "user_id" (query listing)) = true ->
          Number_ (get "user_id" (query listing)) = Int u ->
          truthy (get "category_id" (query listing)) = false ->
          InMemory.GET_record listing st' = (json 200 (VArr []), st')).
Proof.
  intros Hid. unfold InMemory.DELETE_user_userId. rewrite Hid.
  rewrite (filter_keeps_length (fun x => InMemory.User_id x =? u)).
  split; intros Hex; rewrite Hex; cbn [negb].
  - rewrite (filter_nothing_out _ _ Hex), inmemory_state_eta. reflexivity.
  - eexists. split; [reflexivity|]. cbn.
    split; [reflexivity|]. split; [reflexivity|]. split; [reflexivity|].
    split; [apply (existsb_filter_negb (fun x => InMemory.User_id x =? u))|].
    intros listing Ht Hn Hc. unfold InMemory.GET_record.
    rewrite Ht, Hn, Hc. cbn.
    rewrite (filter_nothing (fun r => InMemory.userId r =? u)). reflexivity.
Qed.

Lemma inmemory_delete_user_cascades_witness :
  let st := InMemory.serve (platform := Demo.platform)
              [(InMemory.post_user, Demo.world,
                Demo.request [] [] [("name", VStr "Alice")] []);
               (InMemory.post_category, Demo.world,
                Demo.request [] [] [("name", VStr "Food")] []);
               (InMemory.post_record, Demo.world,
                Demo.request [] [] (Demo.expense 1 1 50 VUndefined) [])]
              InMemory.initial in
  List.length (InMemory.records st) = 1%nat
  /\ InMemory.DELETE_user_userId (platform := Demo.platform)
       (Demo.request [("userId", "7")] [] [] []) st
     = (message 404 "User not found", st)
  /\ exists st',
       InMemory.DELETE_user_userId (platform := Demo.platform)
         (Demo.request [("userId", "1")] [] [] []) st = (send 204, st')
       /\ InMemory.records st' = [].
Proof.
  cbv zeta. split; [reflexivity|]. split.
  - apply (proj1 (@inmemory_delete_user_cascades Demo.platform _
                    (Demo.request [("userId", "7")] [] [] []) 7 eq_refl)).
    reflexivity.
  - destruct (proj2 (@inmemory_delete_user_cascades Demo.platform
                       (InMemory.serve (platform := Demo.platform)
                          [(InMemory.post_user, Demo.world,
                            Demo.request [] [] [("name", VStr "Alice")] []);
                           (InMemory.post_category, Demo.world,
                            Demo.request [] [] [("name", VStr "Food")] []);
                           (InMemory.post_record, Demo.world,
                            Demo.request [] [] (Demo.expense 1 1 50 VUndefined) [])]
                          InMemory.initial)
                       (Demo.request [("userId", "1")] [] [] []) 1 eq_refl)
                eq_refl) as [st' [Hrun [_ [Hrec _]]]].
    exists st'. split; [exact Hrun|]. rewrite Hrec. reflexivity.
Defined.

(** X5.  In-memory DELETE /category?id=<id>: for an id no category has the
    answer is 404 and the state is unchanged; for a stored category the
    answer is 204, the category and exactly the records in it are removed,
    users stay, and GET /record?category_id=<id> is then answered 200 with
    the empty list. *)
Theorem inmemory_delete_category_cascades {platform : Platform}
    (st : InMemory.State) (req : Request) (c : Z) :
  truthy (get "id" (query req)) = true ->
  Number_ (get "id" (query req)) = Int c ->
  (existsb (fun x => InMemory.Category_id x =? c) (InMemory.categories st) = false ->
   InMemory.DELETE_category req st = (message 404 "Category not found", st))
  /\
  (existsb (fun x => InMemory.Category_id x =? c) (InMemory.categories st) = true ->
   exists st',
     InMemory.DELETE_category req st = (send 204, st')
     /\ InMemory.categories st'
        = filter (fun x => negb (InMemory.Category_id x =? c))
            (InMemory.categories st)
     /\ InMemory.records st'
        = filter (fun r => negb (InMemory.categoryId r =? c)) (InMemory.records st)
     /\ InMemory.users st' = InMemory.users st
     /\ existsb (fun x => InMemory.Category_id x =? c) (InMemory.categories st')
        = false
     /\ forall listing,
          truthy (get "user_id" (query listing)) = false ->
          truthy (get "category_id" (query listing)) = true ->
          Number_ (get "category_id" (query listing)) = Int c ->
          InMemory.GET_record listing st' = (json 200 (VArr []), st')).
Proof.
  intros Ht Hid. unfold InMemory.DELETE_category. rewrite Ht, Hid. cbn [negb].
  rewrite (filter_keeps_length (fun x => InMemory.Category_id x =? c)).
  split; intros Hex; rewrite Hex; cbn [negb].
  - rewrite (filter_nothing_out _ _ Hex), inmemory_state_eta. reflexivity.
  - eexists. split; [reflexivity|]. cbn.
    split; [reflexivity|]. split; [reflexivity|]. split; [reflexivity|].
    split; [apply (existsb_filter_negb (fun x => InMemory.Category_id x =? c))|].
    intros listing Hu Hc Hn. unfold InMemory.GET_record.
    rewrite Hu, Hc, Hn. cbn.
    rewrite (filter_nothing (fun r => InMemory.categoryId r =? c)). reflexivity.
Qed.

Lemma inmemory_delete_category_cascades_witness :
  let st := InMemory.serve (platform := Demo.platform)
              [(InMemory.post_user, Demo.world,
                Demo.request [] [] [("name", VStr "Alice")] []);
               (InMemory.post_category, Demo.world,
                Demo.request [] [] [("name", VStr "Food")] []);
               (InMemory.post_record, Demo.world,
                Demo.request [] [] (Demo.expense 1 1 50 VUndefined) [])]
              InMemory.initial in
  InMemory.DELETE_category (platform := Demo.platform)
    (Demo.request [] [("id", VStr "7")] [] []) st
  = (message 404 "Category not found", st)
  /\ exists st',
       InMemory.DELETE_category (platform := Demo.platform)
         (Demo.request [] [("id", VStr "1")] [] []) st = (send 204, st')
       /\ InMemory.records st' = [] /\ InMemory.categories st' = [].
Proof.
  cbv zeta. split.
  - apply (proj1 (@inmemory_delete_category_cascades Demo.platform _
                    (Demo.request [] [("id", VStr "7")] [] []) 7 eq_refl eq_refl)).
    reflexivity.
  - destruct (proj2 (@inmemory_delete_category_cascades Demo.platform
                       (InMemory.serve (platform := Demo.platform)
                          [(InMemory.post_user, Demo.world,
                            Demo.request [] [] [("name", VStr "Alice")] []);
                           (InMemory.post_category, Demo.world,
                            Demo.request [] [] [("name", VStr "Food")] []);
                           (InMemory.post_record, Demo.world,
                            Demo.request [] [] (Demo.expense 1 1 50 VUndefined) [])]
                          InMemory.initial)
                       (Demo.request [] [("id", VStr "1")] [] []) 1 eq_refl eq_refl)
                eq_refl) as [st' [Hrun [Hcat [Hrec _]]]].
    exists st'. split; [exact Hrun|]. rewrite Hrec, Hcat. split; reflexivity.
Defined.

(** X6.  In-memory POST /record with numeric [userId], [categoryId] and
    [amount]: an unknown user is answered 400 "User does not exist" and an
    unknown category 400 "Category does not exist", both without creating
    anything; otherwise the answer is 201, one record with the next id is
    appended, and (ids being below the counter) GET /record/<id> for that
    id is answered 200 with the same object. *)
Theorem inmemory_post_record {platform : Platform} (w : World)
    (st : InMemory.State) (req : Request) (u c : Z) (a : number) :
  get "userId" (body req) = VNum (Int u) ->
  get "categoryId" (body req) = VNum (Int c) ->
  get "amount" (body req) = VNum a ->
  (existsb (fun x => InMemory.User_id x =? u) (InMemory.users st) = false ->
   InMemory.POST_record w req st = (message 400 "User does not exist", st))
  /\
  (existsb (fun x => InMemory.User_id x =? u) (InMemory.users st) = true ->
   existsb (fun x => InMemory.Category_id x =? c) (InMemory.categories st) = false ->
   InMemory.POST_record w req st = (message 400 "Category does not exist", st))
  /\
  (existsb (fun x => InMemory.User_id x =? u) (InMemory.users st) = true ->
   existsb (fun x => InMemory.Category_id x =? c) (InMemory.categories st) = true ->
   let created :=
     {| InMemory.id := InMemory.nextRecordId st; InMemory.userId := u;
        InMemory.categoryId := c; InMemory.amount := a;
        InMemory.createdAt := toISOString (now w) |} in
   fst (InMemory.POST_record w req st)
   = json 201 (InMemory.ExpenseRecord_toJSON created)
   /\ InMemory.records (snd (InMemory.POST_record w req st))
      = InMemory.records st ++ [created]
   /\ InMemory.users (snd (InMemory.POST_record w req st)) = InMemory.users st
   /\ InMemory.categories (snd (InMemory.POST_record w req st))
      = InMemory.categories st
   /\ forall lookup,
        fresh_ids st ->
        Number_ (param "recordId" lookup) = Int (InMemory.nextRecordId st) ->
        fst (InMemory.GET_record_recordId lookup
               (snd (InMemory.POST_record w req st)))
        = json 200 (InMemory.ExpenseRecord_toJSON created)).
Proof.
  intros Hu Hc Ha. unfold InMemory.POST_record. rewrite Hu, Hc, Ha.
  cbn [typeof jstype_eqb negb orb number_of].
  split; [|split].
  - intros Hno. rewrite (existsb_false_find _ _ Hno). reflexivity.
  - intros Hyes Hno. destruct (existsb_find _ _ Hyes) as [usr ->].
    rewrite (existsb_false_find _ _ Hno). reflexivity.
  - intros Hyes Hcat. destruct (existsb_find _ _ Hyes) as [usr ->].
    destruct (existsb_find _ _ Hcat) as [cat ->]. cbn.
    repeat split.
    intros lookup (_ & _ & Hr & _) Hid.
    unfold InMemory.GET_record_recordId. rewrite Hid. cbn.
    rewrite (@find_snoc_fresh _ InMemory.id _
               {| InMemory.id := InMemory.nextRecordId st; InMemory.userId := u;
                  InMemory.categoryId := c; InMemory.amount := a;
                  InMemory.createdAt := toISOString (now w) |} _ Hr eq_refl).
    reflexivity.
Qed.

Lemma inmemory_post_record_witness :
  let st := InMemory.serve (platform := Demo.platform)
              [(InMemory.post_user, Demo.world,
                Demo.request [] [] [("name", VStr "Alice")] []);
               (InMemory.post_category, Demo.world,
                Demo.request [] [] [("name", VStr "Food")] [])]
              InMemory.initial in
  let post := fun u c =>
    InMemory.POST_record (platform := Demo.platform) Demo.world
      (Demo.request [] [] (Demo.expense u c 50 VUndefined) []) st in
  post 9 1 = (message 400 "User does not exist", st)
  /\ post 1 9 = (message 400 "Category does not exist", st)
  /\ status (fst (post 1 1)) = 201
  /\ List.length (InMemory.records (snd (post 1 1))) = 1%nat.
Proof.
  cbv zeta.
  assert (H : forall u c, _) by
    (intros u c;
     exact (@inmemory_post_record Demo.platform Demo.world
              (InMemory.serve (platform := Demo.platform)
                 [(InMemory.post_user, Demo.world,
                   Demo.request [] [] [("name", VStr "Alice")] []);
                  (InMemory.post_category, Demo.world,
                   Demo.request [] [] [("name", VStr "Food")] [])]
                 InMemory.initial)
              (Demo.request [] [] (Demo.expense u c 50 VUndefined) [])
              u c (Int 50) eq_refl eq_refl eq_refl)).
  split; [|split].
  - apply (H 9 1). reflexivity.
  - apply (H 1 9); reflexivity.
  - destruct (H 1 1) as [_ [_ Hok]].
    destruct (Hok eq_refl eq_refl) as [Hres [Hrec _]].
    rewrite Hres, Hrec. split; reflexivity.
Defined.

(** X7.  In-memory DELETE /record/<id>: for an id no record has the
    answer is 404 and the state is unchanged; for a stored record the
    answer is 204, exactly the records with that id are removed, users and
    categories stay, and GET /record/<id> is then answered 404. *)
Theorem inmemory_delete_record {platform : Platform}
    (st : InMemory.State) (req : Request) (k : Z) :
  Number_ (param "recordId" req) = Int k ->
  (existsb (fun r => InMemory.id r =? k) (InMemory.records st) = false ->
   InMemory.DELETE_record_recordId req st = (message 404 "Record not found", st))
  /\
  (existsb (fun r => InMemory.id r =? k) (InMemory.records st) = true ->
   exists st',
     InMemory.DELETE_record_recordId req st = (send 204, st')
     /\ InMemory.records st'
        = filter (fun r => negb (InMemory.id r =? k)) (InMemory.records st)
     /\ InMemory.users st' = InMemory.users st
     /\ InMemory.categories st' = InMemory.categories st
     /\ InMemory.GET_record_recordId req st'
        = (message 404 "Record not found", st')).
Proof.
  intros Hid. unfold InMemory.DELETE_record_recordId. rewrite Hid. cbv zeta.
  rewrite (filter_keeps_length (fun r => InMemory.id r =? k)).
  split; intros Hex; rewrite Hex; cbn [negb].
  - rewrite (filter_nothing_out _ _ Hex), inmemory_state_eta. reflexivity.
  - eexists. split; [reflexivity|]. cbn.
    split; [reflexivity|]. split; [reflexivity|]. split; [reflexivity|].
    unfold InMemory.GET_record_recordId. rewrite Hid. cbn.
    rewrite (existsb_false_find _ _
               (existsb_filter_negb (fun r => InMemory.id r =? k) _)).
    reflexivity.
Qed.

Lemma inmemory_delete_record_witness :
  let st := InMemory.serve (platform := Demo.platform)
              [(InMemory.post_user, Demo.world,
                Demo.request [] [] [("name", VStr "Alice")] []);
               (InMemory.post_category, Demo.world,
                Demo.request [] [] [("name", VStr "Food")] []);
               (InMemory.post_record, Demo.world,
                Demo.request [] [] (Demo.expense 1 1 50 VUndefined) [])]
              InMemory.initial in
  InMemory.DELETE_record_recordId (platform := Demo.platform)
    (Demo.request [("recordId", "5")] [] [] []) st
  = (message 404 "Record not found", st)
  /\ exists st',
       InMemory.DELETE_record_recordId (platform := Demo.platform)
         (Demo.request [("recordId", "1")] [] [] []) st = (send 204, st')
       /\ InMemory.records st' = [].
Proof.
  cbv zeta. split.
  - apply (proj1 (@inmemory_delete_record Demo.platform _
                    (Demo.request [("recordId", "5")] [] [] []) 5 eq_refl)).
    reflexivity.
  - destruct (proj2 (@inmemory_delete_record Demo.platform
                       (InMemory.serve (platform := Demo.platform)
                          [(InMemory.post_user, Demo.world,
                            Demo.request [] [] [("name", VStr "Alice")] []);
                           (InMemory.post_category, Demo.world,
                            Demo.request [] [] [("name", VStr "Food")] []);
                           (InMemory.post_record, Demo.world,
                            Demo.request [] [] (Demo.expense 1 1 50 VUndefined) [])]
                          InMemory.initial)
                       (Demo.request [("recordId", "1")] [] [] []) 1 eq_refl)
                eq_refl) as [st' [Hrun [Hrec _]]].
    exists st'. split; [exact Hrun|]. rewrite Hrec. reflexivity.
Defined.

(** X8.  In-memory GET /record: without a non-empty [user_id] or
    [category_id] the answer is 400; with [user_id] alone the list holds
    exactly the records of that user, with [category_id] alone exactly the
    records of that category, with both exactly the records that match
    both, in stored order; the state is never changed. *)
Theorem inmemory_get_record_filters {platform : Platform}
    (st : InMemory.State) (req : Request) :
  let user_id := get "user_id" (query req) in
  let category_id := get "category_id" (query req) in
  let listed := fun keep =>
    (json 200 (VArr (map InMemory.ExpenseRecord_toJSON
                       (filter keep (InMemory.records st)))), st) in
  (truthy user_id = false -> truthy category_id = false ->
   InMemory.GET_record req st
   = (message 400
        "At least one of query parameters 'user_id' or 'category_id' is required",
      st))
  /\ (forall u, truthy user_id = true -> Number_ user_id = Int u ->
                truthy category_id = false ->
                InMemory.GET_record req st
                = listed (fun r => InMemory.userId r =? u))
  /\ (forall c, truthy user_id = false -> truthy category_id = true ->
                Number_ category_id = Int c ->
                InMemory.GET_record req st
                = listed (fun r => InMemory.categoryId r =? c))
  /\ (forall u c, truthy user_id = true -> Number_ user_id = Int u ->
                  truthy category_id = true -> Number_ category_id = Int c ->
                  InMemory.GET_record req st
                  = listed (fun r => (InMemory.userId r =? u)
                                     && (InMemory.categoryId r =? c))).
Proof.
  cbv zeta. unfold InMemory.GET_record. repeat split.
  - intros Hu Hc. rewrite Hu, Hc. reflexivity.
  - intros u Hu Hn Hc. rewrite Hu, Hn, Hc. reflexivity.
  - intros c Hu Hc Hn. rewrite Hu, Hc, Hn. reflexivity.
  - intros u c Hu Hn Hc Hm. rewrite Hu, Hn, Hc, Hm. cbn.
    now rewrite filter_twice.
Qed.

Lemma inmemory_get_record_filters_witness :
  let st := InMemory.serve (platform := Demo.platform)
              [(InMemory.post_user, Demo.world,
                Demo.request [] [] [("name", VStr "Alice")] []);
               (InMemory.post_category, Demo.world,
                Demo.request [] [] [("name", VStr "Food")] []);
               (InMemory.post_record, Demo.world,
                Demo.request [] [] (Demo.expense 1 1 50 VUndefined) [])]
              InMemory.initial in
  let listing := fun q =>
    fst (InMemory.GET_record (platform := Demo.platform)
           (Demo.request [] q [] []) st) in
  status (listing []) = 400
  /\ listing [("user_id", VStr "1")]
     = json 200 (VArr (map InMemory.ExpenseRecord_toJSON (InMemory.records st)))
  /\ listing [("category_id", VStr "2")] = json 200 (VArr [])
  /\ listing [("user_id", VStr "1"); ("category_id", VStr "2")]
     = json 200 (VArr []).
Proof.
  cbv zeta.
  assert (H : forall q, _) by
    (intros q;
     exact (@inmemory_get_record_filters Demo.platform
              (InMemory.serve (platform := Demo.platform)
                 [(InMemory.post_user, Demo.world,
                   Demo.request [] [] [("name", VStr "Alice")] []);
                  (InMemory.post_category, Demo.world,
                   Demo.request [] [] [("name", VStr "Food")] []);
                  (InMemory.post_record, Demo.world,
                   Demo.request [] [] (Demo.expense 1 1 50 VUndefined) [])]
                 InMemory.initial)
              (Demo.request [] q [] []))).
  cbv zeta in H.
  split; [|split; [|split]].
  - rewrite (proj1 (H []) eq_refl eq_refl). reflexivity.
  - rewrite (proj1 (proj2 (H [("user_id", VStr "1")])) 1 eq_refl eq_refl eq_refl).
    reflexivity.
  - rewrite (proj1 (proj2 (proj2 (H [("category_id", VStr "2")])))
               2 eq_refl eq_refl eq_refl).
    reflexivity.
  - rewrite (proj2 (proj2 (proj2 (H [("user_id", VStr "1");
                                     ("category_id", VStr "2")])))
               1 2 eq_refl eq_refl eq_refl eq_refl).
    reflexivity.
Defined.

(** ** Deletions in the Prisma routers *)

Lemma where_categoryId_only {U} `{UserRow U} (c : Z) (l : list ExpenseRecord.t) :
  filter (fun r => negb (@Prisma.satisfies
            {| Prisma.where_userId := None; Prisma.where_categoryId := Some c;
               Prisma.where_currencyId := None |} r)) l
  = filter (fun r => negb (in_category c r)) l.
Proof.
  apply filter_ext. intro r. unfold Prisma.satisfies, in_category. simpl.
  now rewrite andb_true_r.
Qed.

Section PrismaDeletions.
Context {platform : Platform}.

Lemma baseline_delete_category (req : Request) (s : Baseline.Store) (c : Z) :
  truthy (get "id" (query req)) = true ->
  Number_ (get "id" (query req)) = Int c ->
  (Prisma.has_category c s = false ->
   (Prisma.INTEGER c = true ->
    asyncHandler (Baseline.DELETE_category req) s
    = (message 404 "Category not found", s))
   /\ (Prisma.INTEGER c = false ->
       asyncHandler (Baseline.DELETE_category req) s
       = (message 500 "Internal server error", s)))
  /\
  (Prisma.has_category c s = true ->
   exists s',
     asyncHandler (Baseline.DELETE_category req) s = (send 204, s')
     /\ Prisma.categories s'
        = filter (fun x => negb (Category.id x =? c)) (Prisma.categories s)
     /\ Prisma.records s'
        = filter (fun r => negb (in_category c r)) (Prisma.records s)
     /\ Prisma.users s' = Prisma.users s
     /\ Prisma.currencies s' = Prisma.currencies s
     /\ Prisma.has_category c s' = false).
Proof.
  intros Ht Hid. unfold Baseline.DELETE_category. rewrite Ht, Hid. cbn [negb].
  split; intros Hcat.
  - run. unfold Prisma.category_findUnique, Prisma.not_found.
    rewrite (existsb_false_find _ _ Hcat).
    split; intros ->; reflexivity.
  - destruct (existsb_find _ _ Hcat) as [cat Hfind].
    run. unfold Prisma.category_findUnique, Prisma.record_deleteMany,
      Prisma.category_delete.
    rewrite Hfind. cbn. rewrite Hfind.
    rewrite (where_categoryId_only (U := Baseline.User.t)).
    fold (in_category c). rewrite (existsb_filter_negb (in_category c)).
    eexists. split; [reflexivity|]. cbn.
    rewrite !(where_categoryId_only (U := Baseline.User.t)).
    repeat split.
    unfold Prisma.has_category. cbn.
    apply (existsb_filter_negb (fun x => Category.id x =? c)).
Qed.

Lemma auth_delete_category (req : Request) (s : Auth.Store) (c : Z) :
  truthy (get "id" (query req)) = true ->
  Number_ (get "id" (query req)) = Int c ->
  (Prisma.has_category c s = false ->
   (Prisma.INTEGER c = true ->
    asyncHandler (Auth.DELETE_category req) s
    = (message 404 "Category not found", s))
   /\ (Prisma.INTEGER c = false ->
       asyncHandler (Auth.DELETE_category req) s
       = (message 500 "Internal server error", s)))
  /\
  (Prisma.has_category c s = true ->
   exists s',
     asyncHandler (Auth.DELETE_category req) s = (send 204, s')
     /\ Prisma.categories s'
        = filter (fun x => negb (Category.id x =? c)) (Prisma.categories s)
     /\ Prisma.records s'
        = filter (fun r => negb (in_category c r)) (Prisma.records s)
     /\ Prisma.users s' = Prisma.users s
     /\ Prisma.currencies s' = Prisma.currencies s
     /\ Prisma.has_category c s' = false).
Proof.
  intros Ht Hid. unfold Auth.DELETE_category. rewrite Ht, Hid. cbn [negb].
  split; intros Hcat.
  - run. unfold Prisma.category_findUnique, Prisma.not_found.
    rewrite (existsb_false_find _ _ Hcat).
    split; intros ->; reflexivity.
  - destruct (existsb_find _ _ Hcat) as [cat Hfind].
    run. unfold Prisma.category_findUnique, Prisma.record_deleteMany,
      Prisma.category_delete.
    rewrite Hfind. cbn. rewrite Hfind.
    rewrite (where_categoryId_only (U := Auth.User.t)).
    fold (in_category c). rewrite (existsb_filter_negb (in_category c)).
    eexists. split; [reflexivity|]. cbn.
    rewrite !(where_categoryId_only (U := Auth.User.t)).
    repeat split.
    unfold Prisma.has_category. cbn.
    apply (existsb_filter_negb (fun x => Category.id x =? c)).
Qed.

End PrismaDeletions.

(** X9.  DELETE /category?id=<id> in both Prisma routers: for an id no
    category has, the answer is 404 when the id fits INTEGER and 500 when
    it does not, and the store is unchanged; for a stored category the
    records in it are deleted first, so the foreign key never blocks: the
    answer is 204, the category and exactly its records are gone, users
    and currencies are untouched. *)
Theorem delete_category_cascades {platform : Platform} (req : Request) (c : Z) :
  truthy (get "id" (query req)) = true ->
  Number_ (get "id" (query req)) = Int c ->
  (forall s : Baseline.Store,
     (Prisma.has_category c s = false ->
      (Prisma.INTEGER c = true ->
       asyncHandler (Baseline.DELETE_category req) s
       = (message 404 "Category not found", s))
      /\ (Prisma.INTEGER c = false ->
          asyncHandler (Baseline.DELETE_category req) s
          = (message 500 "Internal server error", s)))
     /\
     (Prisma.has_category c s = true ->
      exists s',
        asyncHandler (Baseline.DELETE_category req) s = (send 204, s')
        /\ Prisma.categories s'
           = filter (fun x => negb (Category.id x =? c)) (Prisma.categories s)
        /\ Prisma.records s'
           = filter (fun r => negb (in_category c r)) (Prisma.records s)
        /\ Prisma.users s' = Prisma.users s
        /\ Prisma.currencies s' = Prisma.currencies s
        /\ Prisma.has_category c s' = false))
  /\
  (forall s : Auth.Store,
     (Prisma.has_category c s = false ->
      (Prisma.INTEGER c = true ->
       asyncHandler (Auth.DELETE_category req) s
       = (message 404 "Category not found", s))
      /\ (Prisma.INTEGER c = false ->
          asyncHandler (Auth.DELETE_category req) s
          = (message 500 "Internal server error", s)))
     /\
     (Prisma.has_category c s = true ->
      exists s',
        asyncHandler (Auth.DELETE_category req) s = (send 204, s')
        /\ Prisma.categories s'
           = filter (fun x => negb (Category.id x =? c)) (Prisma.categories s)
        /\ Prisma.records s'
           = filter (fun r => negb (in_category c r)) (Prisma.records s)
        /\ Prisma.users s' = Prisma.users s
        /\ Prisma.currencies s' = Prisma.currencies s
        /\ Prisma.has_category c s' = false)).
Proof.
  intros Ht Hid. split; intros s.
  - apply baseline_delete_category; assumption.
  - apply auth_delete_category; assumption.
Qed.

Lemma delete_category_cascades_witness :
  (exists s',
     asyncHandler (Baseline.DELETE_category (platform := Demo.platform)
                     (Demo.request [] [("id", VStr "1")] [] []))
       Demo.baseline_store = (send 204, s')
     /\ Prisma.categories s' = [] /\ Prisma.records s' = [])
  /\ (exists s',
        asyncHandler (Auth.DELETE_category (platform := Demo.platform)
                        (Demo.request [] [("id", VStr "1")] [] []))
          Demo.auth_store = (send 204, s')
        /\ Prisma.categories s' = [] /\ Prisma.records s' = [])
  /\ asyncHandler (Auth.DELETE_category (platform := Demo.platform)
                     (Demo.request [] [("id", VStr "1")] [] []))
       Demo.auth_empty
     = (message 404 "Category not found", Demo.auth_empty).
Proof.
  destruct (@delete_category_cascades Demo.platform
              (Demo.request [] [("id", VStr "1")] [] []) 1 eq_refl eq_refl)
    as [B A].
  split; [|split].
  - destruct (proj2 (B Demo.baseline_store) eq_refl)
      as [s' [Hrun [Hc [Hr _]]]].
    exists s'. rewrite Hc, Hr. repeat split. exact Hrun.
  - destruct (proj2 (A Demo.auth_store) eq_refl) as [s' [Hrun [Hc [Hr _]]]].
    exists s'. rewrite Hc, Hr. repeat split. exact Hrun.
  - apply (proj1 (A Demo.auth_empty)); reflexivity.
Defined.

(** X10.  DELETE /user/:userId in the authenticated router: for an id no
    user has, the answer is 404 when the id fits INTEGER and 500 when it
    does not, and the store is unchanged; for a user who owns no record
    the answer is 204 and the user is gone, everything else untouched. *)
Theorem auth_delete_user_without_records {platform : Platform}
    (req : Request) (s : Auth.Store) (u : Z) :
  Number_ (param "userId" req) = Int u ->
  (Prisma.has_user u s = false ->
   (Prisma.INTEGER u = true ->
    asyncHandler (Auth.DELETE_user_userId req) s
    = (message 404 "User not found", s))
   /\ (Prisma.INTEGER u = false ->
       asyncHandler (Auth.DELETE_user_userId req) s
       = (message 500 "Internal server error", s)))
  /\
  (Prisma.has_user u s = true ->
   existsb (owned_by u) (Prisma.records s) = false ->
   exists s',
     asyncHandler (Auth.DELETE_user_userId req) s = (send 204, s')
     /\ Prisma.users s'
        = filter (fun x => negb (Auth.User.id x =? u)) (Prisma.users s)
     /\ Prisma.has_user u s' = false
     /\ Prisma.records s' = Prisma.records s
     /\ Prisma.categories s' = Prisma.categories s
     /\ Prisma.currencies s' = Prisma.currencies s).
Proof.
  intros Hid. unfold Auth.DELETE_user_userId. rewrite Hid.
  split.
  - intros Hno. run. unfold Prisma.user_findUnique, Prisma.not_found.
    rewrite (existsb_false_find _ _ Hno).
    split; intros ->; reflexivity.
  - intros Huser Hown. destruct (existsb_find _ _ Huser) as [usr Hfind].
    run. unfold Prisma.user_findUnique, Prisma.user_delete.
    rewrite Hfind. cbn. change (@user_id Auth.User.t _) with Auth.User.id in *.
    rewrite Hfind. fold (owned_by u). rewrite Hown.
    eexists. split; [reflexivity|]. cbn. repeat split.
    unfold Prisma.has_user. cbn.
    apply (existsb_filter_negb (fun x => Auth.User.id x =? u)).
Qed.

Lemma auth_delete_user_without_records_witness :
  asyncHandler (Auth.DELETE_user_userId (platform := Demo.platform)
                  (Demo.request [("userId", "9")] [] [] [])) Demo.auth_store
  = (message 404 "User not found", Demo.auth_store)
  /\ exists s',
       asyncHandler (Auth.DELETE_user_userId (platform := Demo.platform)
                       (Demo.request [("userId", "2")] [] [] [])) Demo.auth_store
       = (send 204, s')
       /\ Prisma.users s' = [Demo.auth_alice].
Proof.
  split.
  - apply (proj1 (@auth_delete_user_without_records Demo.platform
                    (Demo.request [("userId", "9")] [] [] [])
                    Demo.auth_store 9 eq_refl));
      reflexivity.
  - destruct (proj2 (@auth_delete_user_without_records Demo.platform
                       (Demo.request [("userId", "2")] [] [] [])
                       Demo.auth_store 2 eq_refl) eq_refl eq_refl)
      as [s' [Hrun [Hu _]]].
    exists s'. rewrite Hu. split; [exact Hrun|reflexivity].
Defined.

Section PrismaRecordDeletion.
Context {platform : Platform}.

Lemma baseline_delete_record (req : Request) (s : Baseline.Store) (k : Z) :
  Number_ (param "recordId" req) = Int k ->
  (existsb (fun r => ExpenseRecord.id r =? k) (Prisma.records s) = false ->
   (Prisma.INTEGER k = true ->
    asyncHandler (Baseline.DELETE_record_recordId req) s
    = (message 404 "Record not found", s))
   /\ (Prisma.INTEGER k = false ->
       asyncHandler (Baseline.DELETE_record_recordId req) s
       = (message 500 "Internal server error", s)))
  /\
  (existsb (fun r => ExpenseRecord.id r =? k) (Prisma.records s) = true ->
   exists s',
     asyncHandler (Baseline.DELETE_record_recordId req) s = (send 204, s')
     /\ Prisma.records s'
        = filter (fun r => negb (ExpenseRecord.id r =? k)) (Prisma.records s)
     /\ Prisma.users s' = Prisma.users s
     /\ Prisma.categories s' = Prisma.categories s
     /\ Prisma.currencies s' = Prisma.currencies s
     /\ (Prisma.INTEGER k = true ->
         asyncHandler (Baseline.GET_record_recordId req) s'
         = (message 404 "Record not found", s'))).
Proof.
  intros Hid. unfold Baseline.DELETE_record_recordId. rewrite Hid.
  split.
  - intros Hno. run. unfold Prisma.record_findUnique, Prisma.not_found.
    rewrite (existsb_false_find _ _ Hno).
    split; intros ->; reflexivity.
  - intros Hyes. destruct (existsb_find _ _ Hyes) as [rec Hfind].
    run. unfold Prisma.record_findUnique, Prisma.record_delete.
    rewrite Hfind. cbn. rewrite Hfind.
    eexists. split; [reflexivity|]. cbn. repeat split.
    intros Hfits. unfold Baseline.GET_record_recordId. rewrite Hid.
    run. unfold Prisma.shaped_option, Prisma.record_findUnique, Prisma.not_found.
    cbn.
    rewrite (existsb_false_find _ _
               (existsb_filter_negb (fun r => ExpenseRecord.id r =? k) _)).
    rewrite Hfits. reflexivity.
Qed.

Lemma auth_delete_record (req : Request) (s : Auth.Store) (k : Z) :
  Number_ (param "recordId" req) = Int k ->
  (existsb (fun r => ExpenseRecord.id r =? k) (Prisma.records s) = false ->
   (Prisma.INTEGER k = true ->
    asyncHandler (Auth.DELETE_record_recordId req) s
    = (message 404 "Record not found", s))
   /\ (Prisma.INTEGER k = false ->
       asyncHandler (Auth.DELETE_record_recordId req) s
       = (message 500 "Internal server error", s)))
  /\
  (existsb (fun r => ExpenseRecord.id r =? k) (Prisma.records s) = true ->
   exists s',
     asyncHandler (Auth.DELETE_record_recordId req) s = (send 204, s')
     /\ Prisma.records s'
        = filter (fun r => negb (ExpenseRecord.id r =? k)) (Prisma.records s)
     /\ Prisma.users s' = Prisma.users s
     /\ Prisma.categories s' = Prisma.categories s
     /\ Prisma.currencies s' = Prisma.currencies s
     /\ (Prisma.INTEGER k = true ->
         asyncHandler (Auth.GET_record_recordId req) s'
         = (message 404 "Record not found", s'))).
Proof.
  intros Hid. unfold Auth.DELETE_record_recordId. rewrite Hid.
  split.
  - intros Hno. run. unfold Prisma.record_findUnique, Prisma.not_found.
    rewrite (existsb_false_find _ _ Hno).
    split; intros ->; reflexivity.
  - intros Hyes. destruct (existsb_find _ _ Hyes) as [rec Hfind].
    run. unfold Prisma.record_findUnique, Prisma.record_delete.
    rewrite Hfind. cbn. rewrite Hfind.
    eexists. split; [reflexivity|]. cbn. repeat split.
    intros Hfits. unfold Auth.GET_record_recordId. rewrite Hid.
    run. unfold Prisma.shaped_option, Prisma.record_findUnique, Prisma.not_found.
    cbn.
    rewrite (existsb_false_find _ _
               (existsb_filter_negb (fun r => ExpenseRecord.id r =? k) _)).
    rewrite Hfits. reflexivity.
Qed.

End PrismaRecordDeletion.

(** X11.  DELETE /record/:recordId in both Prisma routers: for an id no
    record has, the answer is 404 when the id fits INTEGER and 500 when it
    does not, and the store is unchanged; for a stored record the answer
    is 204, that record is gone and nothing else is touched, and GET
    /record/<id> (the id fitting INTEGER) is then answered 404. *)
Theorem delete_record_removes_it {platform : Platform} (req : Request) (k : Z) :
  Number_ (param "recordId" req) = Int k ->
  (forall s : Baseline.Store,
     (existsb (fun r => ExpenseRecord.id r =? k) (Prisma.records s) = false ->
      (Prisma.INTEGER k = true ->
       asyncHandler (Baseline.DELETE_record_recordId req) s
       = (message 404 "Record not found", s))
      /\ (Prisma.INTEGER k = false ->
          asyncHandler (Baseline.DELETE_record_recordId req) s
          = (message 500 "Internal server error", s)))
     /\
     (existsb (fun r => ExpenseRecord.id r =? k) (Prisma.records s) = true ->
      exists s',
        asyncHandler (Baseline.DELETE_record_recordId req) s = (send 204, s')
        /\ Prisma.records s'
           = filter (fun r => negb (ExpenseRecord.id r =? k)) (Prisma.records s)
        /\ Prisma.users s' = Prisma.users s
        /\ Prisma.categories s' = Prisma.categories s
        /\ Prisma.currencies s' = Prisma.currencies s
        /\ (Prisma.INTEGER k = true ->
            asyncHandler (Baseline.GET_record_recordId req) s'
            = (message 404 "Record not found", s'))))
  /\
  (forall s : Auth.Store,
     (existsb (fun r => ExpenseRecord.id r =? k) (Prisma.records s) = false ->
      (Prisma.INTEGER k = true ->
       asyncHandler (Auth.DELETE_record_recordId req) s
       = (message 404 "Record not found", s))
      /\ (Prisma.INTEGER k = false ->
          asyncHandler (Auth.DELETE_record_recordId req) s
          = (message 500 "Internal server error", s)))
     /\
     (existsb (fun r => ExpenseRecord.id r =? k) (Prisma.records s) = true ->
      exists s',
        asyncHandler (Auth.DELETE_record_recordId req) s = (send 204, s')
        /\ Prisma.records s'
           = filter (fun r => negb (ExpenseRecord.id r =? k)) (Prisma.records s)
        /\ Prisma.users s' = Prisma.users s
        /\ Prisma.categories s' = Prisma.categories s
        /\ Prisma.currencies s' = Prisma.currencies s
        /\ (Prisma.INTEGER k = true ->
            asyncHandler (Auth.GET_record_recordId req) s'
            = (message 404 "Record not found", s')))).
Proof.
  intros Hid. split; intros s.
  - apply baseline_delete_record, Hid.
  - apply auth_delete_record, Hid.
Qed.

Lemma delete_record_removes_it_witness :
  (exists s',
     asyncHandler (Baseline.DELETE_record_recordId (platform := Demo.platform)
                     (Demo.request [("recordId", "1")] [] [] []))
       Demo.baseline_store = (send 204, s')
     /\ Prisma.records s' = [])
  /\ asyncHandler (Auth.DELETE_record_recordId (platform := Demo.platform)
                     (Demo.request [("recordId", "1")] [] [] []))
       Demo.auth_empty
     = (message 404 "Record not found", Demo.auth_empty).
Proof.
  destruct (@delete_record_removes_it Demo.platform
              (Demo.request [("recordId", "1")] [] [] []) 1 eq_refl) as [B A].
  split.
  - destruct (proj2 (B Demo.baseline_store) eq_refl) as [s' [Hrun [Hr _]]].
    exists s'. rewrite Hr. split; [exact Hrun|reflexivity].
  - apply (proj1 (A Demo.auth_empty)); reflexivity.
Defined.

(** ** What every route does with a bad id, and what a GET never does *)

(** X12.  In all three routers, a route that takes an id from the path
    answers 400 and leaves the state or store unchanged when that
    parameter does not convert to a number. *)
Theorem non_numeric_path_parameter_is_400 {platform : Platform}
    (w : World) (req : Request) (k : string) :
  Number_ (param k req) = NaN ->
  (forall (r : InMemory.Route) (st : InMemory.State),
     inmemory_path_param r = Some k ->
     exists res, InMemory.router r w req st = (res, st) /\ status res = 400)
  /\ (forall (r : Baseline.Route) (s : Baseline.Store),
        baseline_path_param r = Some k ->
        exists res, Baseline.router r w req s = (res, s) /\ status res = 400)
  /\ (forall (r : Auth.Route) (s : Auth.Store),
        auth_path_param r = Some k ->
        exists res, asyncHandler (Auth.handler r w req) s = (res, s)
                    /\ status res = 400).
Proof.
  intros Hnan. split; [|split]; intros r s Hk;
    destruct r; try discriminate Hk; injection Hk as <-;
    unfold Baseline.router;
    cbn [InMemory.router Baseline.handler Auth.handler];
    unfold InMemory.GET_user_userId, InMemory.DELETE_user_userId,
      InMemory.GET_record_recordId, InMemory.DELETE_record_recordId,
      Baseline.GET_user_userId, Baseline.DELETE_user_userId,
      Baseline.PATCH_user_userId_currency, Baseline.DELETE_currency_id,
      Baseline.GET_record_recordId, Baseline.DELETE_record_recordId,
      Auth.GET_user_userId, Auth.DELETE_user_userId,
      Auth.PATCH_user_userId_currency, Auth.DELETE_currency_id,
      Auth.GET_record_recordId, Auth.DELETE_record_recordId;
    rewrite Hnan; eexists; split; reflexivity.
Qed.

Lemma non_numeric_path_parameter_is_400_witness :
  let req := Demo.request [("userId", "abc")] [] [] [] in
  (exists res,
     InMemory.router (platform := Demo.platform) InMemory.delete_user Demo.world
       req InMemory.initial = (res, InMemory.initial) /\ status res = 400)
  /\ (exists res,
        Baseline.router (platform := Demo.platform) Baseline.get_user Demo.world
          req Demo.baseline_store = (res, Demo.baseline_store)
        /\ status res = 400)
  /\ (exists res,
        asyncHandler (Auth.handler (platform := Demo.platform)
                        Auth.patch_user_currency Demo.world req) Demo.auth_store
        = (res, Demo.auth_store) /\ status res = 400).
Proof.
  cbv zeta.
  destruct (@non_numeric_path_parameter_is_400 Demo.platform Demo.world
              (Demo.request [("userId", "abc")] [] [] []) "userId" eq_refl)
    as [M [B A]].
  split; [|split].
  - exact (M InMemory.delete_user InMemory.initial eq_refl).
  - exact (B Baseline.get_user Demo.baseline_store eq_refl).
  - exact (A Auth.patch_user_currency Demo.auth_store eq_refl).
Defined.

Section ReadOnly.
Context {platform : Platform}.

Lemma inmemory_get_is_read_only (r : InMemory.Route) (w : World) (req : Request)
    (st : InMemory.State) :
  inmemory_method r = GET -> snd (InMemory.router r w req st) = st.
Proof.
  intros Hget. destruct r; try discriminate Hget; cbn [InMemory.router].
  - reflexivity.
  - unfold InMemory.GET_user_userId.
    destruct (Number_ _); [reflexivity|]. destruct (find _ _); reflexivity.
  - reflexivity.
  - reflexivity.
  - unfold InMemory.GET_record_recordId.
    destruct (Number_ _); [reflexivity|]. destruct (find _ _); reflexivity.
  - unfold InMemory.GET_record.
    repeat match goal with
           | |- context [if ?b then _ else _] => destruct b
           | |- context [match Number_ ?v with _ => _ end] => destruct (Number_ v)
           end; reflexivity.
Qed.

Lemma baseline_get_is_read_only (r : Baseline.Route) (w : World) (req : Request)
    (s : Baseline.Store) :
  baseline_method r = GET -> snd (Baseline.router r w req s) = s.
Proof.
  intros Hget. unfold Baseline.router.
  destruct r; try discriminate Hget; cbn [Baseline.handler].
  - reflexivity.
  - unfold Baseline.GET_user_userId. destruct (Number_ _); [reflexivity|].
    run. unfold Prisma.shaped_option, Prisma.user_findUnique, Prisma.not_found.
    destruct (find _ _); [|destruct (Prisma.INTEGER _)]; reflexivity.
  - reflexivity.
  - reflexivity.
  - reflexivity.
  - unfold Baseline.GET_record_recordId. destruct (Number_ _); [reflexivity|].
    run. unfold Prisma.shaped_option, Prisma.record_findUnique, Prisma.not_found.
    destruct (find _ _); [|destruct (Prisma.INTEGER _)]; reflexivity.
  - unfold Baseline.GET_record. cbv zeta.
    repeat match goal with
           | |- context [if ?b then _ else _] => destruct b
           | |- context [match Number_ ?v with _ => _ end] => destruct (Number_ v)
           end; try reflexivity;
      run; unfold Prisma.shaped_list, Prisma.record_findMany;
      match goal with
      | |- context [Prisma.in_range ?w] => destruct (Prisma.in_range w)
      end; reflexivity.
Qed.

Lemma auth_get_handler_is_read_only (r : Auth.Route) (w : World) (req : Request)
    (s : Auth.Store) :
  auth_method r = GET -> snd (asyncHandler (Auth.handler r w req) s) = s.
Proof.
  intros Hget. destruct r; try discriminate Hget; cbn [Auth.handler].
  - reflexivity.
  - unfold Auth.GET_user_userId. destruct (Number_ _); [reflexivity|].
    run. unfold Prisma.shaped_option, Prisma.user_findUnique, Prisma.not_found.
    destruct (find _ _); [|destruct (Prisma.INTEGER _)]; reflexivity.
  - reflexivity.
  - reflexivity.
  - reflexivity.
  - unfold Auth.GET_record_recordId. destruct (Number_ _); [reflexivity|].
    run. unfold Prisma.shaped_option, Prisma.record_findUnique, Prisma.not_found.
    destruct (find _ _); [|destruct (Prisma.INTEGER _)]; reflexivity.
  - unfold Auth.GET_record. cbv zeta.
    repeat match goal with
           | |- context [if ?b then _ else _] => destruct b
           | |- context [match Number_ ?v with _ => _ end] => destruct (Number_ v)
           end; try reflexivity;
      run; unfold Prisma.shaped_list, Prisma.record_findMany;
      match goal with
      | |- context [Prisma.in_range ?w] => destruct (Prisma.in_range w)
      end; reflexivity.
Qed.

End ReadOnly.

(** X13.  In all three routers a route registered with [get] never
    changes the state or store, whatever the request and whatever it
    answers (in the authenticated router: whether or not the middleware
    lets the request through). *)
Theorem get_routes_are_read_only {platform : Platform} (w : World) (req : Request) :
  (forall (r : InMemory.Route) (st : InMemory.State),
     inmemory_method r = GET -> snd (InMemory.router r w req st) = st)
  /\ (forall (r : Baseline.Route) (s : Baseline.Store),
        baseline_method r = GET -> snd (Baseline.router r w req s) = s)
  /\ (forall (r : Auth.Route) (s : Auth.Store),
        auth_method r = GET -> snd (Auth.router r w req s) = s).
Proof.
  split; [|split].
  - intros r st. apply inmemory_get_is_read_only.
  - intros r s. apply baseline_get_is_read_only.
  - intros r s Hget. unfold Auth.router.
    destruct (Auth.public r); [apply auth_get_handler_is_read_only, Hget|].
    destruct (Auth.authMiddleware w req) as [res|req']; [reflexivity|].
    apply auth_get_handler_is_read_only, Hget.
Qed.

Lemma get_routes_are_read_only_witness :
  snd (InMemory.router (platform := Demo.platform) InMemory.get_users Demo.world
         (Demo.request [] [] [] []) InMemory.initial) = InMemory.initial
  /\ snd (Baseline.router (platform := Demo.platform) Baseline.get_record
            Demo.world (Demo.request [] [("user_id", VStr "1")] [] [])
            Demo.baseline_store) = Demo.baseline_store
  /\ snd (Auth.router (platform := Demo.platform) Auth.get_user Demo.world
            (Demo.request [("userId", "1")] [] [] (Demo.bearer "fresh"))
            Demo.auth_store) = Demo.auth_store.
Proof.
  split; [|split].
  - apply (proj1 (@get_routes_are_read_only Demo.platform Demo.world
                    (Demo.request [] [] [] []))). reflexivity.
  - apply (proj1 (proj2 (@get_routes_are_read_only Demo.platform Demo.world
                           (Demo.request [] [("user_id", VStr "1")] [] [])))).
    reflexivity.
  - apply (proj2 (proj2 (@get_routes_are_read_only Demo.platform Demo.world
                           (Demo.request [("userId", "1")] [] []
                              (Demo.bearer "fresh"))))).
    reflexivity.
Defined.

(** ** Signing up, logging in, and using the token *)




(** X15.  Authenticated router: when POST /auth/login succeeds for a user,
    the token in its answer, sent as [Authorization: Bearer <token>] to a
    protected route, passes the middleware with that user's id attached to
    the request, provided jsonwebtoken verifies what it signed. *)
Theorem login_token_opens_protected_routes {platform : Platform} (w w' : World)
    (login req : Request) (s : Auth.Store) (usr : Auth.User.t)
    (email password : string) :
  get "email" (body login) = VStr email -> email <> EmptyString ->
  get "password" (body login) = VStr password -> password <> EmptyString ->
  find (fun u => String.eqb (Auth.User.email u) (toLowerCase (trim email)))
    (Prisma.users s) = Some usr ->
  bcrypt_compare password (Auth.User.passwordHash usr) = true ->
  let token := jwt_sign (Auth.User.id usr) JWT_SECRET (now w) in
  token <> EmptyString -> no_space token = true ->
  jwt_verify token JWT_SECRET (now w') = Payload (VNum (Int (Auth.User.id usr))) ->
  header "Authorization" req = Some ("Bearer " ++ token)%string ->
  (exists user,
     Auth.router Auth.post_auth_login w login s
     = (json 200 (VObj [("accessToken", VStr token); ("user", user)]), s))
  /\ admits w' req (VNum (Int (Auth.User.id usr))).
Proof.
  intros He Hene Hp Hpne Hfind Hok token Htok Hns Hverify Hh. split.
  - unfold Auth.router, Auth.handler, Auth.POST_auth_login. cbn [Auth.public].
    rewrite He, Hp. cbn [truthy typeof jstype_eqb negb orb text].
    rewrite (eqb_empty Hene), (eqb_empty Hpne). cbn [negb orb].
    run. unfold Auth.user_findUnique_email. rewrite Hfind, Hok. cbn.
    eexists. reflexivity.
  - pose proof (middleware_verifies w' req Hh Htok Hns) as Hmw.
    rewrite Hverify in Hmw.
    split; [exact Hmw|]. split; [reflexivity|].
    intros r st Hr. unfold Auth.router. rewrite Hr, Hmw. reflexivity.
Qed.

Lemma login_token_opens_protected_routes_witness :
  admits (platform := Demo.platform) Demo.world
    (Demo.request [("userId", "1")] [] [] (Demo.bearer "fresh")) (VNum (Int 1)).
Proof.
  apply (@login_token_opens_protected_routes Demo.platform Demo.world Demo.world
           (Demo.request [] []
              (Demo.credentials VUndefined (VStr "alice@example.com")
                 (VStr "secret1")) [])
           (Demo.request [("userId", "1")] [] [] (Demo.bearer "fresh"))
           Demo.auth_store Demo.auth_alice "alice@example.com" "secret1");
    first [reflexivity | discriminate].
Defined.

(** ** More invariants of the Prisma routers *)

Lemma keeps_ret {S A} (P : S -> Prop) (a : A) : keeps P (ret a).
Proof. intros s Hs. exact Hs. Qed.

Lemma keeps_throw {S A} (P : S -> Prop) (e : PrismaError) :
  keeps P (throw (A := A) e).
Proof. intros s Hs. exact Hs. Qed.

Lemma keeps_bind {S A B} (P : S -> Prop) (m : M S A) (k : A -> M S B) :
  keeps P m -> (forall a, keeps P (k a)) -> keeps P (bind m k).
Proof.
  intros Hm Hk s Hs. unfold bind. specialize (Hm s Hs).
  destruct (m s) as [[a|e] s']; simpl in *; [|exact Hm].
  apply Hk, Hm.
Qed.

Lemma keeps_int {S} (P : S -> Prop) (n : number) : keeps P (int n).
Proof. destruct n; [apply keeps_throw|apply keeps_ret]. Qed.

Lemma keeps_float {platform : Platform} (P : Baseline.Store -> Prop) (n : number) :
  keeps P (Baseline.float n).
Proof. destruct n; [apply keeps_throw|apply keeps_ret]. Qed.

Lemma keeps_shaped {U} `{UserRow U} {A} (P : @Prisma.Store U -> Prop)
    (shape : @Prisma.Store U -> A -> value) (q : Prisma.Q A) :
  keeps P q -> keeps P (Prisma.shaped shape q).
Proof.
  intros Hq s Hs. unfold Prisma.shaped. specialize (Hq s Hs).
  destruct (q s) as [[a|e] s']; exact Hq.
Qed.

Lemma keeps_shaped_option {U} `{UserRow U} {A} (P : @Prisma.Store U -> Prop)
    (shape : @Prisma.Store U -> A -> value) (q : Prisma.Q (option A)) :
  keeps P q -> keeps P (Prisma.shaped_option shape q).
Proof.
  intros Hq s Hs. unfold Prisma.shaped_option. specialize (Hq s Hs).
  destruct (q s) as [[a|e] s']; exact Hq.
Qed.

Lemma keeps_shaped_list {U} `{UserRow U} {A} (P : @Prisma.Store U -> Prop)
    (shape : @Prisma.Store U -> A -> value) (q : Prisma.Q (list A)) :
  keeps P q -> keeps P (Prisma.shaped_list shape q).
Proof.
  intros Hq s Hs. unfold Prisma.shaped_list. specialize (Hq s Hs).
  destruct (q s) as [[a|e] s']; exact Hq.
Qed.

Lemma keeps_asyncHandler {S} (P : S -> Prop) (fn : M S Response) (s : S) :
  keeps P fn -> P s -> P (snd (asyncHandler fn s)).
Proof.
  intros Hfn Hs. unfold asyncHandler. specialize (Hfn s Hs).
  destruct (fn s) as [[res|e] s']; exact Hfn.
Qed.

(** A handler keeps what each of its store calls keeps: [leaf] settles the
    store calls. *)
Ltac keep leaf :=
  cbv zeta;
  repeat first
    [ apply keeps_ret | apply keeps_throw | apply keeps_int | apply keeps_float
    | apply keeps_bind; [|intros ?]
    | apply keeps_shaped | apply keeps_shaped_option | apply keeps_shaped_list
    | match goal with
      | |- keeps _ (match ?x with _ => _ end) => destruct x
      | |- keeps _ (if ?b then _ else _) => destruct b
      end
    | leaf ].

(** Opening one store call. *)
Ltac open_call :=
  unfold Prisma.user_findUnique, Prisma.user_findMany, Prisma.user_create,
    Prisma.user_update_defaultCurrencyId, Prisma.user_delete,
    Prisma.category_findUnique, Prisma.category_findMany, Prisma.category_create,
    Prisma.category_delete, Prisma.currency_findUnique, Prisma.currency_findMany,
    Prisma.currency_create, Prisma.currency_delete, Prisma.record_create,
    Prisma.record_findUnique, Prisma.record_findMany, Prisma.record_count,
    Prisma.record_deleteMany, Prisma.record_delete,
    Auth.user_findUnique_email, Auth.user_create_data, Prisma.user_create,
    Prisma.not_found;
  repeat match goal with
         | |- context [match ?x with _ => _ end] => destruct x eqn:?
         | |- context [if ?b then _ else _] => destruct b eqn:?
         end;
  cbn.

Ltac unfold_handlers :=
  unfold Baseline.GET_healthcheck, Baseline.POST_user, Baseline.GET_user_userId,
    Baseline.DELETE_user_userId, Baseline.GET_users,
    Baseline.PATCH_user_userId_currency, Baseline.GET_category,
    Baseline.POST_category, Baseline.DELETE_category, Baseline.GET_currency,
    Baseline.POST_currency, Baseline.DELETE_currency_id, Baseline.POST_record,
    Baseline.GET_record_recordId, Baseline.DELETE_record_recordId,
    Baseline.GET_record,
    Auth.GET_healthcheck, Auth.POST_user, Auth.POST_auth_login,
    Auth.GET_user_userId, Auth.GET_users, Auth.PATCH_user_userId_currency,
    Auth.DELETE_user_userId, Auth.GET_category, Auth.POST_category,
    Auth.DELETE_category, Auth.GET_currency, Auth.POST_currency,
    Auth.DELETE_currency_id, Auth.POST_record, Auth.GET_record_recordId,
    Auth.GET_record, Auth.DELETE_record_recordId.

Lemma NoDup_codes_snoc (l : list Currency.t) (c : Currency.t) :
  NoDup (map Currency.code l) ->
  existsb (fun x => String.eqb (Currency.code x) (Currency.code c)) l = false ->
  NoDup (map Currency.code (l ++ [c])).
Proof.
  intros Hnd Hnew. rewrite map_app. simpl.
  apply NoDup_app; [exact Hnd|repeat constructor; auto|].
  intros k Hk [<- | []]. apply in_map_iff in Hk as [x [Hx Hin]].
  pose proof (existsb_false_all _ _ x Hnew Hin) as Hne. cbn in Hne.
  apply String.eqb_neq in Hne. congruence.
Qed.

Lemma NoDup_emails_snoc (l : list Auth.User.t) (u : Auth.User.t) :
  NoDup (map Auth.User.email l) ->
  existsb (fun x => String.eqb (Auth.User.email x) (Auth.User.email u)) l = false ->
  NoDup (map Auth.User.email (l ++ [u])).
Proof.
  intros Hnd Hnew. rewrite map_app. simpl.
  apply NoDup_app; [exact Hnd|repeat constructor; auto|].
  intros k Hk [<- | []]. apply in_map_iff in Hk as [x [Hx Hin]].
  pose proof (existsb_false_all _ _ x Hnew Hin) as Hne. cbn in Hne.
  apply String.eqb_neq in Hne. congruence.
Qed.

Lemma map_map_same {A B} (key : A -> B) (f : A -> A) (l : list A) :
  (forall x, key (f x) = key x) -> map key (map f l) = map key l.
Proof.
  intros Hf. rewrite map_map. apply map_ext. exact Hf.
Qed.

Ltac codes_leaf :=
  let s := fresh "s" in
  let Hs := fresh "Hs" in
  intros s Hs; unfold unique_codes in *; open_call;
  first [ exact Hs
        | apply NoDup_map_filter; exact Hs
        | apply NoDup_codes_snoc; [exact Hs|assumption] ].

Section UniqueCodes.
Context {platform : Platform}.

Lemma baseline_handler_keeps_codes (r : Baseline.Route) (w : World) (req : Request) :
  keeps unique_codes (Baseline.handler r w req).
Proof.
  destruct r; cbn [Baseline.handler]; unfold_handlers; keep codes_leaf.
Qed.

Lemma auth_handler_keeps_codes (r : Auth.Route) (w : World) (req : Request) :
  keeps unique_codes (Auth.handler r w req).
Proof.
  destruct r; cbn [Auth.handler]; unfold_handlers; keep codes_leaf.
Qed.

End UniqueCodes.

Lemma NoDup_map_map {A B} (key : A -> B) (f : A -> A) (l : list A) :
  (forall x, key (f x) = key x) -> NoDup (map key l) -> NoDup (map key (map f l)).
Proof. intros Hf Hnd. now rewrite map_map_same. Qed.



Ltac same_key :=
  let x := fresh "x" in
  intros x;
  repeat match goal with
         | |- context [match ?y with _ => _ end] => destruct y
         | |- context [if ?b then _ else _] => destruct b
         end;
  reflexivity.

Ltac emails_leaf :=
  let s := fresh "s" in
  let Hs := fresh "Hs" in
  intros s Hs; unfold unique_emails in *; open_call;
  first [ exact Hs
        | apply NoDup_map_filter; exact Hs
        | apply NoDup_emails_snoc; [exact Hs|assumption]
        | apply NoDup_map_map; [same_key|exact Hs] ].


Section MoreInvariants.
Context {platform : Platform}.

Lemma auth_handler_keeps_emails (r : Auth.Route) (w : World) (req : Request) :
  keeps unique_emails (Auth.handler r w req).
Proof.
  destruct r; cbn [Auth.handler]; unfold_handlers; keep emails_leaf.
Qed.



(** What holds of a store and is kept by every handler holds of every store
    the router is led to. *)
Lemma baseline_serve_keeps (P : Baseline.Store -> Prop) :
  (forall r w req, keeps P (Baseline.handler r w req)) ->
  forall reqs s, P s -> P (baseline_serve reqs s).
Proof.
  intros Hkeep reqs. induction reqs as [|[[r w] req] rest IH]; intros s Hs;
    [exact Hs|].
  cbn [baseline_serve]. apply IH. unfold Baseline.router.
  apply keeps_asyncHandler; [apply Hkeep|exact Hs].
Qed.

Lemma auth_serve_keeps (P : Auth.Store -> Prop) :
  (forall r w req, keeps P (Auth.handler r w req)) ->
  forall reqs s, P s -> P (auth_serve reqs s).
Proof.
  intros Hkeep reqs. induction reqs as [|[[r w] req] rest IH]; intros s Hs;
    [exact Hs|].
  cbn [auth_serve]. apply IH. unfold Auth.router.
  destruct (Auth.public r); [apply keeps_asyncHandler; [apply Hkeep|exact Hs]|].
  destruct (Auth.authMiddleware w req) as [res|req']; [exact Hs|].
  apply keeps_asyncHandler; [apply Hkeep|exact Hs].
Qed.

End MoreInvariants.

(** X16.  Authenticated router: in every store reached from the empty
    store, no two users have the same email, whatever requests were
    served. *)
Theorem emails_stay_unique {platform : Platform}
    (reqs : list (Auth.Route * World * Request)) :
  unique_emails (auth_serve reqs empty_store).
Proof.
  apply (auth_serve_keeps (P := unique_emails) auth_handler_keeps_emails).
  constructor.
Qed.

(** X17.  Both Prisma routers: in every store reached from the empty
    store, no two currencies have the same code. *)
Theorem currency_codes_stay_unique {platform : Platform} :
  (forall reqs, unique_codes (baseline_serve reqs empty_store))
  /\ (forall reqs, unique_codes (auth_serve reqs empty_store)).
Proof.
  split; intros reqs.
  - apply (baseline_serve_keeps (P := unique_codes) baseline_handler_keeps_codes).
    constructor.
  - apply (auth_serve_keeps (P := unique_codes) auth_handler_keeps_codes).
    constructor.
Qed.


(** X19.  Both Prisma routers: in every store reached from the empty
    store, every record's user, category and currency exist and every
    user's default currency exists; no sequence of requests, answered or
    failed, leaves a dangling reference. *)
Theorem references_stay_valid {platform : Platform} :
  (forall reqs, integrity (baseline_serve reqs empty_store) = true)
  /\ (forall reqs, integrity (auth_serve reqs empty_store) = true).
Proof.
  split; intros reqs.
  - apply (baseline_serve_keeps (P := (fun s => integrity s = true)));
      [|reflexivity].
    intros r w req s Hs. apply baseline_handler_preserves, Hs.
  - apply (auth_serve_keeps (P := (fun s => integrity s = true))); [|reflexivity].
    intros r w req s Hs. apply auth_handler_preserves, Hs.
Qed.

(** ** Creating currencies and users, and using a default currency *)





(** ** A default currency set by PATCH is the one POST /record uses *)

Section DefaultCurrency.
Context {platform : Platform}.



End DefaultCurrency.



(** ** A request answered with an error changes nothing *)

(** Case analysis on what is tested, innermost test first. *)
Ltac split_case :=
  match goal with
  | |- context [match ?x with _ => _ end] =>
      lazymatch x with
      | context [match _ with _ => _ end] => fail
      | _ => destruct x eqn:?
      end
  end.

Ltac split_cases := repeat (split_case; cbn).

Section Errors.
Context {platform : Platform}.

Lemma inmemory_error_changes_nothing (r : InMemory.Route) (w : World)
    (req : Request) (st : InMemory.State) :
  400 <= status (fst (InMemory.router r w req st)) ->
  snd (InMemory.router r w req st) = st.
Proof.
  destruct r; cbn [InMemory.router];
    unfold InMemory.GET_healthcheck, InMemory.GET_user_userId,
      InMemory.DELETE_user_userId, InMemory.POST_user, InMemory.GET_users,
      InMemory.GET_category, InMemory.POST_category, InMemory.DELETE_category,
      InMemory.GET_record_recordId, InMemory.DELETE_record_recordId,
      InMemory.POST_record, InMemory.GET_record;
    cbv zeta; split_cases; cbn; intros Herr;
    try reflexivity; try (exfalso; lia);
    match goal with
    | H : (List.length (filter _ _) =? List.length _)%nat = true |- _ =>
        rewrite filter_keeps_length in H; apply negb_true_iff in H;
        rewrite (filter_nothing_out _ _ H); apply inmemory_state_eta
    end.
Qed.

End Errors.

Ltac unfold_calls :=
  unfold Prisma.shaped, Prisma.shaped_option, Prisma.shaped_list,
    Prisma.user_findUnique, Prisma.user_findMany, Prisma.user_create,
    Prisma.user_update_defaultCurrencyId, Prisma.user_delete,
    Prisma.category_findUnique, Prisma.category_findMany, Prisma.category_create,
    Prisma.category_delete, Prisma.currency_findUnique, Prisma.currency_findMany,
    Prisma.currency_create, Prisma.currency_delete, Prisma.record_create,
    Prisma.record_findUnique, Prisma.record_findMany, Prisma.record_count,
    Prisma.record_deleteMany, Prisma.record_delete,
    Auth.user_findUnique_email, Auth.user_create_data, Prisma.user_create,
    Prisma.not_found.

Section PrismaErrors.
Context {platform : Platform}.

(** After [deleteMany] no record is left to restrict the deletion. *)
Ltac no_record_left :=
  match goal with
  | H : existsb _ (filter (fun r => negb (Prisma.satisfies
                     {| Prisma.where_userId := None;
                        Prisma.where_categoryId := Some ?c;
                        Prisma.where_currencyId := None |} r)) ?l) = true |- _ =>
      rewrite (where_categoryId_only c) in H;
      change (existsb (in_category c)
                (filter (fun x => negb (in_category c x)) l) = true) in H;
      rewrite existsb_filter_negb in H; discriminate H
  | H : existsb _ (filter (fun r => negb (Prisma.satisfies
                     {| Prisma.where_userId := Some ?u;
                        Prisma.where_categoryId := None;
                        Prisma.where_currencyId := None |} r)) ?l) = true |- _ =>
      rewrite (where_userId_only u) in H;
      change (existsb (owned_by u)
                (filter (fun x => negb (owned_by u x)) l) = true) in H;
      rewrite existsb_filter_negb in H; discriminate H
  end.

Ltac error_changes_nothing :=
  unfold_handlers; cbv zeta; run; unfold_calls; unfold Baseline.float; run;
  split_cases; cbn; intros Herr;
  try (repeat split; reflexivity); try (exfalso; lia); try congruence; try no_record_left.

Lemma baseline_error_changes_nothing (r : Baseline.Route) (w : World)
    (req : Request) (s : Baseline.Store) :
  400 <= status (fst (asyncHandler (Baseline.handler r w req) s)) ->
  same_tables s (snd (asyncHandler (Baseline.handler r w req) s)).
Proof. destruct r; cbn [Baseline.handler]; error_changes_nothing. Qed.

Lemma auth_error_changes_nothing (r : Auth.Route) (w : World)
    (req : Request) (s : Auth.Store) :
  400 <= status (fst (asyncHandler (Auth.handler r w req) s)) ->
  same_tables s (snd (asyncHandler (Auth.handler r w req) s)).
Proof. destruct r; cbn [Auth.handler]; error_changes_nothing. Qed.

End PrismaErrors.

(** X23.  In the three routers, a request that is answered with a status
    of 400 or above changes nothing: the in-memory state is the one before
    the request, and in the Prisma routers the four tables are (a rejected
    insert only uses up a key of its sequence). *)
Theorem error_answers_change_nothing {platform : Platform} (w : World)
    (req : Request) :
  (forall r st,
     400 <= status (fst (InMemory.router r w req st)) ->
     snd (InMemory.router r w req st) = st)
  /\ (forall r s,
        400 <= status (fst (Baseline.router r w req s)) ->
        same_tables s (snd (Baseline.router r w req s)))
  /\ (forall r s,
        400 <= status (fst (Auth.router r w req s)) ->
        same_tables s (snd (Auth.router r w req s))).
Proof.
  split; [|split].
  - intros r st. apply inmemory_error_changes_nothing.
  - intros r s. unfold Baseline.router. apply baseline_error_changes_nothing.
  - intros r s. unfold Auth.router.
    destruct (Auth.public r); [apply auth_error_changes_nothing|].
    destruct (Auth.authMiddleware w req) as [res|req'];
      [intros _; repeat split; reflexivity|].
    apply auth_error_changes_nothing.
Qed.

Lemma error_answers_change_nothing_witness :
  let post := Demo.request [] []
                [("code", VStr "uah"); ("name", VStr "Hryvnia again")] [] in
  fst (Baseline.router (platform := Demo.platform) Baseline.post_currency
         Demo.world post Demo.baseline_store)
  = message 500 "Internal server error"
  /\ Prisma.currencies
       (snd (Baseline.router (platform := Demo.platform) Baseline.post_currency
               Demo.world post Demo.baseline_store))
     = [Demo.uah].
Proof.
  cbv zeta. split; [reflexivity|].
  destruct (@error_answers_change_nothing Demo.platform Demo.world
              (Demo.request [] []
                 [("code", VStr "uah"); ("name", VStr "Hryvnia again")] []))
    as (_ & Hbaseline & _).
  destruct (Hbaseline Baseline.post_currency Demo.baseline_store
              ltac:(vm_compute; discriminate)) as (_ & _ & Hcur & _).
  exact Hcur.
Defined.

(** ** Which routes can show [passwordHash] *)

Lemma categories_hide_hash (l : list Category.t) :
  existsb (mentions "passwordHash") (map Category.toJSON l) = false.
Proof. induction l as [|c l IH]; [reflexivity|exact IH]. Qed.

Lemma currencies_hide_hash (l : list Currency.t) :
  existsb (mentions "passwordHash") (map Currency.toJSON l) = false.
Proof. induction l as [|c l IH]; [reflexivity|exact IH]. Qed.

Section OtherRoutes.
Context {platform : Platform}.

Lemma other_handlers_hide_hash (r : Auth.Route) (w : World) (req : Request)
    (s : Auth.Store) :
  In r [Auth.healthcheck; Auth.delete_user; Auth.get_category;
        Auth.post_category; Auth.delete_category; Auth.get_currency;
        Auth.post_currency; Auth.delete_currency; Auth.post_record;
        Auth.delete_record] ->
  mentions "passwordHash" (payload (fst (asyncHandler (Auth.handler r w req) s)))
  = false.
Proof.
  intros Hr. repeat (destruct Hr as [<- | Hr]); [..|destruct Hr];
    cbn [Auth.handler]; unfold_handlers; cbv zeta; run; unfold_calls; run;
    split_cases; cbn;
    first [reflexivity | apply categories_hide_hash | apply currencies_hide_hash].
Qed.

End OtherRoutes.

(** X24.  Authenticated router: apart from GET /record/<id> and GET
    /record, which join the user to each record, no route answers with a
    document that carries [passwordHash], whatever the request, the token
    and the store. *)
Theorem only_record_reads_show_passwordHash {platform : Platform}
    (r : Auth.Route) (w : World) (req : Request) (s : Auth.Store) :
  r <> Auth.get_record_by_id -> r <> Auth.get_record ->
  mentions "passwordHash" (payload (fst (Auth.router r w req s))) = false.
Proof.
  intros Hone Hmany.
  destruct r; try contradiction;
    first
      [ apply user_routes_hide_hash; cbn; tauto
      | unfold Auth.router;
        match goal with
        | |- context [Auth.public ?r] => destruct (Auth.public r)
        end;
        [ apply other_handlers_hide_hash; cbn; tauto | ];
        destruct (Auth.authMiddleware w req) as [res|req'] eqn:Hmw;
        [ exact (middleware_hides_hash w req Hmw)
        | apply other_handlers_hide_hash; cbn; tauto ] ].
Qed.

Lemma only_record_reads_show_passwordHash_witness :
  mentions "passwordHash"
    (payload (fst (Auth.router (platform := Demo.platform) Auth.post_auth_login
                     Demo.world
                     (Demo.request [] []
                        (Demo.credentials VUndefined (VStr "alice@example.com")
                           (VStr "secret1")) [])
                     Demo.auth_store)))
  = false.
Proof.
  apply (@only_record_reads_show_passwordHash Demo.platform Auth.post_auth_login
           Demo.world
           (Demo.request [] []
              (Demo.credentials VUndefined (VStr "alice@example.com")
                 (VStr "secret1")) [])
           Demo.auth_store); discriminate.
Defined.
